(** * Ser Pleno: the wellness Store (state.js) and its analytics (analytics.js)

    A shallow embedding of the state/gamification engine and of the analytics
    derivation, with the properties the specification states about them.

    Conventions of the embedding.

    - JavaScript integers (xp, level, streak, ids, counts) are [Z].
    - A JavaScript string is a [string]: one [ascii] per UTF-16 code unit
      below 256 (so [String.length] is the JS [length]).  The display texts
      of the static catalog are carried as their bytes and never inspected.
    - Averages and percentages are exact rationals ([Q]) with one extra value
      for [NaN]; [Number.prototype.toFixed(1)] is rounding of the exact value
      to the nearest tenth, ties away from zero.  IEEE-754 rounding is not
      modelled.  On a mood window (at most 7 values from 1 to 5) the tests
      come out as in double arithmetic: a difference of means is 1/60 or
      more away from 0.3, a mean 1/7 or more away from 3 unless it is 3, and
      a mean that is a decimal tie is a multiple of 1/4.  On longer lists
      and on goal counts the two can differ only where the exact value is a
      decimal tie that has no finite binary expansion.
    - [Math.pow(1.2, level - 1)] is the exact power of 6/5.
    - The system clock is part of an explicit [Host.t] value, read once per
      operation.
    - [this.observer.notify] calls are collected, in order, in the list of
      events an operation returns.  Toasts ([notify.success], [notify.error])
      and the debounced [save] touch neither the document nor the observer
      synchronously and are left out. *)

From Stdlib Require Import ZArith QArith Qabs Qround Qreals Reals.
From Stdlib Require Import List String Ascii Bool Lia Lqa Arith.
Import ListNotations.

Open Scope string_scope.
Open Scope Z_scope.

(** ** JavaScript strings *)

Module JsString.

(** WhiteSpace and LineTerminator code units below 256:
    TAB, LF, VT, FF, CR, SPACE, NBSP. *)
Definition isWhiteSpace (c : ascii) : bool :=
  let n := nat_of_ascii c in
  (Nat.leb 9 n && Nat.leb n 13) || Nat.eqb n 32 || Nat.eqb n 160.

Fixpoint trimStart (s : string) : string :=
  match s with
  | EmptyString => EmptyString
  | String c r => if isWhiteSpace c then trimStart r else s
  end.

(** [trimEnd] keeps a character iff something that is not white space
    follows it or it is not white space itself. *)
Fixpoint trimEnd (s : string) : string :=
  match s with
  | EmptyString => EmptyString
  | String c r =>
      match trimEnd r with
      | EmptyString => if isWhiteSpace c then EmptyString else String c EmptyString
      | r' => String c r'
      end
  end.

(** [String.prototype.trim] *)
Definition trim (s : string) : string := trimEnd (trimStart s).

Definition isEmpty (s : string) : bool :=
  match s with EmptyString => true | _ => false end.

(** [Array.prototype.includes] on an array of strings *)
Fixpoint includes (l : list string) (x : string) : bool :=
  match l with
  | [] => false
  | y :: r => String.eqb y x || includes r x
  end.

End JsString.

(** ** validators.js *)

Module Validator.
Import JsString.

(** The messages [VALIDATION_RULES] builds from a field name:
    [`${fieldName} é obrigatório.`] and
    [`${fieldName} deve ter pelo menos ${minLength} caracteres.`],
    [`${fieldName} deve ter no máximo ${maxLength} caracteres.`]. *)
Inductive Message : Type :=
| MsgRequired (fieldName : string)
| MsgMinLength (fieldName : string) (minLength : Z)
| MsgMaxLength (fieldName : string) (maxLength : Z)
| MsgPastDate.   (* 'A data do agendamento não pode ser no passado.' *)

Inductive Rule : Type :=
| RRequired
| RMinLength (value : Z)
| RMaxLength (value : Z).

(** [VALIDATION_RULES.required]: [!value || String(value).trim() === ''] *)
Definition required (value fieldName : string) : option Message :=
  if isEmpty value || isEmpty (trim value)
  then Some (MsgRequired fieldName) else None.

(** [VALIDATION_RULES.minLength]: [value && String(value).length < minLength] *)
Definition minLength (value fieldName : string) (minLen : Z) : option Message :=
  if negb (isEmpty value) && (Z.of_nat (String.length value) <? minLen)
  then Some (MsgMinLength fieldName minLen) else None.

(** [VALIDATION_RULES.maxLength] *)
Definition maxLength (value fieldName : string) (maxLen : Z) : option Message :=
  if negb (isEmpty value) && (maxLen <? Z.of_nat (String.length value))
  then Some (MsgMaxLength fieldName maxLen) else None.

Definition applyRule (value fieldName : string) (rule : Rule) : option Message :=
  match rule with
  | RRequired => required value fieldName
  | RMinLength v => minLength value fieldName v
  | RMaxLength v => maxLength value fieldName v
  end.

(** [Validator.validateField]: the errors of the rules that fail, in rule order. *)
Fixpoint validateField (value : string) (rules : list Rule) (fieldName : string)
  : list Message :=
  match rules with
  | [] => []
  | rule :: rest =>
      match applyRule value fieldName rule with
      | Some error => error :: validateField value rest fieldName
      | None => validateField value rest fieldName
      end
  end.

(** [SANITIZERS.html]: the text is assigned to [textContent] and read back
    as [innerHTML], that is, serialised as an HTML text node: ampersand,
    less-than, greater-than and the no-break space are escaped. *)
Definition escapeChar (c : ascii) : string :=
  if Ascii.eqb c "&" then "&amp;"
  else if Ascii.eqb c "<" then "&lt;"
  else if Ascii.eqb c ">" then "&gt;"
  else if Nat.eqb (nat_of_ascii c) 160 then "&nbsp;"
  else String c EmptyString.

Fixpoint html (str : string) : string :=
  match str with
  | EmptyString => EmptyString
  | String c r => escapeChar c ++ html r
  end.

(** [Validator.sanitize(str)] with the default type ['html'] *)
Definition sanitize (str : string) : string := html str.

(** [SANITIZERS.text]: [trim], the removal of script elements (a regular
    expression replacement, taken from the host), and [slice(0, 10000)]. *)
Definition text (stripScripts : string -> string) (str : string) : string :=
  if isEmpty str then EmptyString
  else String.substring 0 (Z.to_nat 10000) (stripScripts (trim str)).

Record Validation : Type := mkValidation
  { isValid : bool; errors : list Message; sanitized : option string }.

(** [Validator.validateJournalEntry] *)
Definition validateJournalEntry (stripScripts : string -> string) (content : string)
  : Validation :=
  let errors :=
    validateField content [RRequired; RMinLength 3; RMaxLength 10000] "Conteúdo do diário" in
  if (0 <? Z.of_nat (List.length errors)) then mkValidation false errors None
  else mkValidation true [] (Some (text stripScripts content)).

(** [Validator.validateGoal] *)
Definition validateGoal (stripScripts : string -> string) (title : string) : Validation :=
  let errors :=
    validateField title [RRequired; RMinLength 3; RMaxLength 200] "Meta" in
  if (0 <? Z.of_nat (List.length errors)) then mkValidation false errors None
  else mkValidation true [] (Some (text stripScripts title)).

(** [Validator.validateAppointment]; a missing property of [data] is the
    empty string, which is as falsy as [undefined]. *)
Definition validateAppointment (isBeforeNow : string -> bool) (date time : string)
  : list Message :=
  let dateErrors := validateField date [RRequired] "Data" in
  let timeErrors := validateField time [RRequired] "Horário" in
  let dateErrors :=
    if negb (isEmpty date) &&
       isBeforeNow (date ++ "T" ++ (if isEmpty time then "00:00" else time))
    then (dateErrors ++ [MsgPastDate])%list else dateErrors in
  (dateErrors ++ timeErrors)%list.

End Validator.

(** ** config.js: static catalogs and the initial document *)

(** A property read [obj[key]] on an object literal finds an own property,
    or a member inherited from [Object.prototype], or [undefined]. *)
Inductive Property (A : Type) : Type :=
| Own (a : A)
| Inherited (name : string)
| Undefined.
Arguments Own {A} a.
Arguments Inherited {A} name.
Arguments Undefined {A}.

(** The property names every object literal inherits from [Object.prototype];
    each of them holds a function or an object, hence a truthy value. *)
Definition objectPrototypeKeys : list string :=
  [ "constructor"; "hasOwnProperty"; "isPrototypeOf"; "propertyIsEnumerable";
    "toLocaleString"; "toString"; "valueOf"; "__proto__";
    "__defineGetter__"; "__defineSetter__"; "__lookupGetter__"; "__lookupSetter__" ].

Fixpoint assoc {A : Type} (key : string) (l : list (string * A)) : option A :=
  match l with
  | [] => None
  | (k, v) :: r => if String.eqb k key then Some v else assoc key r
  end.

(** [obj[key]] for the object literal with the own properties [own] *)
Definition getProperty {A : Type} (own : list (string * A)) (key : string) : Property A :=
  match assoc key own with
  | Some a => Own a
  | None => if JsString.includes objectPrototypeKeys key then Inherited key else Undefined
  end.

Module Challenge.
Record t : Type := mk { id : string; title : string; description : string; xp : Z }.
End Challenge.

Module Badge.
Record t : Type := mk { id : string; title : string; icon : string; description : string }.
End Badge.

Definition CHALLENGES : list Challenge.t :=
  [ Challenge.mk "challenge_1" "Respiração Profunda" "Faça 1 minuto de respiração consciente." 15;
    Challenge.mk "challenge_2" "Momento de Gratidão" "Anote 3 coisas pelas quais você é grato hoje." 20;
    Challenge.mk "challenge_3" "Pausa Ativa" "Levante-se e alongue-se por 5 minutos." 15;
    Challenge.mk "challenge_4" "Hidratação" "Beba um copo de água agora." 10;
    Challenge.mk "challenge_5" "Organização" "Organize sua mesa ou ambiente de estudo." 25 ].

Definition BADGES_own : list (string * Badge.t) :=
  [ ("JOURNAL_START", Badge.mk "JOURNAL_START" "Diário Iniciado" "book-plus" "Escreveu sua primeira entrada no diário.");
    ("STREAK_3", Badge.mk "STREAK_3" "Trio Imbatível" "flame" "Fez check-in por 3 dias seguidos.");
    ("STREAK_7", Badge.mk "STREAK_7" "Semana Consistente" "calendar-check" "Fez check-in por 7 dias seguidos.");
    ("LEVEL_5", Badge.mk "LEVEL_5" "Nível 5" "star" "Alcançou o nível 5 de bem-estar.");
    ("GOAL_MASTER", Badge.mk "GOAL_MASTER" "Mestre das Metas" "target" "Completou 5 metas pessoais.");
    ("CHALLENGE_HERO", Badge.mk "CHALLENGE_HERO" "Herói dos Desafios" "award" "Completou todos os desafios disponíveis.") ].

(** [BADGES[badgeId]] *)
Definition BADGES (badgeId : string) : Property Badge.t := getProperty BADGES_own badgeId.

(** ** The wellness document *)

Inductive JsValue : Type :=
| VBool (b : bool)
| VStr (s : string).

Module Goal.
Record t : Type := mk
  { id : Z; title : string; completed : bool;
    createdAt : option string; completedAt : option string }.
End Goal.

Module JournalEntry.
Record t : Type := mk
  { id : Z; date : string; content : string;
    createdAt : option string; mood : option string; updatedAt : option string }.
End JournalEntry.

Module Feeling.
(** [{ emotion, date, timestamp, ...details }]; [extra] holds the other
    properties [details] brings. *)
Record t : Type := mk
  { emotion : string; date : string; timestamp : string;
    extra : list (string * JsValue) }.
End Feeling.

Module Details.
(** The [details] argument of [recordFeeling].  Spread last into the object
    literal, its properties [emotion], [date] and [timestamp], when present,
    replace the ones [recordFeeling] has just written. *)
Record t : Type := mk
  { emotion : option string; date : option string; timestamp : option string;
    others : list (string * JsValue) }.
Definition empty : t := mk None None None [].
End Details.

Module MoodEntry.
Record t : Type := mk { date : string; mood : string }.
End MoodEntry.

Module Appointment.
Record t : Type := mk
  { id : Z; date : string; professional : string; status : string;
    reason : option string; createdAt : option string }.
End Appointment.

Module Slot.
Record t : Type := mk { date : string; time : string; available : bool }.
End Slot.

Module Message.
Record t : Type := mk
  { id : Z; from : string; subject : string; content : string;
    date : string; read : bool }.
End Message.

Module GuidanceTasks.
Record t : Type := mk { journal : bool; assessment : bool; feedback : bool }.
End GuidanceTasks.

Module UserProfile.
Record t : Type := mk
  { xp : Z; level : Z; checkInStreak : Z; lastCheckInDate : option string;
    badges : list string; completedChallenges : list string }.

Definition set_xp (v : Z) (p : t) : t :=
  mk v (level p) (checkInStreak p) (lastCheckInDate p) (badges p) (completedChallenges p).
Definition set_level (v : Z) (p : t) : t :=
  mk (xp p) v (checkInStreak p) (lastCheckInDate p) (badges p) (completedChallenges p).
Definition set_checkInStreak (v : Z) (p : t) : t :=
  mk (xp p) (level p) v (lastCheckInDate p) (badges p) (completedChallenges p).
Definition set_lastCheckInDate (v : option string) (p : t) : t :=
  mk (xp p) (level p) (checkInStreak p) v (badges p) (completedChallenges p).
Definition set_badges (v : list string) (p : t) : t :=
  mk (xp p) (level p) (checkInStreak p) (lastCheckInDate p) v (completedChallenges p).
Definition set_completedChallenges (v : list string) (p : t) : t :=
  mk (xp p) (level p) (checkInStreak p) (lastCheckInDate p) (badges p) v.
End UserProfile.

Module Document.
Record t : Type := mk
  { userName : option string;
    currentDate : string;
    guidanceTasks : GuidanceTasks.t;
    userProfile : UserProfile.t;
    goals : list Goal.t;
    journalEntries : list JournalEntry.t;
    feelings : list Feeling.t;
    selfAssessments : list JsValue;
    messages : list Message.t;
    appointments : list Appointment.t;
    availableSlots : list Slot.t;
    moodHistory : list MoodEntry.t }.

Definition set_userName (v : option string) (d : t) : t :=
  mk v (currentDate d) (guidanceTasks d) (userProfile d) (goals d) (journalEntries d)
     (feelings d) (selfAssessments d) (messages d) (appointments d) (availableSlots d)
     (moodHistory d).
Definition set_userProfile (v : UserProfile.t) (d : t) : t :=
  mk (userName d) (currentDate d) (guidanceTasks d) v (goals d) (journalEntries d)
     (feelings d) (selfAssessments d) (messages d) (appointments d) (availableSlots d)
     (moodHistory d).
Definition set_goals (v : list Goal.t) (d : t) : t :=
  mk (userName d) (currentDate d) (guidanceTasks d) (userProfile d) v (journalEntries d)
     (feelings d) (selfAssessments d) (messages d) (appointments d) (availableSlots d)
     (moodHistory d).
Definition set_journalEntries (v : list JournalEntry.t) (d : t) : t :=
  mk (userName d) (currentDate d) (guidanceTasks d) (userProfile d) (goals d) v
     (feelings d) (selfAssessments d) (messages d) (appointments d) (availableSlots d)
     (moodHistory d).
Definition set_feelings (v : list Feeling.t) (d : t) : t :=
  mk (userName d) (currentDate d) (guidanceTasks d) (userProfile d) (goals d)
     (journalEntries d) v (selfAssessments d) (messages d) (appointments d)
     (availableSlots d) (moodHistory d).
Definition set_currentDate (v : string) (d : t) : t :=
  mk (userName d) v (guidanceTasks d) (userProfile d) (goals d) (journalEntries d)
     (feelings d) (selfAssessments d) (messages d) (appointments d) (availableSlots d)
     (moodHistory d).
Definition set_appointments (v : list Appointment.t) (d : t) : t :=
  mk (userName d) (currentDate d) (guidanceTasks d) (userProfile d) (goals d)
     (journalEntries d) (feelings d) (selfAssessments d) (messages d) v
     (availableSlots d) (moodHistory d).
Definition set_availableSlots (v : list Slot.t) (d : t) : t :=
  mk (userName d) (currentDate d) (guidanceTasks d) (userProfile d) (goals d)
     (journalEntries d) (feelings d) (selfAssessments d) (messages d) (appointments d)
     v (moodHistory d).
Definition set_moodHistory (v : list MoodEntry.t) (d : t) : t :=
  mk (userName d) (currentDate d) (guidanceTasks d) (userProfile d) (goals d)
     (journalEntries d) (feelings d) (selfAssessments d) (messages d) (appointments d)
     (availableSlots d) v.
End Document.

(** What the host gives the Store: the readings of the system clock during
    one operation, the date at which config.js was evaluated, the [Date]
    parsing and arithmetic of the scheduling operations, and the
    regular-expression replacement of [SANITIZERS.text]. *)
Module Host.
Record t : Type := mk
  { (* new Date().toISOString().split("T")[0]: the UTC date of now *)
    today : string;
    (* the same for the Date that setDate(getDate() - 1) moves one local
       calendar day back *)
    yesterdayStr : string;
    (* new Date().toISOString() *)
    nowISO : string;
    (* Date.now() *)
    nowMillis : Z;
    (* new Date().toLocaleDateString('pt-BR') *)
    localeDate : string;
    (* INITIAL_STATE.currentDate, the UTC date at which config.js was loaded *)
    moduleDate : string;
    (* new Date(text) < new Date() *)
    isBeforeNow : string -> bool;
    (* the UTC date of new Date(text + 'T00:00:00') after
       setDate(getDate() + n) *)
    shiftDate : string -> Z -> string;
    (* text.replace(re, '') for the script-element expression of SANITIZERS.text *)
    stripScripts : string -> string }.
End Host.

Definition INITIAL_STATE (currentDate : string) : Document.t :=
  Document.mk
    None
    currentDate
    (GuidanceTasks.mk false false false)
    (UserProfile.mk 120 2 3 None ["JOURNAL_START"; "STREAK_3"] ["challenge_1"; "challenge_2"])
    [ Goal.mk 1 "Praticar 30 minutos de meditação" true None None;
      Goal.mk 2 "Organizar a semana de estudos" false None None;
      Goal.mk 3 "Fazer uma caminhada ao ar livre" false None None;
      Goal.mk 4 "Escrever no diário por 5 dias seguidos" true None None;
      Goal.mk 5 "Ler um capítulo de livro sobre bem-estar" false None None ]
    [ JournalEntry.mk 1 "08/09/2025" "Primeiro dia usando o app. Parece promissor!" None None None;
      JournalEntry.mk 2 "07/09/2025" "Hoje foi um dia desafiador. Tive que lidar com várias tarefas ao mesmo tempo e me senti um pouco sobrecarregado. Mas consegui terminar a maioria delas!" None None None;
      JournalEntry.mk 3 "06/09/2025" "Comecei a planejar meu projeto de biologia. A parte inicial é sempre a mais difícil, mas me sinto motivado para seguir em frente." None None None;
      JournalEntry.mk 4 "05/09/2025" "Tive uma conversa muito boa com um amigo hoje. Foi ótimo desabafar e ouvir a perspectiva dele sobre algumas coisas." None None None;
      JournalEntry.mk 5 "04/09/2025" "Me senti um pouco ansioso hoje. Acho que é por causa das provas que estão chegando. Preciso encontrar maneiras de relaxar mais." None None None ]
    [ Feeling.mk "bom" "2025-09-01" "2025-09-01T10:00:00Z" [];
      Feeling.mk "neutro" "2025-09-02" "2025-09-02T10:00:00Z" [];
      Feeling.mk "ruim" "2025-09-03" "2025-09-03T10:00:00Z" [];
      Feeling.mk "neutro" "2025-09-04" "2025-09-04T10:00:00Z" [];
      Feeling.mk "otimo" "2025-09-05" "2025-09-05T10:00:00Z" [];
      Feeling.mk "bom" "2025-09-06" "2025-09-06T10:00:00Z" [];
      Feeling.mk "neutro" "2025-09-07" "2025-09-07T10:00:00Z" [];
      Feeling.mk "ruim" "2025-09-08" "2025-09-08T10:00:00Z" [] ]
    []
    [ Message.mk 1 "Psicóloga Ana" "Confirmação de Agendamento" "Olá! Seu atendimento está confirmado para 15/09/2025 às 14:00. Até lá!" "2025-09-08" false;
      Message.mk 2 "Psicóloga Solange" "Material de Apoio" "Aqui está o link para o artigo sobre gerenciamento de estresse que comentamos: <a href='#' class='text-blue-600 underline'>Clique aqui</a>." "2025-09-05" true;
      Message.mk 3 "Psicólogo Bruno" "Dicas para Melhorar o Sono" "Olá! Seguem algumas dicas para melhorar a qualidade do seu sono: manter uma rotina, evitar telas antes de dormir e criar um ambiente tranquilo." "2025-08-28" true ]
    [ Appointment.mk 1 "2025-09-15 14:00" "Psicóloga Ana" "confirmed" None None;
      Appointment.mk 2 "2025-09-16 16:00" "Psicóloga Solange" "confirmed" None None ]
    [ Slot.mk "2025-10-03" "09:00" true;
      Slot.mk "2025-10-03" "10:00" false;
      Slot.mk "2025-10-03" "11:00" true;
      Slot.mk "2025-10-03" "14:00" true;
      Slot.mk "2025-10-03" "15:00" true;
      Slot.mk "2025-10-03" "16:00" false;
      Slot.mk "2025-10-04" "22:00" true ]
    [ MoodEntry.mk "2025-09-01" "bom";
      MoodEntry.mk "2025-09-02" "neutro";
      MoodEntry.mk "2025-09-03" "ruim";
      MoodEntry.mk "2025-09-04" "neutro";
      MoodEntry.mk "2025-09-05" "otimo";
      MoodEntry.mk "2025-09-06" "bom";
      MoodEntry.mk "2025-09-07" "neutro";
      MoodEntry.mk "2025-09-08" "ruim" ].

(** ** JavaScript numbers of the statistics *)

Module JsNumber.
Local Open Scope Q_scope.

(** A number of the analytics: [NaN] or an exact rational. *)
Inductive number : Type :=
| NaN
| Num (q : Q).

(** The result of [x.toFixed(1)]: the string ["NaN"], or the decimal string
    with one fractional digit whose value is [t/10]. *)
Inductive fixed1 : Type :=
| FixedNaN
| Tenths (t : Z).

Definition ofZ (z : Z) : number := Num (inject_Z z).

Definition add (a b : number) : number :=
  match a, b with
  | Num x, Num y => Num (x + y)
  | _, _ => NaN
  end.

Definition sub (a b : number) : number :=
  match a, b with
  | Num x, Num y => Num (x - y)
  | _, _ => NaN
  end.

Definition mul (a b : number) : number :=
  match a, b with
  | Num x, Num y => Num (x * y)
  | _, _ => NaN
  end.

(** [a / n] for a positive count [n] *)
Definition divCount (a : number) (n : nat) : number :=
  match a with
  | Num x => Num (x / inject_Z (Z.of_nat n))
  | NaN => NaN
  end.

(** [Math.abs] *)
Definition abs (a : number) : number :=
  match a with
  | Num x => Num (Qabs x)
  | NaN => NaN
  end.

Definition Qltb (x y : Q) : bool := negb (Qle_bool y x).

(** [a < b], [a >= b], [a > b]: every comparison with [NaN] is false. *)
Definition lt (a b : number) : bool :=
  match a, b with
  | Num x, Num y => Qltb x y
  | _, _ => false
  end.

Definition ge (a b : number) : bool :=
  match a, b with
  | Num x, Num y => Qle_bool y x
  | _, _ => false
  end.

Definition gt (a b : number) : bool := lt b a.

(** The integer [n] for which [n / 10 - x] is as close to zero as possible,
    the larger one of two; the sign is handled apart, as [toFixed] does. *)
Definition roundTenths (x : Q) : Z :=
  if Qle_bool 0 x then Qfloor (x * 10 + (1 # 2))
  else (- Qfloor (- x * 10 + (1 # 2)))%Z.

(** [x.toFixed(1)] *)
Definition toFixed1 (x : number) : fixed1 :=
  match x with
  | NaN => FixedNaN
  | Num q => Tenths (roundTenths q)
  end.

(** The number a [toFixed(1)] string converts to when it is compared
    with a number. *)
Definition ofFixed1 (s : fixed1) : number :=
  match s with
  | FixedNaN => NaN
  | Tenths t => Num (t # 10)
  end.

End JsNumber.

(** ** state.js: the Store *)

Module AppState.
Import JsString.

(** Events published on the observer bus. *)
Inductive Event : Type :=
| UserLogin (userName : string)                                  (* user:login *)
| XpAdded (amount : Z) (reason : string) (previousXp currentXp : Z) (* xp:added *)
| UserLevelup (level : Z)                                        (* user:levelup *)
| BadgeAwarded (badge : Property Badge.t)                        (* badge:awarded *)
| CheckinUpdated (streak : Z)                                    (* checkin:updated *)
| GoalAdded (goal : Goal.t)                                      (* goal:added *)
| GoalToggled (goal : Goal.t)                                    (* goal:toggled *)
| GoalDeleted (goal : Goal.t)                                    (* goal:deleted *)
| JournalCreated (entry : JournalEntry.t)                        (* journal:created *)
| JournalUpdated (entry : JournalEntry.t)                        (* journal:updated *)
| JournalDeleted (entry : JournalEntry.t)                        (* journal:deleted *)
| FeelingRecorded (feeling : Feeling.t) (streak : Z)             (* feeling:recorded *)
| ChallengeCompleted (challenge : Challenge.t)                   (* challenge:completed *)
| AppointmentScheduled (appointment : Appointment.t)             (* appointment:scheduled *)
| AppointmentCancelled (appointment : Appointment.t)             (* appointment:cancelled *)
| SchedulingDateChanged (currentDate : string).                  (* scheduling:date-changed *)

(** A method of the Store: it reads and writes [this.data] and publishes
    events. *)
Definition M (A : Type) : Type := Document.t -> A * Document.t * list Event.

Definition ret {A : Type} (a : A) : M A := fun d => (a, d, []).

Definition bind {A B : Type} (m : M A) (f : A -> M B) : M B :=
  fun d =>
    let '(a, d1, e1) := m d in
    let '(b, d2, e2) := f a d1 in
    (b, d2, (e1 ++ e2)%list).

Declare Scope store_scope.
Delimit Scope store_scope with store.
Notation "x <- c ;; k" := (bind c (fun x => k))
  (at level 61, c at next level, right associativity) : store_scope.
Notation "c ;; k" := (bind c (fun _ => k))
  (at level 61, right associativity) : store_scope.
Local Open Scope store_scope.

Definition gets {A : Type} (f : Document.t -> A) : M A := fun d => (f d, d, []).
Definition modify (f : Document.t -> Document.t) : M unit := fun d => (tt, f d, []).
Definition notify (e : Event) : M unit := fun d => (tt, d, [e]).

Definition profile : M UserProfile.t := gets Document.userProfile.
Definition modifyProfile (f : UserProfile.t -> UserProfile.t) : M unit :=
  modify (fun d => Document.set_userProfile (f (Document.userProfile d)) d).

Definition document {A : Type} (r : A * Document.t * list Event) : Document.t := snd (fst r).
Definition result {A : Type} (r : A * Document.t * list Event) : A := fst (fst r).
Definition events {A : Type} (r : A * Document.t * list Event) : list Event := snd r.

Definition xpOf (d : Document.t) : Z := UserProfile.xp (Document.userProfile d).
Definition levelOf (d : Document.t) : Z := UserProfile.level (Document.userProfile d).
Definition badgesOf (d : Document.t) : list string :=
  UserProfile.badges (Document.userProfile d).
Definition streakOf (d : Document.t) : Z :=
  UserProfile.checkInStreak (Document.userProfile d).
Definition lastCheckInOf (d : Document.t) : option string :=
  UserProfile.lastCheckInDate (Document.userProfile d).
Definition completedOf (d : Document.t) : list string :=
  UserProfile.completedChallenges (Document.userProfile d).

(** The object a mutation returns: [success], and the optional properties
    [errors], [message] and the produced [goal], [entry], [feeling] or
    [challenge]. *)
Inductive Entity : Type :=
| EGoal (goal : Goal.t)
| EEntry (entry : JournalEntry.t)
| EFeeling (feeling : Feeling.t)
| EChallenge (challenge : Challenge.t)
| EAppointment (appointment : Appointment.t).

Record Result : Type := mkResult
  { success : bool;
    errors : option (list Validator.Message);
    message : option string;
    entity : option Entity }.

(** [xpForNextLevel]: [Math.floor(100 * Math.pow(1.2, level - 1))], with
    1.2 = 6/5 and the power taken exactly. *)
Definition xpForNextLevel (level : Z) : Z :=
  if 1 <=? level
  then (100 * 6 ^ (level - 1)) / 5 ^ (level - 1)
  else (100 * 5 ^ (1 - level)) / 6 ^ (1 - level).

(** [awardBadge] *)
Definition awardBadge (badgeId : string) : M unit :=
  p <- profile ;;
  if negb (includes (UserProfile.badges p) badgeId) then
    modifyProfile (UserProfile.set_badges (UserProfile.badges p ++ [badgeId])%list) ;;
    match BADGES badgeId with
    | Undefined => ret tt
    | badge => notify (BadgeAwarded badge)
    end
  else ret tt.

(** [checkForLevelUp], the recursion unrolled at most [fuel] times. *)
Fixpoint checkForLevelUp_fuel (fuel : nat) : M unit :=
  match fuel with
  | O => ret tt
  | S fuel' =>
      p <- profile ;;
      let requiredXp := xpForNextLevel (UserProfile.level p) in
      if UserProfile.xp p >=? requiredXp then
        modifyProfile (fun p => UserProfile.set_level (UserProfile.level p + 1) p) ;;
        modifyProfile (fun p => UserProfile.set_xp (UserProfile.xp p - requiredXp) p) ;;
        p <- profile ;;
        notify (UserLevelup (UserProfile.level p)) ;;
        (if UserProfile.level p =? 5 then awardBadge "LEVEL_5" else ret tt) ;;
        p <- profile ;;
        if UserProfile.xp p >=? xpForNextLevel (UserProfile.level p)
        then checkForLevelUp_fuel fuel'
        else ret tt
      else ret tt
  end.

(** A bound on the number of nested calls: below level 1 a call raises the
    level, from level 1 on it takes at least 100 from [xp]. *)
Definition levelUpFuel (p : UserProfile.t) : nat :=
  S (Z.to_nat (UserProfile.xp p) + Z.to_nat (1 - UserProfile.level p)).

(** [checkForLevelUp] *)
Definition checkForLevelUp : M unit :=
  fun d => checkForLevelUp_fuel (levelUpFuel (Document.userProfile d)) d.

(** One call of [checkForLevelUp] up to its recursive test, for a profile
    that has the required XP: the level-up itself. *)
Definition levelUp : M unit :=
  p <- profile ;;
  let requiredXp := xpForNextLevel (UserProfile.level p) in
  modifyProfile (fun p => UserProfile.set_level (UserProfile.level p + 1) p) ;;
  modifyProfile (fun p => UserProfile.set_xp (UserProfile.xp p - requiredXp) p) ;;
  p <- profile ;;
  notify (UserLevelup (UserProfile.level p)) ;;
  (if UserProfile.level p =? 5 then awardBadge "LEVEL_5" else ret tt).

(** [addXp(amount, reason)] *)
Definition addXp (amount : Z) (reason : string) : M unit :=
  if (amount =? 0) || (amount <=? 0) then ret tt
  else
    previous <- profile ;;
    let previousXp := UserProfile.xp previous in
    modifyProfile (fun p => UserProfile.set_xp (UserProfile.xp p + amount) p) ;;
    checkForLevelUp ;;
    p <- profile ;;
    notify (XpAdded amount reason previousXp (UserProfile.xp p)).

(** [lastDate === day] for a [lastDate] that may be [null] *)
Definition dateIs (lastDate : option string) (day : string) : bool :=
  match lastDate with
  | Some s => String.eqb s day
  | None => false
  end.

Record StreakResult : Type := mkStreak { continued : bool; streak : Z }.

(** [updateCheckInStreak] *)
Definition updateCheckInStreak (h : Host.t) : M StreakResult :=
  p <- profile ;;
  let today := Host.today h in
  let lastDate := UserProfile.lastCheckInDate p in
  if dateIs lastDate today then
    ret (mkStreak false (UserProfile.checkInStreak p))
  else
    let yesterdayStr := Host.yesterdayStr h in
    (if dateIs lastDate yesterdayStr
     then modifyProfile (fun p => UserProfile.set_checkInStreak (UserProfile.checkInStreak p + 1) p)
     else modifyProfile (UserProfile.set_checkInStreak 1)) ;;
    modifyProfile (UserProfile.set_lastCheckInDate (Some today)) ;;
    p <- profile ;;
    let streak := UserProfile.checkInStreak p in
    (if streak =? 3 then awardBadge "STREAK_3" else ret tt) ;;
    (if streak =? 7 then awardBadge "STREAK_7" else ret tt) ;;
    notify (CheckinUpdated streak) ;;
    ret (mkStreak true streak).

(** [getInitialState]: a deep clone of [INITIAL_STATE] *)
Definition getInitialState (h : Host.t) : Document.t := INITIAL_STATE (Host.moduleDate h).

(** [login] *)
Definition login (h : Host.t) (userName : string) : M Result :=
  let validation :=
    Validator.validateField userName [Validator.RRequired; Validator.RMinLength 2] "Nome" in
  if (0 <? Z.of_nat (List.length validation)) then
    ret (mkResult false (Some validation) None None)
  else
    modify (fun _ => getInitialState h) ;;
    modify (Document.set_userName (Some (Validator.sanitize userName))) ;;
    name <- gets Document.userName ;;
    match name with
    | Some n => notify (UserLogin n)
    | None => ret tt
    end ;;
    ret (mkResult true None None None).

(** [Array.prototype.findIndex]: the first index whose element satisfies
    [f], or -1. *)
Fixpoint findIndex {A : Type} (f : A -> bool) (l : list A) : Z :=
  match l with
  | [] => -1
  | x :: r => if f x then 0 else
                let i := findIndex f r in
                if i =? -1 then -1 else i + 1
  end.

(** [l.splice(index, 1)] for an index [findIndex] returned: what is left of [l]. *)
Fixpoint removeAt {A : Type} (index : nat) (l : list A) : list A :=
  match l, index with
  | [], _ => []
  | _ :: r, O => r
  | x :: r, S i => x :: removeAt i r
  end.

(** The array after the object [find] returned, the first one that
    satisfies [f], has been mutated by [g]. *)
Fixpoint updateFirst {A : Type} (f : A -> bool) (g : A -> A) (l : list A) : list A :=
  match l with
  | [] => []
  | x :: r => if f x then g x :: r else x :: updateFirst f g r
  end.

Definition failure : Result := mkResult false None None None.

(** [addGoal] *)
Definition addGoal (h : Host.t) (title : string) : M Result :=
  let validation := Validator.validateGoal (Host.stripScripts h) title in
  match Validator.isValid validation, Validator.sanitized validation with
  | true, Some sanitized =>
      let goal := Goal.mk (Host.nowMillis h) sanitized false (Some (Host.nowISO h)) None in
      modify (fun d => Document.set_goals (goal :: Document.goals d) d) ;;
      notify (GoalAdded goal) ;;
      ret (mkResult true None None (Some (EGoal goal)))
  | _, _ => ret (mkResult false (Some (Validator.errors validation)) None None)
  end.

(** [toggleGoal] *)
Definition toggleGoal (h : Host.t) (goalId : Z) : M Result :=
  goals <- gets Document.goals ;;
  let isGoal := fun g => Goal.id g =? goalId in
  match List.find isGoal goals with
  | None => ret failure
  | Some found =>
      let completed := negb (Goal.completed found) in
      let goal :=
        Goal.mk (Goal.id found) (Goal.title found) completed (Goal.createdAt found)
                (if completed then Some (Host.nowISO h) else None) in
      modify (fun d => Document.set_goals (updateFirst isGoal (fun _ => goal) (Document.goals d)) d) ;;
      (if completed then
         addXp 50 "Meta concluída" ;;
         goals <- gets Document.goals ;;
         let completedCount := Z.of_nat (List.length (List.filter Goal.completed goals)) in
         if completedCount >=? 5 then awardBadge "GOAL_MASTER" else ret tt
       else ret tt) ;;
      notify (GoalToggled goal) ;;
      ret (mkResult true None None (Some (EGoal goal)))
  end.

(** [deleteGoal] *)
Definition deleteGoal (goalId : Z) : M Result :=
  goals <- gets Document.goals ;;
  let index := findIndex (fun g => Goal.id g =? goalId) goals in
  if index =? -1 then ret failure
  else
    modify (Document.set_goals (removeAt (Z.to_nat index) goals)) ;;
    match List.nth_error goals (Z.to_nat index) with
    | Some deletedGoal => notify (GoalDeleted deletedGoal)
    | None => ret tt
    end ;;
    ret (mkResult true None None None).

(** [getCurrentMood]: the emotion of the last of the last three feelings *)
Definition getCurrentMood (d : Document.t) : string :=
  let recentFeelings := List.skipn (List.length (Document.feelings d) - 3) (Document.feelings d) in
  match List.rev recentFeelings with
  | [] => "neutro"
  | f :: _ => Feeling.emotion f
  end.

(** [if (entryId)]: [null] and 0 are falsy *)
Definition truthyId (entryId : option Z) : option Z :=
  match entryId with
  | Some i => if i =? 0 then None else Some i
  | None => None
  end.

(** [saveJournalEntry(content, entryId = null)] *)
Definition saveJournalEntry (h : Host.t) (content : string) (entryId : option Z) : M Result :=
  let validation := Validator.validateJournalEntry (Host.stripScripts h) content in
  match Validator.isValid validation, Validator.sanitized validation with
  | true, Some sanitized =>
      match truthyId entryId with
      | Some i =>
          entries <- gets Document.journalEntries ;;
          let isEntry := fun e => JournalEntry.id e =? i in
          match List.find isEntry entries with
          | Some found =>
              let entry :=
                JournalEntry.mk (JournalEntry.id found) (JournalEntry.date found) sanitized
                  (JournalEntry.createdAt found) (JournalEntry.mood found)
                  (Some (Host.nowISO h)) in
              modify (Document.set_journalEntries (updateFirst isEntry (fun _ => entry) entries)) ;;
              notify (JournalUpdated entry) ;;
              ret (mkResult true None None (Some (EEntry entry)))
          | None => ret failure
          end
      | None =>
          mood <- gets getCurrentMood ;;
          let entry :=
            JournalEntry.mk (Host.nowMillis h) (Host.localeDate h) sanitized
              (Some (Host.nowISO h)) (Some mood) None in
          entries <- gets Document.journalEntries ;;
          let isFirstEntry := Nat.eqb (List.length entries) 0 in
          modify (Document.set_journalEntries (entry :: entries)) ;;
          addXp 25 "Entrada no diário" ;;
          (if isFirstEntry then awardBadge "JOURNAL_START" else ret tt) ;;
          notify (JournalCreated entry) ;;
          ret (mkResult true None None (Some (EEntry entry)))
      end
  | _, _ => ret (mkResult false (Some (Validator.errors validation)) None None)
  end.

(** [deleteJournalEntry] *)
Definition deleteJournalEntry (entryId : Z) : M Result :=
  entries <- gets Document.journalEntries ;;
  let index := findIndex (fun e => JournalEntry.id e =? entryId) entries in
  if index =? -1 then ret failure
  else
    modify (Document.set_journalEntries (removeAt (Z.to_nat index) entries)) ;;
    match List.nth_error entries (Z.to_nat index) with
    | Some deleted => notify (JournalDeleted deleted)
    | None => ret tt
    end ;;
    ret (mkResult true None None None).

(** The object literal [{ emotion, date, timestamp, ...details }] *)
Definition makeFeeling (h : Host.t) (emotion : string) (details : Details.t) : Feeling.t :=
  let orElse := fun (o : option string) (v : string) =>
                  match o with Some w => w | None => v end in
  Feeling.mk (orElse (Details.emotion details) emotion)
             (orElse (Details.date details) (Host.today h))
             (orElse (Details.timestamp details) (Host.nowISO h))
             (Details.others details).

(** [recordFeeling(emotion, details = {})] *)
Definition recordFeeling (h : Host.t) (emotion : string) (details : Details.t) : M Result :=
  let feeling := makeFeeling h emotion details in
  modify (fun d => Document.set_feelings (Document.feelings d ++ [feeling])%list d) ;;
  modify (fun d => Document.set_moodHistory
                     (Document.moodHistory d ++ [MoodEntry.mk (Feeling.date feeling) emotion])%list d) ;;
  streakResult <- updateCheckInStreak h ;;
  addXp 10 "Check-in diário" ;;
  notify (FeelingRecorded feeling (streak streakResult)) ;;
  ret (mkResult true None None (Some (EFeeling feeling))).

(** The two failures of [completeChallenge] *)
Definition alreadyCompleted : Result := mkResult false None (Some "Desafio já completado") None.
Definition challengeNotFound : Result := mkResult false None (Some "Desafio não encontrado") None.

(** [completeChallenge] *)
Definition completeChallenge (challengeId : string) : M Result :=
  p <- profile ;;
  if includes (UserProfile.completedChallenges p) challengeId then
    ret (mkResult false None (Some "Desafio já completado") None)
  else
    match List.find (fun c => String.eqb (Challenge.id c) challengeId) CHALLENGES with
    | None => ret (mkResult false None (Some "Desafio não encontrado") None)
    | Some challenge =>
        modifyProfile (fun p => UserProfile.set_completedChallenges
                                  (UserProfile.completedChallenges p ++ [challengeId])%list p) ;;
        addXp (Challenge.xp challenge) ("Desafio: " ++ Challenge.title challenge) ;;
        p <- profile ;;
        (if Nat.eqb (List.length (UserProfile.completedChallenges p)) (List.length CHALLENGES)
         then awardBadge "CHALLENGE_HERO" else ret tt) ;;
        notify (ChallengeCompleted challenge) ;;
        ret (mkResult true None None (Some (EChallenge challenge)))
    end.

(** [text.split(' ')] *)
Fixpoint splitSpaces (text : string) : list string :=
  match text with
  | EmptyString => [EmptyString]
  | String c r =>
      if Ascii.eqb c " " then EmptyString :: splitSpaces r
      else match splitSpaces r with
           | piece :: pieces => String c piece :: pieces
           | [] => [String c EmptyString]
           end
  end.

(** [s.date === date && s.time === time], where [time] may be [undefined] *)
Definition isSlot (date : string) (time : option string) (s : Slot.t) : bool :=
  String.eqb (Slot.date s) date &&
  match time with
  | Some t => String.eqb (Slot.time s) t
  | None => false
  end.

(** [scheduleAppointment({date, time, reason})] *)
Definition scheduleAppointment (h : Host.t) (date time reason : string) : M Result :=
  let errors := Validator.validateAppointment (Host.isBeforeNow h) date time in
  if (0 <? Z.of_nat (List.length errors)) then
    ret (mkResult false (Some errors) None None)
  else
    let appointment :=
      Appointment.mk (Host.nowMillis h) (date ++ " " ++ time) "A Confirmar" "pending"
        (Some (Validator.sanitize reason)) (Some (Host.nowISO h)) in
    modify (fun d => Document.set_appointments (appointment :: Document.appointments d) d) ;;
    modify (fun d => Document.set_availableSlots
                       (updateFirst (isSlot date (Some time))
                          (fun s => Slot.mk (Slot.date s) (Slot.time s) false)
                          (Document.availableSlots d)) d) ;;
    notify (AppointmentScheduled appointment) ;;
    ret (mkResult true None None (Some (EAppointment appointment))).

(** [cancelAppointment] *)
Definition cancelAppointment (appointmentId : Z) : M Result :=
  appointments <- gets Document.appointments ;;
  let index := findIndex (fun a => Appointment.id a =? appointmentId) appointments in
  if index =? -1 then ret failure
  else
    match List.nth_error appointments (Z.to_nat index) with
    | None => ret failure
    | Some appointment =>
        let pieces := splitSpaces (Appointment.date appointment) in
        let date := List.nth 0 pieces EmptyString in
        let time := List.nth_error pieces 1 in
        modify (fun d => Document.set_availableSlots
                           (updateFirst (isSlot date time)
                              (fun s => Slot.mk (Slot.date s) (Slot.time s) true)
                              (Document.availableSlots d)) d) ;;
        modify (Document.set_appointments (removeAt (Z.to_nat index) appointments)) ;;
        notify (AppointmentCancelled appointment) ;;
        ret (mkResult true None None None)
    end.

(** [changeSchedulingDate(direction)]; [next] is [direction === 'next'] *)
Definition changeSchedulingDate (h : Host.t) (next : bool) : M unit :=
  modify (fun d => Document.set_currentDate
                     (Host.shiftDate h (Document.currentDate d) (if next then 1 else -1)) d) ;;
  currentDate <- gets Document.currentDate ;;
  notify (SchedulingDateChanged currentDate).

(** The mutation operations of the Store. *)
Inductive Operation : Type :=
| Login (userName : string)
| AddXp (amount : Z) (reason : string)
| AwardBadge (badgeId : string)
| UpdateCheckInStreak
| AddGoal (title : string)
| ToggleGoal (goalId : Z)
| DeleteGoal (goalId : Z)
| SaveJournalEntry (content : string) (entryId : option Z)
| DeleteJournalEntry (entryId : Z)
| RecordFeeling (emotion : string) (details : Details.t)
| CompleteChallenge (challengeId : string)
| ScheduleAppointment (date time reason : string)
| CancelAppointment (appointmentId : Z)
| ChangeSchedulingDate (next : bool).

(** The document an operation leaves. *)
Definition run (h : Host.t) (op : Operation) (d : Document.t) : Document.t :=
  match op with
  | Login userName => document (login h userName d)
  | AddXp amount reason => document (addXp amount reason d)
  | AwardBadge badgeId => document (awardBadge badgeId d)
  | UpdateCheckInStreak => document (updateCheckInStreak h d)
  | AddGoal title => document (addGoal h title d)
  | ToggleGoal goalId => document (toggleGoal h goalId d)
  | DeleteGoal goalId => document (deleteGoal goalId d)
  | SaveJournalEntry content entryId => document (saveJournalEntry h content entryId d)
  | DeleteJournalEntry entryId => document (deleteJournalEntry entryId d)
  | RecordFeeling emotion details => document (recordFeeling h emotion details d)
  | CompleteChallenge challengeId => document (completeChallenge challengeId d)
  | ScheduleAppointment date time reason => document (scheduleAppointment h date time reason d)
  | CancelAppointment appointmentId => document (cancelAppointment appointmentId d)
  | ChangeSchedulingDate next => document (changeSchedulingDate h next d)
  end.

(** The document a sequence of operations leaves, each run with the host
    readings of its moment. *)
Definition runAll (ops : list (Host.t * Operation)) (d : Document.t) : Document.t :=
  List.fold_left (fun d op => run (fst op) (snd op) d) ops d.

(** [d] is [d0] up to the three profile fields leveling and badge awarding
    write: [xp], [level] and [badges]. *)
Definition sameButProgress (d0 d : Document.t) : Prop :=
  d = Document.set_userProfile
        (UserProfile.set_xp (xpOf d)
           (UserProfile.set_level (levelOf d)
              (UserProfile.set_badges (badgesOf d) (Document.userProfile d0))))
        d0.

(** The object an operation returns, for the operations that return one
    with a [success] property ([addXp], [awardBadge] and
    [changeSchedulingDate] return [undefined], [updateCheckInStreak] returns
    [{ continued, streak }]). *)
Definition runResult (h : Host.t) (op : Operation) (d : Document.t) : option Result :=
  match op with
  | Login userName => Some (result (login h userName d))
  | AddGoal title => Some (result (addGoal h title d))
  | ToggleGoal goalId => Some (result (toggleGoal h goalId d))
  | DeleteGoal goalId => Some (result (deleteGoal goalId d))
  | SaveJournalEntry content entryId => Some (result (saveJournalEntry h content entryId d))
  | DeleteJournalEntry entryId => Some (result (deleteJournalEntry entryId d))
  | RecordFeeling emotion details => Some (result (recordFeeling h emotion details d))
  | CompleteChallenge challengeId => Some (result (completeChallenge challengeId d))
  | ScheduleAppointment date time reason => Some (result (scheduleAppointment h date time reason d))
  | CancelAppointment appointmentId => Some (result (cancelAppointment appointmentId d))
  | AddXp _ _ | AwardBadge _ | UpdateCheckInStreak | ChangeSchedulingDate _ => None
  end.

(** What a result with [success: false] carries: nothing, or a non-empty
    list of validation errors, or a message; never an entity, and no
    property that names a kind of error. *)
Definition failureShape (r : Result) : Prop :=
  entity r = None /\
  ((errors r = None /\ message r = None) \/
   (exists error rest, errors r = Some (error :: rest) /\ message r = None) \/
   (exists text, message r = Some text /\ errors r = None)).

(** A method fails cleanly when a result with [success: false] has that
    shape and comes with the document it started from and with no event. *)
Definition failsCleanly (m : M Result) : Prop :=
  forall d, success (result (m d)) = false ->
            document (m d) = d /\ events (m d) = [] /\ failureShape (result (m d)).

(** A method preserves [P] when the document it leaves satisfies [P]
    whenever the document it starts from does. *)
Definition preserves {A : Type} (P : Document.t -> Prop) (m : M A) : Prop :=
  forall d, P d -> P (document (m d)).

(** [badges] holds no badge id twice. *)
Definition badgesUnique (d : Document.t) : Prop := NoDup (badgesOf d).

(** The [badge:awarded] events among the events of a call. *)
Definition badgeEvents (l : list Event) : list Event :=
  List.filter (fun e => match e with BadgeAwarded _ => true | _ => false end) l.

(** The [moodMap] literal of [calculateAverageMood] *)
Definition moodMap_own : list (string * Z) :=
  [("pessimo", 1); ("ruim", 2); ("neutro", 3); ("bom", 4); ("otimo", 5); ("feliz", 5)].

Definition moodMap (mood : string) : Property Z := getProperty moodMap_own mood.

(** The accumulator of the [reduce]: a number, or, once an inherited member
    (a function or an object) has been added to it, a string that holds the
    source text of that member and so converts to [NaN]. *)
Inductive Accumulator : Type :=
| AccNumber (z : Z)
| AccText.

(** [acc + (moodMap[entry.mood] || 3)] *)
Definition addMood (acc : Accumulator) (entry : MoodEntry.t) : Accumulator :=
  match acc with
  | AccText => AccText
  | AccNumber a =>
      match moodMap (MoodEntry.mood entry) with
      | Own v => AccNumber (a + (if v =? 0 then 3 else v))
      | Undefined => AccNumber (a + 3)
      | Inherited _ => AccText
      end
  end.

(** What [calculateAverageMood] returns: the number 0, or a [toFixed(1)] string. *)
Inductive AverageMood : Type :=
| AvgNumber (z : Z)
| AvgString (s : JsNumber.fixed1).

(** [calculateAverageMood] *)
Definition calculateAverageMood (d : Document.t) : AverageMood :=
  let moodHistory := Document.moodHistory d in
  if Nat.eqb (List.length moodHistory) 0 then AvgNumber 0
  else
    let sum := List.fold_left addMood moodHistory (AccNumber 0) in
    AvgString
      (JsNumber.toFixed1
         match sum with
         | AccNumber z => JsNumber.divCount (JsNumber.ofZ z) (List.length moodHistory)
         | AccText => JsNumber.NaN
         end).

End AppState.

(** ** analytics.js: the analytics engine *)

Module AnalyticsEngine.
Import JsNumber.

(** The [moodMap] literal of [analyzeMoodPatterns] *)
Definition moodMap_own : list (string * Z) :=
  [("pessimo", 1); ("ruim", 2); ("neutro", 3); ("bom", 4); ("otimo", 5); ("feliz", 5)].

(** [moodMap[m.mood]] as an operand: [undefined] for an unknown label and
    the function or object of an inherited name both turn every sum,
    difference and quotient they enter into [NaN]. *)
Definition moodValue (mood : string) : number :=
  match getProperty moodMap_own mood with
  | Own v => ofZ v
  | _ => NaN
  end.

(** [l.slice(-n)] *)
Definition lastN {A : Type} (n : nat) (l : list A) : list A :=
  List.skipn (List.length l - n) l.

(** [calculateAverage] *)
Definition calculateAverage (numbers : list number) : number :=
  if Nat.eqb (List.length numbers) 0 then ofZ 0
  else divCount (List.fold_left add numbers (ofZ 0)) (List.length numbers).

(** The argument of [Math.sqrt] in [calculateStdDev]: the average of the
    squared differences to the average. *)
Definition calculateVariance (numbers : list number) : number :=
  let avg := calculateAverage numbers in
  let squareDiffs := List.map (fun n => mul (sub n avg) (sub n avg)) numbers in
  calculateAverage squareDiffs.

(** A number that need not be rational. *)
Inductive real : Type :=
| RNaN
| RNum (r : R).

(** [calculateStdDev] *)
Definition calculateStdDev (numbers : list number) : real :=
  if Nat.eqb (List.length numbers) 0 then RNum 0%R
  else
    match calculateVariance numbers with
    | Num v => if Qle_bool 0 v then RNum (sqrt (Q2R v)) else RNaN
    | NaN => RNaN
    end.

Inductive Trend : Type :=
| insufficient_data
| stable
| improving
| declining.

(** [detectTrend] *)
Definition detectTrend (values : list number) : Trend :=
  if Nat.ltb (List.length values) 3 then insufficient_data
  else
    let half := Nat.div (List.length values) 2 in
    let firstHalf := List.firstn half values in
    let secondHalf := List.skipn half values in
    let avgFirst := calculateAverage firstHalf in
    let avgSecond := calculateAverage secondHalf in
    let difference := sub avgSecond avgFirst in
    if lt (abs difference) (Num (3 # 10)) then stable
    else if gt difference (ofZ 0) then improving else declining.

Record Insight : Type := mkInsight { type : string; message : string; icon : string }.

Record Recommendation : Type := mkRecommendation
  { priority : string; title : string; description : string; action : option string }.

(** The object [analyzeMoodPatterns] returns, without the weekday table,
    the emotion counts, the volatility string and the mood insights. *)
Inductive MoodReport : Type :=
| NoMoodData                                                (* hasData: false *)
| MoodData (avg7Days avg30Days : fixed1) (trend : Trend).   (* hasData: true *)

(** [analyzeMoodPatterns] *)
Definition analyzeMoodPatterns (d : Document.t) : MoodReport :=
  let moodHistory := Document.moodHistory d in
  if Nat.ltb (List.length moodHistory) 3 then NoMoodData
  else
    let last7Days := lastN 7 moodHistory in
    let last30Days := lastN 30 moodHistory in
    let values := fun l => List.map (fun m => moodValue (MoodEntry.mood m)) l in
    let avg7Days := calculateAverage (values last7Days) in
    let avg30Days := calculateAverage (values last30Days) in
    let trend := detectTrend (values last7Days) in
    MoodData (toFixed1 avg7Days) (toFixed1 avg30Days) trend.

(** [goalCompletionRate]: the number 0, or a [toFixed(1)] string. *)
Inductive Rate : Type :=
| RateNumber (z : Z)
| RateString (s : fixed1).

(** The number a rate is compared as. *)
Definition rateValue (r : Rate) : number :=
  match r with
  | RateNumber z => ofZ z
  | RateString s => ofFixed1 s
  end.

Definition goalsExcellent : Insight :=
  mkInsight "positive" "Excelente taxa de conclusão de metas! Continue assim!" "trophy".

Definition goalsDecompose : Insight :=
  mkInsight "info" "Tente dividir suas metas em tarefas menores para facilitar o progresso."
    "target".

Definition challengesGreat : Insight :=
  mkInsight "positive" "Você está arrasando nos desafios de bem-estar!" "award".

(** [generateProductivityInsights] *)
Definition generateProductivityInsights (goalRate : Rate) (challengeRate : fixed1)
  : list Insight :=
  ((if ge (rateValue goalRate) (ofZ 70) then [goalsExcellent]
    else if lt (rateValue goalRate) (ofZ 30) then [goalsDecompose]
    else [])
   ++
   (if ge (ofFixed1 challengeRate) (ofZ 50) then [challengesGreat] else []))%list.

(** The object [analyzeProductivity] returns, without [avgCompletionTime]. *)
Record ProductivityReport : Type := mkProductivity
  { totalGoals : Z;
    completedGoals : Z;
    goalCompletionRate : Rate;
    challengeCompletionRate : fixed1;
    productivityInsights : list Insight }.

(** [part / total * 100] for a [total] that is not 0 *)
Definition percentage (part total : Z) : number :=
  Num (inject_Z part / inject_Z total * inject_Z 100).

(** [analyzeProductivity] *)
Definition analyzeProductivity (d : Document.t) : ProductivityReport :=
  let goals := Document.goals d in
  let completedChallenges := UserProfile.completedChallenges (Document.userProfile d) in
  let totalChallenges := Z.of_nat (List.length CHALLENGES) in
  let totalGoals := Z.of_nat (List.length goals) in
  let completedGoals := Z.of_nat (List.length (List.filter Goal.completed goals)) in
  let goalCompletionRate :=
    if (0 <? totalGoals)%Z
    then RateString (toFixed1 (percentage completedGoals totalGoals))
    else RateNumber 0 in
  let challengeCompletionRate :=
    toFixed1 (percentage (Z.of_nat (List.length completedChallenges)) totalChallenges) in
  mkProductivity totalGoals completedGoals goalCompletionRate challengeCompletionRate
    (generateProductivityInsights goalCompletionRate challengeCompletionRate).

(** The object [analyzeEngagement] returns, without the totals and the
    engagement insights. *)
Record EngagementReport : Type := mkEngagement
  { checkInStreak : Z;
    activeDays : Z;
    engagementRate : fixed1 }.

(** [analyzeEngagement]; [activeDays] is the size of the set of local
    calendar days of the last 30 days that have a journal entry or a
    feeling, which the host's date functions determine. *)
Definition analyzeEngagement (activeDays : Z) (d : Document.t) : EngagementReport :=
  let checkInStreak := UserProfile.checkInStreak (Document.userProfile d) in
  let engagementRate := toFixed1 (percentage activeDays 30) in
  mkEngagement checkInStreak activeDays engagementRate.

Definition scheduleRecommendation : Recommendation :=
  mkRecommendation "high" "Considere agendar um atendimento"
    "Seu humor tem estado baixo. Conversar com um profissional pode ajudar."
    (Some "schedule_appointment").

Definition goalsRecommendation : Recommendation :=
  mkRecommendation "medium" "Revise suas metas"
    "Suas metas podem estar muito ambiciosas. Tente torná-las mais específicas."
    (Some "view_goals").

Definition checkInRecommendation : Recommendation :=
  mkRecommendation "medium" "Crie o hábito de check-in diário"
    "Registrar seu humor regularmente traz mais insights sobre seu bem-estar."
    (Some "record_feeling").

Definition encouragement : Recommendation :=
  mkRecommendation "low" "Continue com o bom trabalho!"
    "Seu humor está melhorando. Mantenha suas práticas atuais."
    None.

Definition isImproving (t : Trend) : bool :=
  match t with improving => true | _ => false end.

(** [generateRecommendations] *)
Definition generateRecommendations (mood : MoodReport) (productivity : ProductivityReport)
    (engagement : EngagementReport) : list Recommendation :=
  ((match mood with
    | MoodData avg7Days _ _ => if lt (ofFixed1 avg7Days) (ofZ 3) then [scheduleRecommendation] else []
    | NoMoodData => []
    end)
   ++
   (if lt (rateValue (goalCompletionRate productivity)) (ofZ 30) && (0 <? totalGoals productivity)%Z
    then [goalsRecommendation] else [])
   ++
   (if (checkInStreak engagement =? 0)%Z || lt (ofFixed1 (engagementRate engagement)) (ofZ 30)
    then [checkInRecommendation] else [])
   ++
   (match mood with
    | MoodData _ _ trend => if isImproving trend then [encouragement] else []
    | NoMoodData => []
    end))%list.

(** The [recommendations] of [generateFullReport] *)
Definition generateFullReport (activeDays : Z) (d : Document.t) : list Recommendation :=
  let mood := analyzeMoodPatterns d in
  let productivity := analyzeProductivity d in
  let engagement := analyzeEngagement activeDays d in
  generateRecommendations mood productivity engagement.

End AnalyticsEngine.

(** ** Concrete inputs for the examples *)

Module Sample.

(** 9 September 2025, 08:30 UTC, the day after the last check-in of
    [checkedInYesterday]. *)
Definition host : Host.t :=
  Host.mk "2025-09-09" "2025-09-08" "2025-09-09T08:30:00.000Z" 1757406600000
    "09/09/2025" "2025-09-08" (fun _ => false) (fun date _ => date) (fun text => text).

(** The initial document. *)
Definition initial : Document.t := INITIAL_STATE "2025-09-08".

Definition withLastCheckIn (day : option string) (d : Document.t) : Document.t :=
  Document.set_userProfile
    (UserProfile.set_lastCheckInDate day (Document.userProfile d)) d.

(** The initial document after a check-in on 8 September 2025. *)
Definition checkedInYesterday : Document.t := withLastCheckIn (Some "2025-09-08") initial.

Definition withProfile (p : UserProfile.t) : Document.t :=
  Document.set_userProfile p initial.

Definition withMoods (moods : list string) : Document.t :=
  Document.set_moodHistory (List.map (MoodEntry.mk "2025-09-08") moods) initial.

Definition goalsDone (completed total : nat) : list Goal.t :=
  (List.repeat (Goal.mk 1 "Meta" true None None) completed ++
   List.repeat (Goal.mk 2 "Meta" false None None) (total - completed))%list.

Definition withGoals (completed total : nat) : Document.t :=
  Document.set_goals (goalsDone completed total) initial.

(** The three mood windows of the trend boundary. *)
Definition ones : list Q := [1; 1; 1; 1; 1; 1; 1]%Q.
Definition rising : list Q := [1; 1; 1; 5; 5; 5; 5]%Q.
Definition falling : list Q := [5; 5; 5; 1; 1; 1; 1]%Q.

End Sample.

(** ** The reference behaviours the specification words describe *)

Module Reference.

(** The uniform failure the specification describes: [success] is false
    and the object carries an error description, a [message] or a first
    entry of [errors]. *)
Definition structuredFailure (r : AppState.Result) : Prop :=
  AppState.success r = false /\
  ((exists text, AppState.message r = Some text) \/
   (exists error rest, AppState.errors r = Some (error :: rest))).

(** Leveling from scratch: while [xp >= xpForNextLevel(level)], subtract
    [xpForNextLevel(level)] from [xp] and increment [level].
    [leveling (level, xp) (level', xp')] relates the pair the loop starts
    from to the pair it stops at. *)
Inductive leveling : Z * Z -> Z * Z -> Prop :=
| leveling_done (level xp : Z) :
    xp < AppState.xpForNextLevel level ->
    leveling (level, xp) (level, xp)
| leveling_step (level xp : Z) (final : Z * Z) :
    AppState.xpForNextLevel level <= xp ->
    leveling (level + 1, xp - AppState.xpForNextLevel level) final ->
    leveling (level, xp) final.


(** The mean of a non-empty sequence of rationals. *)
Definition mean (l : list Q) : Q :=
  (List.fold_right Qplus 0 l / inject_Z (Z.of_nat (List.length l)))%Q.

(** The difference the trend is read from: the mean of the second half
    minus the mean of the first half, the window split at [floor(n/2)]. *)
Definition halvesDifference (l : list Q) : Q :=
  let half := Nat.div (List.length l) 2 in
  (mean (List.skipn half l) - mean (List.firstn half l))%Q.


(** The full-precision quantities the thresholds are about: the goal
    completion rate in percent (0 without goals) and the mean of the mapped
    moods of the last 7 entries. *)
Definition goalRate (d : Document.t) : Q :=
  let total := Z.of_nat (List.length (Document.goals d)) in
  let completed := Z.of_nat (List.length (List.filter Goal.completed (Document.goals d))) in
  if (0 <? total)%Z then (inject_Z completed / inject_Z total * 100)%Q else 0%Q.


(** The mood scale with its default: a label outside the mapping counts 3. *)
Definition moodScore (mood : string) : Z :=
  match assoc mood AppState.moodMap_own with
  | Some v => v
  | None => 3
  end.

(** The average mood the specification describes: the number 0 without
    history, otherwise the mean of the scores to one decimal place. *)
Definition averageMood (d : Document.t) : AppState.AverageMood :=
  let scores :=
    List.map (fun entry => inject_Z (moodScore (MoodEntry.mood entry))) (Document.moodHistory d) in
  match scores with
  | [] => AppState.AvgNumber 0
  | _ => AppState.AvgString (JsNumber.toFixed1 (JsNumber.Num (mean scores)))
  end.

End Reference.

(** ** Measures and invariants of the profile *)

Definition isLogin (op : AppState.Operation) : bool :=
  match op with AppState.Login _ => true | _ => false end.

Module Profile.
Import AppState.

(** The XP the levels 1 to [n] have cost. *)
Fixpoint passed (n : nat) : Z :=
  match n with
  | O => 0
  | S k => passed k + xpForNextLevel (Z.of_nat (S k))
  end.

(** All the XP a profile of level 1 or more has been granted: those its
    passed levels have cost and those it holds. *)
Definition totalXp (d : Document.t) : Z :=
  xpOf d + passed (Z.to_nat (levelOf d - 1)).

(** The levels the [user:levelup] events of a call announce, in order. *)
Definition levelUps (l : list Event) : list Z :=
  List.flat_map (fun e => match e with UserLevelup level => [level] | _ => [] end) l.

(** The levels [from + 1], ..., [from + count]. *)
Definition levelsAfter (from : Z) (count : nat) : list Z :=
  List.map (fun k => from + Z.of_nat k) (List.seq 1 count).

(** The ranges the data model gives the counters of the profile. *)
Definition wellFormed (d : Document.t) : Prop :=
  0 <= xpOf d /\ 1 <= levelOf d /\ 0 <= streakOf d.

(** The XP held are below the requirement of the level. *)
Definition normalized (d : Document.t) : Prop :=
  xpOf d < xpForNextLevel (levelOf d).

(** A method advances along [R] when [R] relates the document it starts
    from to the document it leaves. *)
Definition advances {A : Type} (R : Document.t -> Document.t -> Prop) (m : M A) : Prop :=
  forall d, R d (document (m d)).

(** What an operation keeps of the progress made: from a well-formed
    profile it leaves a well-formed one, with no less XP in total, no lower
    level, every badge and every completed challenge it had, and XP that are
    still below the requirement of the level if they were. *)
Definition keepsProgress (d d' : Document.t) : Prop :=
  wellFormed d ->
  wellFormed d' /\
  totalXp d <= totalXp d' /\
  levelOf d <= levelOf d' /\
  incl (badgesOf d) (badgesOf d') /\
  incl (completedOf d) (completedOf d') /\
  (normalized d -> normalized d').

(** The ids of the challenge catalog. *)
Definition challengeIds : list string := List.map Challenge.id CHALLENGES.

(** [completedChallenges] names catalog challenges, each at most once. *)
Definition challengesSound (d : Document.t) : Prop :=
  NoDup (completedOf d) /\ incl (completedOf d) challengeIds.

(** Every challenge of the catalog is completed. *)
Definition allCompleted (d : Document.t) : Prop :=
  forall c, In c CHALLENGES -> In (Challenge.id c) (completedOf d).

End Profile.

(** ** The parts of the document and the operations that write them *)

Module Footprint.
Import AppState.

(** The properties of the document, those of [userProfile] one by one. *)
Inductive Part : Type :=
| UserName | CurrentDate | Guidance | Goals | Journal | Feelings | SelfAssessments
| Messages | Appointments | Slots | MoodHistory
| Xp | Level | Streak | LastCheckIn | Badges | Completed.

(** [d'] holds in [part] what [d] holds. *)
Definition same (part : Part) (d d' : Document.t) : Prop :=
  match part with
  | UserName => Document.userName d' = Document.userName d
  | CurrentDate => Document.currentDate d' = Document.currentDate d
  | Guidance => Document.guidanceTasks d' = Document.guidanceTasks d
  | Goals => Document.goals d' = Document.goals d
  | Journal => Document.journalEntries d' = Document.journalEntries d
  | Feelings => Document.feelings d' = Document.feelings d
  | SelfAssessments => Document.selfAssessments d' = Document.selfAssessments d
  | Messages => Document.messages d' = Document.messages d
  | Appointments => Document.appointments d' = Document.appointments d
  | Slots => Document.availableSlots d' = Document.availableSlots d
  | MoodHistory => Document.moodHistory d' = Document.moodHistory d
  | Xp => xpOf d' = xpOf d
  | Level => levelOf d' = levelOf d
  | Streak => streakOf d' = streakOf d
  | LastCheckIn => lastCheckInOf d' = lastCheckInOf d
  | Badges => badgesOf d' = badgesOf d
  | Completed => completedOf d' = completedOf d
  end.

(** The parts the body of an operation, or a method it calls, assigns to. *)
Definition writes (op : Operation) : list Part :=
  match op with
  | Login _ =>
      [UserName; CurrentDate; Guidance; Goals; Journal; Feelings; SelfAssessments;
       Messages; Appointments; Slots; MoodHistory;
       Xp; Level; Streak; LastCheckIn; Badges; Completed]
  | AddXp _ _ => [Xp; Level; Badges]
  | AwardBadge _ => [Badges]
  | UpdateCheckInStreak => [Streak; LastCheckIn; Badges]
  | AddGoal _ => [Goals]
  | ToggleGoal _ => [Goals; Xp; Level; Badges]
  | DeleteGoal _ => [Goals]
  | SaveJournalEntry _ _ => [Journal; Xp; Level; Badges]
  | DeleteJournalEntry _ => [Journal]
  | RecordFeeling _ _ => [Feelings; MoodHistory; Streak; LastCheckIn; Xp; Level; Badges]
  | CompleteChallenge _ => [Completed; Xp; Level; Badges]
  | ScheduleAppointment _ _ _ => [Appointments; Slots]
  | CancelAppointment _ => [Appointments; Slots]
  | ChangeSchedulingDate _ => [CurrentDate]
  end.

(** The events an operation publishes. *)
Definition publish (h : Host.t) (op : Operation) (d : Document.t) : list Event :=
  match op with
  | Login userName => events (login h userName d)
  | AddXp amount reason => events (addXp amount reason d)
  | AwardBadge badgeId => events (awardBadge badgeId d)
  | UpdateCheckInStreak => events (updateCheckInStreak h d)
  | AddGoal title => events (addGoal h title d)
  | ToggleGoal goalId => events (toggleGoal h goalId d)
  | DeleteGoal goalId => events (deleteGoal goalId d)
  | SaveJournalEntry content entryId => events (saveJournalEntry h content entryId d)
  | DeleteJournalEntry entryId => events (deleteJournalEntry entryId d)
  | RecordFeeling emotion details => events (recordFeeling h emotion details d)
  | CompleteChallenge challengeId => events (completeChallenge challengeId d)
  | ScheduleAppointment date time reason => events (scheduleAppointment h date time reason d)
  | CancelAppointment appointmentId => events (cancelAppointment appointmentId d)
  | ChangeSchedulingDate next => events (changeSchedulingDate h next d)
  end.

(** The event names of the observer bus. *)
Inductive Name : Type :=
| user_login | xp_added | user_levelup | badge_awarded | checkin_updated
| goal_added | goal_toggled | goal_deleted
| journal_created | journal_updated | journal_deleted
| feeling_recorded | challenge_completed
| appointment_scheduled | appointment_cancelled | scheduling_date_changed.

Definition Name_eq_dec (a b : Name) : {a = b} + {a <> b}.
Proof. decide equality. Defined.

Definition name (e : Event) : Name :=
  match e with
  | UserLogin _ => user_login
  | XpAdded _ _ _ _ => xp_added
  | UserLevelup _ => user_levelup
  | BadgeAwarded _ => badge_awarded
  | CheckinUpdated _ => checkin_updated
  | GoalAdded _ => goal_added
  | GoalToggled _ => goal_toggled
  | GoalDeleted _ => goal_deleted
  | JournalCreated _ => journal_created
  | JournalUpdated _ => journal_updated
  | JournalDeleted _ => journal_deleted
  | FeelingRecorded _ _ => feeling_recorded
  | ChallengeCompleted _ => challenge_completed
  | AppointmentScheduled _ => appointment_scheduled
  | AppointmentCancelled _ => appointment_cancelled
  | SchedulingDateChanged _ => scheduling_date_changed
  end.






End Footprint.

(** ** Sequences of check-ins *)

Module Log.
Import AppState.

(** The feelings the [recordFeeling] calls of a sequence build, in order. *)
Definition recordedFeelings (ops : list (Host.t * Operation)) : list Feeling.t :=
  List.flat_map
    (fun op => match snd op with
               | RecordFeeling emotion details => [makeFeeling (fst op) emotion details]
               | _ => []
               end) ops.

(** The mood entries they build: the date of the feeling and the emotion
    passed. *)
Definition recordedMoods (ops : list (Host.t * Operation)) : list MoodEntry.t :=
  List.flat_map
    (fun op => match snd op with
               | RecordFeeling emotion details =>
                   [MoodEntry.mk (Feeling.date (makeFeeling (fst op) emotion details)) emotion]
               | _ => []
               end) ops.

Definition isRecordFeeling (op : Operation) : bool :=
  match op with RecordFeeling _ _ => true | _ => false end.


(** A clock reading at 08:30 UTC of the day [today]. *)
Definition day (today yesterday : string) : Host.t :=
  Host.mk today yesterday (today ++ "T08:30:00.000Z") 1757406600000 today today
    (fun _ => false) (fun date _ => date) (fun text => text).

End Log.

(** ** The objects the operations build *)

Module Items.
Import AppState.

(** The goal [toggleGoal] leaves in the place of [found]: [completed] is
    negated and [completedAt] is the clock reading or [null]. *)
Definition toggled (h : Host.t) (found : Goal.t) : Goal.t :=
  Goal.mk (Goal.id found) (Goal.title found) (negb (Goal.completed found))
    (Goal.createdAt found)
    (if negb (Goal.completed found) then Some (Host.nowISO h) else None).

(** The entry [saveJournalEntry] creates. *)
Definition created (h : Host.t) (content : string) (d : Document.t) : JournalEntry.t :=
  JournalEntry.mk (Host.nowMillis h) (Host.localeDate h)
    (Validator.text (Host.stripScripts h) content)
    (Some (Host.nowISO h)) (Some (getCurrentMood d)) None.

(** The entry [saveJournalEntry] leaves in the place of [found]. *)
Definition edited (h : Host.t) (content : string) (found : JournalEntry.t) : JournalEntry.t :=
  JournalEntry.mk (JournalEntry.id found) (JournalEntry.date found)
    (Validator.text (Host.stripScripts h) content)
    (JournalEntry.createdAt found) (JournalEntry.mood found) (Some (Host.nowISO h)).

(** The appointment [scheduleAppointment] creates. *)
Definition requested (h : Host.t) (date time reason : string) : Appointment.t :=
  Appointment.mk (Host.nowMillis h) (date ++ " " ++ time) "A Confirmar" "pending"
    (Some (Validator.sanitize reason)) (Some (Host.nowISO h)).

(** A slot with its [available] flag set. *)
Definition marked (available : bool) (s : Slot.t) : Slot.t :=
  Slot.mk (Slot.date s) (Slot.time s) available.

(** The text holds no space. *)
Fixpoint noSpace (text : string) : bool :=
  match text with
  | EmptyString => true
  | String c r => negb (Ascii.eqb c " ") && noSpace r
  end.

(** The text holds an angle bracket. *)
Fixpoint hasAngle (text : string) : bool :=
  match text with
  | EmptyString => false
  | String c r => Ascii.eqb c "<" || Ascii.eqb c ">" || hasAngle r
  end.

End Items.

(** ** state.js: the observer *)

Module StateObserver.

(** A callback is a function object, known by its identity.  Callbacks do
    not call back into the observer. *)
Definition Callback : Type := nat.

(** [this.observers]: the own properties of the object literal, each an
    array of callbacks. *)
Definition t : Type := list (string * list Callback).

(** [new StateObserver()] *)
Definition create : t := [].

(** [this.observers[event]] *)
Definition lookup (o : t) (event : string) : Property (list Callback) :=
  getProperty o event.

(** [this.observers[event] = callbacks], for a name that is not inherited *)
Fixpoint store (event : string) (callbacks : list Callback) (o : t) : t :=
  match o with
  | [] => [(event, callbacks)]
  | (k, v) :: r =>
      if String.eqb k event then (k, callbacks) :: r else (k, v) :: store event callbacks r
  end.

(** [subscribe]: the observers afterwards, or [None] when the call throws:
    under an inherited name [this.observers[event]] is a function or an
    object, which is truthy and has no [push]. *)
Definition subscribe (event : string) (callback : Callback) (o : t) : option t :=
  match lookup o event with
  | Undefined => Some (store event [callback] o)
  | Own callbacks => Some (store event (callbacks ++ [callback])%list o)
  | Inherited _ => None
  end.

(** The function [subscribe] returns, called on the observers [o]. *)
Definition unsubscribe (event : string) (callback : Callback) (o : t) : option t :=
  match lookup o event with
  | Own callbacks =>
      Some (store event (List.filter (fun cb => negb (Nat.eqb cb callback)) callbacks) o)
  | _ => None
  end.

(** [notify]: the callbacks called, in order (one that throws is logged
    and the next one is called), or [None] when the call throws: an
    inherited member is truthy and has no [forEach]. *)
Definition notify (event : string) (o : t) : option (list Callback) :=
  match lookup o event with
  | Undefined => Some []
  | Own callbacks => Some callbacks
  | Inherited _ => None
  end.

End StateObserver.

(** ** state.js: the statistics *)

Module Statistics.
Import AppState.

(** The object [getStatistics] returns. *)
Record t : Type := mk
  { totalJournalEntries : Z;
    totalGoals : Z;
    completedGoals : Z;
    totalBadges : Z;
    checkInStreak : Z;
    level : Z;
    xp : Z;
    completedChallenges : Z;
    totalChallenges : Z;
    averageMood : AverageMood }.



End Statistics.

(** ** events.js: the login form *)

Module LoginForm.
Import JsString AppState.
Local Open Scope store_scope.



(** The errors of the login form: those of the rules of [Validator], and
    [`${fieldName} contém caracteres não permitidos.`]. *)
Inductive Message : Type :=
| Rule (error : Validator.Message)
| MsgSpecialChars (fieldName : string).




End LoginForm.

(** ** validators.js and events.js: the feeling form *)

Module FeelingForm.
Import JsString AppState.
Local Open Scope store_scope.

(** The object [Object.fromEntries(formData.entries())] of a form without
    file inputs: its own properties, all strings, under distinct names.
    None of the names the code reads from it is a member of
    [Object.prototype]. *)
Definition FormData : Type := list (string * string).

(** [text.includes(needle)] *)
Fixpoint includesText (needle text : string) : bool :=
  String.prefix needle text ||
  match text with
  | EmptyString => false
  | String _ r => includesText needle r
  end.

(** [{ ...data, [key]: value }] *)
Fixpoint setProperty (key value : string) (data : FormData) : FormData :=
  match data with
  | [] => [(key, value)]
  | (k, v) :: r =>
      if String.eqb k key then (k, value) :: r else (k, v) :: setProperty key value r
  end.

Definition required : list string := ["sentimento"; "causa"; "lidar"; "precisa"; "laudo"].

(** [`O campo ${field} é obrigatório.`] and
    ['Por favor, descreva mais detalhes quando selecionar "Outro".'] *)
Inductive Message : Type :=
| MsgFieldRequired (field : string)
| MsgDescribeOther.

(** [!data[field]] *)
Definition missing (data : FormData) (field : string) : bool :=
  match assoc field data with
  | Some value => isEmpty value
  | None => true
  end.

Record Validation : Type := mkValidation
  { isValid : bool; errors : list Message; sanitized : option FormData }.

(** [Validator.validateFeelingForm] *)
Definition validateFeelingForm (stripScripts : string -> string) (data : FormData)
  : Validation :=
  let errors :=
    List.flat_map (fun field => if missing data field then [MsgFieldRequired field] else [])
      required in
  let hasOther := List.existsb (includesText "outro") (List.map snd data) in
  let undescribed :=
    match assoc "descricao" data with
    | Some descricao =>
        isEmpty descricao || (Z.of_nat (String.length (trim descricao)) <? 5)
    | None => true
    end in
  let errors := if hasOther && undescribed then (errors ++ [MsgDescribeOther])%list else errors in
  if (0 <? Z.of_nat (List.length errors)) then mkValidation false errors None
  else
    let descricao := match assoc "descricao" data with Some v => v | None => EmptyString end in
    mkValidation true []
      (Some (setProperty "descricao" (Validator.text stripScripts descricao) data)).

(** The [details] argument an object of strings makes. *)
Definition detailsOf (data : FormData) : Details.t :=
  let named := fun key (property : string * string) => String.eqb (fst property) key in
  Details.mk (assoc "emotion" data) (assoc "date" data) (assoc "timestamp" data)
    (List.map (fun property => (fst property, VStr (snd property)))
       (List.filter
          (fun property =>
             negb (named "emotion" property || named "date" property
                   || named "timestamp" property))
          data)).

(** [form.dataset.initialEmotion || data.sentimento]; a valid form has the
    field [sentimento]. *)
Definition chosenEmotion (initialEmotion : option string) (data : FormData) : string :=
  let sentimento := match assoc "sentimento" data with Some v => v | None => EmptyString end in
  match initialEmotion with
  | Some emotion => if isEmpty emotion then sentimento else emotion
  | None => sentimento
  end.

(** [handleFeelingFormSubmit]; [initialEmotion] is
    [form.dataset.initialEmotion]. *)
Definition handleFeelingFormSubmit (h : Host.t) (initialEmotion : option string)
    (data : FormData) : M unit :=
  let validation := validateFeelingForm (Host.stripScripts h) data in
  match isValid validation, sanitized validation with
  | true, Some sanitized =>
      recordFeeling h (chosenEmotion initialEmotion data) (detailsOf sanitized) ;;
      ret tt
  | _, _ => ret tt
  end.

(** What the form must hold to be valid: the five fields, and a
    description of five characters or more, white space around it apart,
    whenever some value contains "outro". *)
Definition complete (data : FormData) : Prop :=
  (forall field, In field required ->
     exists value, assoc field data = Some value /\ value <> EmptyString) /\
  (List.existsb (includesText "outro") (List.map snd data) = true ->
     exists descricao,
       assoc "descricao" data = Some descricao /\
       5 <= Z.of_nat (String.length (trim descricao))).

End FeelingForm.

(** ** What the form rules accept *)

Module Forms.

(** The values the rules [required], [minLength lo] and [maxLength hi]
    accept together: not blank, and of a length, white space counted, from
    [lo] to [hi]. *)
Definition accepted (lo hi : Z) (value : string) : Prop :=
  JsString.trim value <> EmptyString /\
  lo <= Z.of_nat (String.length value) <= hi.

End Forms.

(** * Properties *)

(** ** Strings *)

Section Strings.
Import JsString.

Lemma includes_In l x : JsString.includes l x = true <-> In x l.
Proof.
  induction l as [|y r IH]; simpl.
  - split; [discriminate | tauto].
  - rewrite orb_true_iff, IH, String.eqb_eq. tauto.
Qed.

Lemma includes_false l x : JsString.includes l x = false <-> ~ In x l.
Proof.
  rewrite <- includes_In. destruct (JsString.includes l x); split; congruence.
Qed.




End Strings.

(** ** Leveling *)

Section Leveling.
Import AppState.
Local Open Scope store_scope.

Lemma xpForNextLevel_nonneg (level : Z) : 0 <= xpForNextLevel level.
Proof.
  unfold xpForNextLevel. destruct (1 <=? level) eqn:E.
  - apply Z.leb_le in E. apply Z.div_pos; [|apply Z.pow_pos_nonneg; lia].
    apply Z.mul_nonneg_nonneg; [lia|]. apply Z.pow_nonneg. lia.
  - apply Z.leb_gt in E. apply Z.div_pos; [|apply Z.pow_pos_nonneg; lia].
    apply Z.mul_nonneg_nonneg; [lia|]. apply Z.pow_nonneg. lia.
Qed.

Lemma xpForNextLevel_ge_100 (level : Z) : 1 <= level -> 100 <= xpForNextLevel level.
Proof.
  intros H. unfold xpForNextLevel.
  destruct (1 <=? level) eqn:E; [|apply Z.leb_gt in E; lia].
  apply Z.div_le_lower_bound; [apply Z.pow_pos_nonneg; lia|].
  rewrite Z.mul_comm. apply Z.mul_le_mono_nonneg_l; [lia|].
  apply Z.pow_le_mono_l. lia.
Qed.

Example xpForNextLevel_1 : xpForNextLevel 1 = 100.
Proof. reflexivity. Qed.
Example xpForNextLevel_2 : xpForNextLevel 2 = 120.
Proof. reflexivity. Qed.
Example xpForNextLevel_4 : xpForNextLevel 4 = 172.
Proof. reflexivity. Qed.
Example xpForNextLevel_0 : xpForNextLevel 0 = 83.
Proof. reflexivity. Qed.

Lemma bind_run {A B : Type} (m : M A) (f : A -> M B) (d : Document.t) :
  bind m f d =
  (result (f (result (m d)) (document (m d))),
   document (f (result (m d)) (document (m d))),
   (events (m d) ++ events (f (result (m d)) (document (m d))))%list).
Proof.
  unfold bind, result, document, events.
  destruct (m d) as [[a d1] e1]. cbn [fst snd].
  destruct (f a d1) as [[b d2] e2]. reflexivity.
Qed.

Lemma run_eta {A : Type} (r : A * Document.t * list Event) :
  r = (result r, document r, events r).
Proof. destruct r as [[a d] e]. reflexivity. Qed.

Lemma awardBadge_document (badgeId : string) (d : Document.t) :
  document (awardBadge badgeId d) =
  if JsString.includes (badgesOf d) badgeId then d
  else Document.set_userProfile
         (UserProfile.set_badges (badgesOf d ++ [badgeId])%list (Document.userProfile d)) d.
Proof.
  unfold awardBadge, badgesOf. rewrite bind_run. cbn -[JsString.includes].
  destruct (JsString.includes _ _); cbn; [reflexivity|].
  destruct (BADGES badgeId); reflexivity.
Qed.

Lemma awardBadge_xp badgeId d : xpOf (document (awardBadge badgeId d)) = xpOf d.
Proof.
  rewrite awardBadge_document.
  destruct (JsString.includes _ _); reflexivity.
Qed.

Lemma awardBadge_level badgeId d : levelOf (document (awardBadge badgeId d)) = levelOf d.
Proof.
  rewrite awardBadge_document.
  destruct (JsString.includes _ _); reflexivity.
Qed.

Lemma levelUp_xp d :
  xpOf (document (levelUp d)) = xpOf d - xpForNextLevel (levelOf d).
Proof.
  unfold levelUp. repeat (rewrite bind_run; cbn [document result events fst snd]).
  cbn [profile gets modifyProfile modify notify ret document result events fst snd].
  destruct (_ =? 5); [rewrite awardBadge_xp|]; reflexivity.
Qed.

Lemma levelUp_level d : levelOf (document (levelUp d)) = levelOf d + 1.
Proof.
  unfold levelUp. repeat (rewrite bind_run; cbn [document result events fst snd]).
  cbn [profile gets modifyProfile modify notify ret document result events fst snd].
  destruct (_ =? 5); [rewrite awardBadge_level|]; reflexivity.
Qed.

(** The recursive equation of the unrolled [checkForLevelUp]. *)
Lemma checkForLevelUp_fuel_S (fuel : nat) (d : Document.t) :
  checkForLevelUp_fuel (S fuel) d =
  if xpOf d >=? xpForNextLevel (levelOf d) then
    let r1 := levelUp d in
    let d1 := document r1 in
    if xpOf d1 >=? xpForNextLevel (levelOf d1) then
      let r2 := checkForLevelUp_fuel fuel d1 in
      (tt, document r2, (events r1 ++ events r2)%list)
    else (tt, d1, events r1)
  else (tt, d, []).
Proof.
  unfold xpOf, levelOf, levelUp.
  cbn [checkForLevelUp_fuel].
  cbv [bind profile gets modifyProfile modify notify ret document events]. cbv zeta.
  cbn [fst snd].
  destruct (_ >=? _); [|reflexivity].
  cbn [Document.userProfile Document.set_userProfile UserProfile.level UserProfile.xp
       UserProfile.set_level UserProfile.set_xp app].
  destruct (_ =? 5).
  - destruct (awardBadge "LEVEL_5" _) as [[u d1] e1]. cbn [fst snd app].
    destruct (_ >=? _).
    + destruct (checkForLevelUp_fuel fuel d1) as [[u2 d2] e2]. destruct u2. reflexivity.
    + rewrite app_nil_r. reflexivity.
  - cbn [fst snd app]. destruct (_ >=? _).
    + destruct (checkForLevelUp_fuel fuel _) as [[u2 d2] e2]. destruct u2. reflexivity.
    + reflexivity.
Qed.

Lemma levelUpFuel_eq d :
  levelUpFuel (Document.userProfile d) = S (Z.to_nat (xpOf d) + Z.to_nat (1 - levelOf d)).
Proof. reflexivity. Qed.

(** A level-up makes the bound on the remaining calls smaller. *)
Lemma levelUp_fuel_decreases d :
  xpForNextLevel (levelOf d) <= xpOf d ->
  (levelUpFuel (Document.userProfile (document (levelUp d)))
   < levelUpFuel (Document.userProfile d))%nat.
Proof.
  intros H. rewrite !levelUpFuel_eq, levelUp_xp, levelUp_level.
  pose proof (xpForNextLevel_nonneg (levelOf d)) as Hn.
  destruct (Z_le_gt_dec 1 (levelOf d)) as [Hl|Hl].
  - pose proof (xpForNextLevel_ge_100 _ Hl). lia.
  - lia.
Qed.

(** With fuel for every nested call, the unrolled recursion computes what
    the reference loop computes. *)
Lemma checkForLevelUp_fuel_leveling (fuel : nat) : forall d,
  (levelUpFuel (Document.userProfile d) <= fuel)%nat ->
  Reference.leveling (levelOf d, xpOf d)
    (levelOf (document (checkForLevelUp_fuel fuel d)),
     xpOf (document (checkForLevelUp_fuel fuel d))).
Proof.
  induction fuel as [|fuel IH]; intros d Hf.
  - rewrite levelUpFuel_eq in Hf. lia.
  - rewrite checkForLevelUp_fuel_S.
    destruct (xpOf d >=? _) eqn:E1.
    + apply Z.geb_le in E1. cbv zeta.
      pose proof (levelUp_fuel_decreases d E1) as Hdec.
      apply Reference.leveling_step; [exact E1|].
      rewrite <- levelUp_xp, <- levelUp_level.
      destruct (xpOf (document (levelUp d)) >=? _) eqn:E2.
      * cbn [document fst snd]. apply IH. lia.
      * cbn [document fst snd]. apply Reference.leveling_done.
        rewrite Z.geb_leb in E2. apply Z.leb_gt in E2. exact E2.
    + cbn [document fst snd]. apply Reference.leveling_done.
      rewrite Z.geb_leb in E1. apply Z.leb_gt in E1. exact E1.
Qed.

(** More fuel than the bound changes nothing. *)
Lemma checkForLevelUp_fuel_enough (fuel1 : nat) : forall fuel2 d,
  (levelUpFuel (Document.userProfile d) <= fuel1)%nat ->
  (levelUpFuel (Document.userProfile d) <= fuel2)%nat ->
  checkForLevelUp_fuel fuel1 d = checkForLevelUp_fuel fuel2 d.
Proof.
  induction fuel1 as [|fuel1 IH]; intros fuel2 d H1 H2.
  - rewrite levelUpFuel_eq in H1. lia.
  - destruct fuel2 as [|fuel2]; [rewrite levelUpFuel_eq in H2; lia|].
    rewrite !checkForLevelUp_fuel_S.
    destruct (xpOf d >=? _) eqn:E1; [|reflexivity].
    apply Z.geb_le in E1. cbv zeta.
    pose proof (levelUp_fuel_decreases d E1) as Hdec.
    destruct (xpOf (document (levelUp d)) >=? _); [|reflexivity].
    rewrite (IH fuel2) by lia. reflexivity.
Qed.

(** [checkForLevelUp] satisfies the recursive definition of the source:
    level up if the XP suffice, and call [checkForLevelUp] again if they
    still do. *)
Lemma checkForLevelUp_unfold (d : Document.t) :
  checkForLevelUp d =
  if xpOf d >=? xpForNextLevel (levelOf d) then
    let r1 := levelUp d in
    let d1 := document r1 in
    if xpOf d1 >=? xpForNextLevel (levelOf d1) then
      let r2 := checkForLevelUp d1 in
      (tt, document r2, (events r1 ++ events r2)%list)
    else (tt, d1, events r1)
  else (tt, d, []).
Proof.
  unfold checkForLevelUp at 1. unfold levelUpFuel at 1.
  rewrite checkForLevelUp_fuel_S.
  destruct (xpOf d >=? _) eqn:E1; [|reflexivity].
  apply Z.geb_le in E1. cbv zeta.
  pose proof (levelUp_fuel_decreases d E1) as Hdec.
  destruct (xpOf (document (levelUp d)) >=? _); [|reflexivity].
  unfold checkForLevelUp.
  rewrite (checkForLevelUp_fuel_enough _ (levelUpFuel (Document.userProfile (document (levelUp d)))));
    [reflexivity| |lia].
  unfold levelUpFuel, xpOf, levelOf in *. lia.
Qed.

Lemma checkForLevelUp_leveling (d : Document.t) :
  Reference.leveling (levelOf d, xpOf d)
    (levelOf (document (checkForLevelUp d)), xpOf (document (checkForLevelUp d))).
Proof. apply checkForLevelUp_fuel_leveling. lia. Qed.

(** The reference loop stops below the requirement of the level it reaches,
    and it is a function of the pair it starts from. *)
Lemma leveling_normal (a b : Z * Z) :
  Reference.leveling a b -> snd b < xpForNextLevel (fst b).
Proof. induction 1; [assumption|assumption]. Qed.


(** [addXp] with a positive amount adds it and normalizes. *)
Lemma addXp_positive (amount : Z) (reason : string) (d : Document.t) :
  0 < amount ->
  document (addXp amount reason d) =
  document (checkForLevelUp
              (Document.set_userProfile
                 (UserProfile.set_xp (xpOf d + amount) (Document.userProfile d)) d)).
Proof.
  intros H. unfold addXp.
  destruct (amount =? 0) eqn:E0; [apply Z.eqb_eq in E0; lia|].
  destruct (amount <=? 0) eqn:E1; [apply Z.leb_le in E1; lia|].
  cbn [orb].
  repeat (rewrite bind_run; cbn [document result events fst snd]).
  reflexivity.
Qed.

(** [addXp] with an amount that is not positive does nothing. *)
Lemma addXp_nonpositive (amount : Z) (reason : string) (d : Document.t) :
  amount <= 0 -> addXp amount reason d = (tt, d, []).
Proof.
  intros H. unfold addXp.
  destruct (amount =? 0) eqn:E0; [reflexivity|].
  destruct (amount <=? 0) eqn:E1; [reflexivity|apply Z.leb_gt in E1; lia].
Qed.

(** A single grant that crosses six levels: from level 1 with no XP, 1000
    XP pay 100 + 120 + 144 + 172 + 207 + 248 and leave 9 at level 7; every
    level gained is announced and the LEVEL_5 badge is awarded on the way. *)
Example addXp_crosses_levels :
  let d := Document.set_userProfile (UserProfile.mk 0 1 0 None [] []) (INITIAL_STATE "2025-09-08") in
  let r := addXp 1000 "" d in
  (levelOf (document r), xpOf (document r)) = (7, 9) /\
  badgesOf (document r) = ["LEVEL_5"] /\
  List.length (List.filter (fun e => match e with UserLevelup _ => true | _ => false end)
                 (events r)) = 6%nat.
Proof. vm_compute. repeat split. Qed.




(** A negative amount on a normalized profile: the code leaves (1, 50),
    the reference loop would give (1, 40). *)
Example addXp_negative_amount :
  let d := Document.set_userProfile (UserProfile.mk 50 1 0 None [] []) (INITIAL_STATE "2025-09-08") in
  let d' := document (addXp (-10) "" d) in
  (levelOf d', xpOf d') = (1, 50) /\
  Reference.leveling (levelOf d, xpOf d + -10) (1, 40).
Proof.
  split; [reflexivity|]. apply Reference.leveling_done. reflexivity.
Qed.

End Leveling.

(** ** Badges *)

Section Badges.
Import AppState.
Local Open Scope store_scope.

Lemma preserves_ret {A : Type} (P : Document.t -> Prop) (a : A) : preserves P (ret a).
Proof. intros d H. exact H. Qed.

Lemma preserves_gets {A : Type} (P : Document.t -> Prop) (f : Document.t -> A) :
  preserves P (gets f).
Proof. intros d H. exact H. Qed.

Lemma preserves_notify (P : Document.t -> Prop) (e : Event) : preserves P (notify e).
Proof. intros d H. exact H. Qed.

Lemma preserves_modify (P : Document.t -> Prop) (f : Document.t -> Document.t) :
  (forall d, P d -> P (f d)) -> preserves P (modify f).
Proof. intros Hf d H. apply Hf, H. Qed.

Lemma preserves_bind {A B : Type} (P : Document.t -> Prop) (m : M A) (f : A -> M B) :
  preserves P m -> (forall a, preserves P (f a)) -> preserves P (bind m f).
Proof.
  intros Hm Hf d H. rewrite bind_run. cbn [document fst snd].
  apply Hf, Hm, H.
Qed.

(** A write to the profile that keeps [badges] keeps them unique. *)
Lemma preserves_modifyProfile (f : UserProfile.t -> UserProfile.t) :
  (forall p, UserProfile.badges (f p) = UserProfile.badges p) ->
  preserves badgesUnique (modifyProfile f).
Proof.
  intros Hf d H. unfold badgesUnique, badgesOf in *. cbn. rewrite Hf. exact H.
Qed.

Lemma awardBadge_events (badgeId : string) (d : Document.t) :
  events (awardBadge badgeId d) =
  if JsString.includes (badgesOf d) badgeId then []
  else match BADGES badgeId with
       | Undefined => []
       | badge => [BadgeAwarded badge]
       end.
Proof.
  unfold awardBadge, badgesOf. rewrite bind_run. cbn -[JsString.includes BADGES].
  destruct (JsString.includes _ _); cbn -[BADGES]; [reflexivity|].
  destruct (BADGES badgeId); reflexivity.
Qed.

Lemma awardBadge_badges (badgeId : string) (d : Document.t) :
  badgesOf (document (awardBadge badgeId d)) =
  if JsString.includes (badgesOf d) badgeId then badgesOf d
  else (badgesOf d ++ [badgeId])%list.
Proof.
  rewrite awardBadge_document. destruct (JsString.includes _ _); reflexivity.
Qed.

Lemma NoDup_snoc (l : list string) (x : string) :
  NoDup l -> ~ In x l -> NoDup (l ++ [x]).
Proof.
  intros Hl Hx. induction l as [|y r IH]; cbn.
  - constructor; [intros []|constructor].
  - inversion Hl; subst. constructor.
    + rewrite in_app_iff. cbn. intros [H|[H|[]]]; [contradiction|].
      subst. apply Hx. left. reflexivity.
    + apply IH; [assumption|]. intros H. apply Hx. right. exact H.
Qed.

Lemma awardBadge_preserves (badgeId : string) : preserves badgesUnique (awardBadge badgeId).
Proof.
  intros d H. unfold badgesUnique in *. rewrite awardBadge_badges.
  destruct (JsString.includes _ _) eqn:E; [exact H|].
  apply NoDup_snoc; [exact H|]. apply includes_false, E.
Qed.

Create HintDb store_inv discriminated.
#[local] Hint Resolve awardBadge_preserves : store_inv.

Ltac preserve_step :=
  first
    [ solve [auto 1 with store_inv nocore]
    | apply preserves_ret
    | apply preserves_gets
    | apply preserves_notify
    | apply preserves_modifyProfile; intros; reflexivity
    | apply preserves_modify; let H := fresh in intros ? H; exact H
    | apply preserves_bind; [|intros ?]
    | match goal with
      | |- preserves _ (if ?c then _ else _) => destruct c
      | |- preserves _ (match ?x with _ => _ end) => destruct x
      end
    | progress cbv zeta ].

Ltac preserve := unfold profile; repeat preserve_step.

Lemma checkForLevelUp_fuel_preserves (fuel : nat) :
  preserves badgesUnique (checkForLevelUp_fuel fuel).
Proof.
  induction fuel as [|fuel IH]; cbn [checkForLevelUp_fuel]; preserve.
Qed.

Lemma checkForLevelUp_preserves : preserves badgesUnique checkForLevelUp.
Proof. intros d H. apply checkForLevelUp_fuel_preserves, H. Qed.
#[local] Hint Resolve checkForLevelUp_preserves : store_inv.

Lemma addXp_preserves amount reason : preserves badgesUnique (addXp amount reason).
Proof. unfold addXp. preserve. Qed.
#[local] Hint Resolve addXp_preserves : store_inv.

Lemma updateCheckInStreak_preserves h : preserves badgesUnique (updateCheckInStreak h).
Proof. unfold updateCheckInStreak. preserve. Qed.
#[local] Hint Resolve updateCheckInStreak_preserves : store_inv.

Lemma initial_badgesUnique h : badgesUnique (getInitialState h).
Proof.
  unfold badgesUnique. cbn. repeat constructor; cbn; intuition discriminate.
Qed.

Lemma login_preserves h userName : preserves badgesUnique (login h userName).
Proof.
  unfold login. cbv zeta. destruct (0 <? _); [apply preserves_ret|].
  apply preserves_bind; [|intros ?; preserve].
  intros d _. apply initial_badgesUnique.
Qed.

Lemma addGoal_preserves h title : preserves badgesUnique (addGoal h title).
Proof. unfold addGoal. preserve. Qed.

Lemma toggleGoal_preserves h goalId : preserves badgesUnique (toggleGoal h goalId).
Proof. unfold toggleGoal. preserve. Qed.

Lemma deleteGoal_preserves goalId : preserves badgesUnique (deleteGoal goalId).
Proof. unfold deleteGoal. preserve. Qed.

Lemma saveJournalEntry_preserves h content entryId :
  preserves badgesUnique (saveJournalEntry h content entryId).
Proof. unfold saveJournalEntry. preserve. Qed.

Lemma deleteJournalEntry_preserves entryId : preserves badgesUnique (deleteJournalEntry entryId).
Proof. unfold deleteJournalEntry. preserve. Qed.

Lemma recordFeeling_preserves h emotion details :
  preserves badgesUnique (recordFeeling h emotion details).
Proof.
  unfold recordFeeling. preserve.
Qed.

Lemma completeChallenge_preserves challengeId :
  preserves badgesUnique (completeChallenge challengeId).
Proof. unfold completeChallenge. preserve. Qed.

Lemma scheduleAppointment_preserves h date time reason :
  preserves badgesUnique (scheduleAppointment h date time reason).
Proof. unfold scheduleAppointment. preserve. Qed.

Lemma cancelAppointment_preserves appointmentId :
  preserves badgesUnique (cancelAppointment appointmentId).
Proof. unfold cancelAppointment. preserve. Qed.

Lemma changeSchedulingDate_preserves h next :
  preserves badgesUnique (changeSchedulingDate h next).
Proof. unfold changeSchedulingDate. preserve. Qed.

(** Every mutation operation keeps the badge ids unique. *)
Lemma run_preserves (h : Host.t) (op : Operation) (d : Document.t) :
  badgesUnique d -> badgesUnique (run h op d).
Proof.
  intros H. destruct op; cbn [run].
  - apply login_preserves, H.
  - apply addXp_preserves, H.
  - apply awardBadge_preserves, H.
  - apply updateCheckInStreak_preserves, H.
  - apply addGoal_preserves, H.
  - apply toggleGoal_preserves, H.
  - apply deleteGoal_preserves, H.
  - apply saveJournalEntry_preserves, H.
  - apply deleteJournalEntry_preserves, H.
  - apply recordFeeling_preserves, H.
  - apply completeChallenge_preserves, H.
  - apply scheduleAppointment_preserves, H.
  - apply cancelAppointment_preserves, H.
  - apply changeSchedulingDate_preserves, H.
Qed.

Lemma runAll_preserves (ops : list (Host.t * Operation)) : forall d,
  badgesUnique d -> badgesUnique (runAll ops d).
Proof.
  unfold runAll. induction ops as [|[h op] ops IH]; intros d H; cbn [fold_left].
  - exact H.
  - apply IH. apply run_preserves, H.
Qed.

Example awardBadge_twice_on_initial :
  let r1 := awardBadge "LEVEL_5" (INITIAL_STATE "2025-09-08") in
  let r2 := awardBadge "LEVEL_5" (document r1) in
  badgesOf (document r2) = ["JOURNAL_START"; "STREAK_3"; "LEVEL_5"] /\
  List.length (events r1) = 1%nat /\ events r2 = [].
Proof. vm_compute. repeat split. Qed.

(** C4. On a document whose badges are unique, calling [awardBadge badgeId]
    twice leaves [badges] with that id exactly once; the second call changes
    nothing and publishes nothing, so [badge:awarded] can only come from the
    first call (which publishes it exactly when the id was not yet held and
    [BADGES] has a record for it); and after every operation, and so after
    every sequence of operations, [badges] holds no id twice. *)
Theorem awardBadge_idempotent (badgeId : string) (d : Document.t) :
  badgesUnique d ->
  let r1 := awardBadge badgeId d in
  let r2 := awardBadge badgeId (document r1) in
  count_occ string_dec (badgesOf (document r2)) badgeId = 1%nat /\
  document r2 = document r1 /\
  events r2 = [] /\
  events r1 = (if JsString.includes (badgesOf d) badgeId then []
               else match BADGES badgeId with
                    | Undefined => []
                    | badge => [BadgeAwarded badge]
                    end) /\
  (forall h op, badgesUnique (run h op d)) /\
  (forall ops, badgesUnique (runAll ops d)).
Proof.
  intros Hd r1 r2.
  assert (Hin : In badgeId (badgesOf (document r1))).
  { subst r1. rewrite awardBadge_badges.
    destruct (JsString.includes _ _) eqn:E.
    - apply includes_In, E.
    - apply in_or_app. right. left. reflexivity. }
  assert (Hd1 : badgesUnique (document r1)) by (apply awardBadge_preserves, Hd).
  assert (Hsame : document r2 = document r1).
  { subst r2. rewrite awardBadge_document.
    apply includes_In in Hin. rewrite Hin. reflexivity. }
  repeat split.
  - rewrite Hsame.
    pose proof (proj1 (NoDup_count_occ string_dec _) Hd1 badgeId) as Hle.
    pose proof (proj1 (count_occ_In string_dec _ _) Hin) as Hgt. lia.
  - exact Hsame.
  - subst r2. rewrite awardBadge_events.
    apply includes_In in Hin. rewrite Hin. reflexivity.
  - apply awardBadge_events.
  - intros h op. apply run_preserves, Hd.
  - intros ops. apply runAll_preserves, Hd.
Qed.

Lemma awardBadge_idempotent_witness :
  let d := INITIAL_STATE "2025-09-08" in
  let r1 := awardBadge "LEVEL_5" d in
  let r2 := awardBadge "LEVEL_5" (document r1) in
  badgesUnique d /\
  count_occ string_dec (badgesOf (document r2)) "LEVEL_5" = 1%nat /\
  document r2 = document r1 /\
  events r2 = [].
Proof.
  assert (Hd : badgesUnique (INITIAL_STATE "2025-09-08")).
  { unfold badgesUnique. cbn. repeat constructor; cbn; intuition discriminate. }
  split; [exact Hd|].
  destruct (awardBadge_idempotent "LEVEL_5" (INITIAL_STATE "2025-09-08") Hd)
    as (H1 & H2 & H3 & _).
  repeat split; assumption.
Defined.

End Badges.

(** ** What leveling and badge awarding leave alone *)

Section Frame.
Import AppState.
Local Open Scope store_scope.

Variable P : Document.t -> Prop.
Hypothesis P_badges : forall d v,
  P d -> P (Document.set_userProfile (UserProfile.set_badges v (Document.userProfile d)) d).
Hypothesis P_xp : forall d v,
  P d -> P (Document.set_userProfile (UserProfile.set_xp v (Document.userProfile d)) d).
Hypothesis P_level : forall d v,
  P d -> P (Document.set_userProfile (UserProfile.set_level v (Document.userProfile d)) d).

Lemma awardBadge_frame badgeId : preserves P (awardBadge badgeId).
Proof.
  intros d H. rewrite awardBadge_document.
  destruct (JsString.includes _ _); [exact H|]. apply P_badges, H.
Qed.

Lemma levelUp_frame : preserves P levelUp.
Proof.
  unfold levelUp, profile.
  apply preserves_bind; [apply preserves_gets|intros p0]. cbv zeta.
  apply preserves_bind; [intros d H; apply (P_level d), H|intros _].
  apply preserves_bind; [intros d H; apply (P_xp d), H|intros _].
  apply preserves_bind; [apply preserves_gets|intros p1].
  apply preserves_bind; [apply preserves_notify|intros _].
  destruct (_ =? 5); [apply awardBadge_frame|apply preserves_ret].
Qed.

Lemma checkForLevelUp_fuel_frame (fuel : nat) : preserves P (checkForLevelUp_fuel fuel).
Proof.
  induction fuel as [|fuel IH]; intros d H; [exact H|].
  rewrite checkForLevelUp_fuel_S.
  destruct (xpOf d >=? _); [|exact H]. cbv zeta.
  destruct (_ >=? _); cbn [document fst snd].
  - apply IH, levelUp_frame, H.
  - apply levelUp_frame, H.
Qed.

Lemma addXp_frame amount reason : preserves P (addXp amount reason).
Proof.
  unfold addXp. destruct (_ || _); [apply preserves_ret|]. unfold profile.
  apply preserves_bind; [apply preserves_gets|intros p0]. cbv zeta.
  apply preserves_bind; [intros d H; apply (P_xp d), H|intros _].
  apply preserves_bind; [intros d H; apply checkForLevelUp_fuel_frame, H|intros _].
  apply preserves_bind; [apply preserves_gets|intros p1].
  apply preserves_notify.
Qed.

End Frame.

Section Progress.
Import AppState.

Lemma sameButProgress_refl d : sameButProgress d d.
Proof. unfold sameButProgress. destruct d as [? ? ? [? ? ? ? ? ?] ? ? ? ? ? ? ? ?]. reflexivity. Qed.

Lemma sameButProgress_badges d0 d v :
  sameButProgress d0 d ->
  sameButProgress d0
    (Document.set_userProfile (UserProfile.set_badges v (Document.userProfile d)) d).
Proof.
  unfold sameButProgress. intros H. rewrite H at 1 2.
  destruct d0 as [? ? ? [? ? ? ? ? ?] ? ? ? ? ? ? ? ?]. reflexivity.
Qed.

Lemma sameButProgress_xp d0 d v :
  sameButProgress d0 d ->
  sameButProgress d0
    (Document.set_userProfile (UserProfile.set_xp v (Document.userProfile d)) d).
Proof.
  unfold sameButProgress. intros H. rewrite H at 1 2.
  destruct d0 as [? ? ? [? ? ? ? ? ?] ? ? ? ? ? ? ? ?]. reflexivity.
Qed.

Lemma sameButProgress_level d0 d v :
  sameButProgress d0 d ->
  sameButProgress d0
    (Document.set_userProfile (UserProfile.set_level v (Document.userProfile d)) d).
Proof.
  unfold sameButProgress. intros H. rewrite H at 1 2.
  destruct d0 as [? ? ? [? ? ? ? ? ?] ? ? ? ? ? ? ? ?]. reflexivity.
Qed.

(** [awardBadge] and [addXp] write nothing but [badges], [xp] and [level]. *)
Lemma awardBadge_progress badgeId d : sameButProgress d (document (awardBadge badgeId d)).
Proof.
  apply (awardBadge_frame (sameButProgress d) (sameButProgress_badges d)).
  apply sameButProgress_refl.
Qed.

Lemma addXp_progress amount reason d : sameButProgress d (document (addXp amount reason d)).
Proof.
  apply (addXp_frame (sameButProgress d) (sameButProgress_badges d)
           (sameButProgress_xp d) (sameButProgress_level d)).
  apply sameButProgress_refl.
Qed.

End Progress.

(** ** The check-in streak *)

Section Streak.
Import AppState.
Local Open Scope store_scope.

Lemma sameButProgress_streak d0 d :
  sameButProgress d0 d ->
  streakOf d = streakOf d0 /\ lastCheckInOf d = lastCheckInOf d0.
Proof.
  unfold sameButProgress. intros H. rewrite H. split; reflexivity.
Qed.

Lemma awardBadge_streak badgeId d :
  streakOf (document (awardBadge badgeId d)) = streakOf d /\
  lastCheckInOf (document (awardBadge badgeId d)) = lastCheckInOf d.
Proof. apply sameButProgress_streak, awardBadge_progress. Qed.

Lemma dateIs_true lastDate day : dateIs lastDate day = true <-> lastDate = Some day.
Proof.
  destruct lastDate as [s|]; cbn.
  - rewrite String.eqb_eq. split; congruence.
  - split; discriminate.
Qed.


Ltac run_awardBadge :=
  match goal with
  | |- context [awardBadge ?b ?x] =>
      let H := fresh "H" in
      pose proof (awardBadge_streak b x) as H;
      destruct (awardBadge b x) as [[? ?] ?];
      cbn in H; destruct H
  end.

(** What [updateCheckInStreak] computes, in the terms of its own tests. *)
Lemma updateCheckInStreak_spec (h : Host.t) (d : Document.t) :
  let r := updateCheckInStreak h d in
  let lastDate := lastCheckInOf d in
  streakOf (document r) =
    (if dateIs lastDate (Host.today h) then streakOf d
     else if dateIs lastDate (Host.yesterdayStr h) then streakOf d + 1 else 1) /\
  lastCheckInOf (document r) =
    (if dateIs lastDate (Host.today h) then lastDate else Some (Host.today h)) /\
  continued (result r) = negb (dateIs lastDate (Host.today h)) /\
  streak (result r) = streakOf (document r).
Proof.
  cbv zeta. unfold updateCheckInStreak.
  cbv [bind profile gets modifyProfile modify notify ret document result]. cbv zeta.
  unfold lastCheckInOf, streakOf.
  destruct (dateIs _ (Host.today h)); [cbn; repeat split|].
  destruct (dateIs _ (Host.yesterdayStr h));
    cbn [Document.userProfile Document.set_userProfile UserProfile.checkInStreak
         UserProfile.set_checkInStreak UserProfile.set_lastCheckInDate fst snd];
    (destruct (_ =? 3); [run_awardBadge|]);
    cbn [fst snd];
    (destruct (_ =? 7); [run_awardBadge|]);
    cbn; unfold streakOf, lastCheckInOf in *; repeat split; congruence.
Qed.

Lemma recordFeeling_run (h : Host.t) (emotion : string) (details : Details.t) (d : Document.t) :
  let feeling := makeFeeling h emotion details in
  let d1 :=
    Document.set_moodHistory
      (Document.moodHistory d ++ [MoodEntry.mk (Feeling.date feeling) emotion])%list
      (Document.set_feelings (Document.feelings d ++ [feeling])%list d) in
  let r := updateCheckInStreak h d1 in
  let r' := addXp 10 "Check-in diário" (document r) in
  recordFeeling h emotion details d =
  (mkResult true None None (Some (EFeeling feeling)),
   document r',
   (events r ++ events r' ++ [FeelingRecorded feeling (streak (result r))])%list).
Proof.
  cbv zeta. unfold recordFeeling.
  cbv [bind gets modify notify ret document result events]. cbv zeta.
  cbn [Document.moodHistory Document.set_feelings].
  destruct (updateCheckInStreak h _) as [[s d2] e2]. cbn [fst snd].
  destruct (addXp 10 _ d2) as [[u d3] e3]. cbn [fst snd].
  rewrite !app_nil_r. reflexivity.
Qed.



(** Three check-ins on consecutive days starting from a fresh streak: the
    streak goes 1, 2, 3 and STREAK_3 is awarded at 3. *)
Example streak_three_days :
  let day := fun today yesterday =>
    Host.mk today yesterday "" 0 "" "" (fun _ => false) (fun s _ => s) (fun s => s) in
  let d0 := Sample.withProfile (UserProfile.mk 0 1 0 None [] []) in
  let d1 := document (recordFeeling (day "2025-09-09" "2025-09-08") "bom" Details.empty d0) in
  let d2 := document (recordFeeling (day "2025-09-10" "2025-09-09") "bom" Details.empty d1) in
  let d3 := document (recordFeeling (day "2025-09-11" "2025-09-10") "bom" Details.empty d2) in
  (streakOf d1, streakOf d2, streakOf d3) = (1, 2, 3) /\
  (badgesOf d2, badgesOf d3) = ([], ["STREAK_3"]) /\
  (xpOf d1, xpOf d3) = (10, 30).
Proof. vm_compute. repeat split. Qed.

End Streak.

(** ** What the profile operations leave outside the profile *)

Section ProfileOnly.
Import AppState.
Local Open Scope store_scope.

Variable P : Document.t -> Prop.
Hypothesis P_profile : forall d p, P d -> P (Document.set_userProfile p d).

Lemma modifyProfile_blind f : preserves P (modifyProfile f).
Proof. intros d H. apply P_profile, H. Qed.

Lemma awardBadge_blind badgeId : preserves P (awardBadge badgeId).
Proof. apply awardBadge_frame. intros d v. apply P_profile. Qed.

Lemma addXp_blind amount reason : preserves P (addXp amount reason).
Proof. apply addXp_frame; intros d v; apply P_profile. Qed.

Lemma updateCheckInStreak_blind h : preserves P (updateCheckInStreak h).
Proof.
  unfold updateCheckInStreak, profile.
  repeat first
    [ apply preserves_ret | apply preserves_gets | apply preserves_notify
    | apply modifyProfile_blind | apply awardBadge_blind
    | apply preserves_bind; [|intros ?]
    | match goal with |- preserves _ (if ?c then _ else _) => destruct c end
    | progress cbv zeta ].
Qed.

End ProfileOnly.

(** ** Recording a feeling *)

Section Feelings.
Import AppState.
Local Open Scope store_scope.

Lemma updateCheckInStreak_progress h d :
  xpOf (document (updateCheckInStreak h d)) = xpOf d /\
  levelOf (document (updateCheckInStreak h d)) = levelOf d.
Proof.
  unfold updateCheckInStreak.
  cbv [bind profile gets modifyProfile modify notify ret document result]. cbv zeta.
  destruct (dateIs _ (Host.today h)); [split; reflexivity|].
  destruct (dateIs _ (Host.yesterdayStr h));
    cbn [Document.userProfile Document.set_userProfile UserProfile.checkInStreak
         UserProfile.set_checkInStreak UserProfile.set_lastCheckInDate fst snd];
    repeat match goal with
      | |- context [if ?c =? ?n then awardBadge ?b else _] =>
          destruct (c =? n)
      | |- context [awardBadge ?b ?x] =>
          let H1 := fresh "H" in let H2 := fresh "H" in
          pose proof (awardBadge_xp b x) as H1;
          pose proof (awardBadge_level b x) as H2;
          destruct (awardBadge b x) as [[? ?] ?];
          cbn in H1, H2
      end;
    cbn; unfold xpOf, levelOf in *; split; congruence.
Qed.

Lemma recordFeeling_feelings h emotion details d :
  Document.feelings (document (recordFeeling h emotion details d)) =
  (Document.feelings d ++ [makeFeeling h emotion details])%list.
Proof.
  rewrite recordFeeling_run. cbn [document fst snd].
  apply (addXp_blind (fun x => Document.feelings x = _)); [intros ? ? H; exact H|].
  apply (updateCheckInStreak_blind (fun x => Document.feelings x = _)); [intros ? ? H; exact H|].
  reflexivity.
Qed.

Lemma recordFeeling_moodHistory h emotion details d :
  Document.moodHistory (document (recordFeeling h emotion details d)) =
  (Document.moodHistory d
     ++ [MoodEntry.mk (Feeling.date (makeFeeling h emotion details)) emotion])%list.
Proof.
  rewrite recordFeeling_run. cbn [document fst snd].
  apply (addXp_blind (fun x => Document.moodHistory x = _)); [intros ? ? H; exact H|].
  apply (updateCheckInStreak_blind (fun x => Document.moodHistory x = _));
    [intros ? ? H; exact H|].
  reflexivity.
Qed.


Example recordFeeling_unknown_label :
  let r := recordFeeling Sample.host "ansiedade" Details.empty Sample.initial in
  success (result r) = true /\
  List.last (Document.moodHistory (document r)) (MoodEntry.mk "" "") =
    MoodEntry.mk "2025-09-09" "ansiedade" /\
  List.length (Document.feelings (document r)) = 9%nat /\
  (levelOf (document r), xpOf (document r)) = (3, 10).
Proof. vm_compute. repeat split. Qed.

End Feelings.

(** ** Challenges *)

Section Challenges.
Import AppState.
Local Open Scope store_scope.

Lemma sameButProgress_completed d0 d :
  sameButProgress d0 d -> completedOf d = completedOf d0.
Proof. unfold sameButProgress. intros H. rewrite H. reflexivity. Qed.

Lemma find_challenge_none (challengeId : string) :
  ~ In challengeId (List.map Challenge.id CHALLENGES) ->
  List.find (fun c => String.eqb (Challenge.id c) challengeId) CHALLENGES = None.
Proof.
  intros H. destruct (List.find _ CHALLENGES) as [c|] eqn:E; [|reflexivity].
  apply List.find_some in E. destruct E as [Hin Heq].
  apply String.eqb_eq in Heq. exfalso. apply H. rewrite <- Heq.
  apply in_map, Hin.
Qed.

Lemma completeChallenge_already (challengeId : string) (d : Document.t) :
  In challengeId (completedOf d) ->
  completeChallenge challengeId d = (alreadyCompleted, d, []).
Proof.
  intros H. apply includes_In in H. unfold completeChallenge.
  cbv [bind profile gets ret]. unfold completedOf in H. rewrite H. reflexivity.
Qed.

Lemma completeChallenge_unknown (challengeId : string) (d : Document.t) :
  ~ In challengeId (completedOf d) ->
  ~ In challengeId (List.map Challenge.id CHALLENGES) ->
  completeChallenge challengeId d = (challengeNotFound, d, []).
Proof.
  intros H Hc. apply includes_false in H. unfold completeChallenge.
  cbv [bind profile gets ret]. unfold completedOf in H. rewrite H.
  rewrite (find_challenge_none _ Hc). reflexivity.
Qed.

(** The three ways a call of [completeChallenge] can go. *)
Lemma completeChallenge_cases (challengeId : string) (d : Document.t) :
  let r := completeChallenge challengeId d in
  (In challengeId (completedOf d) /\ r = (alreadyCompleted, d, [])) \/
  (~ In challengeId (completedOf d) /\
   ~ In challengeId (List.map Challenge.id CHALLENGES) /\
   r = (challengeNotFound, d, [])) \/
  (success (result r) = true /\ In challengeId (completedOf (document r))).
Proof.
  cbv zeta.
  destruct (in_dec string_dec challengeId (completedOf d)) as [Hin|Hin];
    [left; split; [exact Hin|apply completeChallenge_already, Hin]|].
  destruct (in_dec string_dec challengeId (List.map Challenge.id CHALLENGES)) as [Hc|Hc];
    [|right; left; repeat split; try assumption; apply completeChallenge_unknown; assumption].
  right; right.
  unfold completeChallenge.
  rewrite bind_run. cbn [profile gets document result events fst snd].
  apply includes_false in Hin. unfold completedOf in Hin. rewrite Hin.
  destruct (List.find _ CHALLENGES) as [c|] eqn:Ef.
  - cbv [bind profile gets modifyProfile modify notify ret document result]. cbv zeta.
    match goal with |- context [addXp ?a ?s ?x] =>
      pose proof (sameButProgress_completed _ _ (addXp_progress a s x)) as H1;
      destruct (addXp a s x) as [[? d1] ?]
    end.
    cbn [document fst snd] in H1 |- *.
    assert (Hd1 : In challengeId (completedOf d1)).
    { rewrite H1. unfold completedOf. cbn. apply in_or_app. right. left. reflexivity. }
    destruct (Nat.eqb _ _).
    + match goal with |- context [awardBadge ?b ?x] =>
        pose proof (sameButProgress_completed _ _ (awardBadge_progress b x)) as H2;
        destruct (awardBadge b x) as [[? d2] ?]
      end.
      cbn [document fst snd] in H2 |- *. rewrite H2. split; [reflexivity|exact Hd1].
    + cbn. split; [reflexivity|exact Hd1].
  - exfalso. apply in_map_iff in Hc. destruct Hc as (c & Hid & Hc).
    apply (List.find_none _ _ Ef) in Hc. apply String.eqb_neq in Hc. contradiction.
Qed.

(** C5. [completeChallenge] is exactly-once: for an id already in
    [completedChallenges] the call fails ("Desafio já completado") and
    changes nothing; for an id that is not in the catalog the call fails and
    changes nothing, with the not-found message ("Desafio não encontrado")
    when the id is not among the completed ones either; and whatever the
    first call did, a second call for the same id fails, publishes nothing
    and leaves the document, so the XP, as the first call left them. *)
Theorem completeChallenge_exactly_once (challengeId : string) (d : Document.t) :
  let r := completeChallenge challengeId d in
  let r2 := completeChallenge challengeId (document r) in
  (In challengeId (completedOf d) -> r = (alreadyCompleted, d, [])) /\
  (~ In challengeId (List.map Challenge.id CHALLENGES) ->
     success (result r) = false /\ document r = d /\ events r = [] /\
     (~ In challengeId (completedOf d) -> result r = challengeNotFound)) /\
  success (result r2) = false /\
  document r2 = document r /\
  events r2 = [] /\
  xpOf (document r2) = xpOf (document r) /\
  completedOf (document r2) = completedOf (document r).
Proof.
  intros r r2. split; [|split].
  - apply completeChallenge_already.
  - intros Hc. destruct (in_dec string_dec challengeId (completedOf d)) as [Hin|Hin].
    + subst r. rewrite (completeChallenge_already _ _ Hin).
      repeat split. intros Hn. contradiction.
    + subst r. rewrite (completeChallenge_unknown _ _ Hin Hc). repeat split.
  - assert (H : exists x, success x = false /\ r2 = (x, document r, [])).
    { subst r2.
      destruct (completeChallenge_cases challengeId d) as [[Hin Hr]|[(Hin & Hc & Hr)|[_ Hin]]];
        fold r in Hr || fold r in Hin.
      - rewrite Hr. cbn [document fst snd].
        rewrite (completeChallenge_already _ _ Hin). eexists; split; [|reflexivity]. reflexivity.
      - rewrite Hr. cbn [document fst snd].
        rewrite (completeChallenge_unknown _ _ Hin Hc). eexists; split; [|reflexivity].
        reflexivity.
      - rewrite (completeChallenge_already _ _ Hin). eexists; split; [|reflexivity].
        reflexivity. }
    destruct H as (x & Hx & H). rewrite H. cbn [document result events fst snd].
    repeat split. exact Hx.
Qed.

Example completeChallenge_twice :
  let r := completeChallenge "challenge_3" Sample.initial in
  let r2 := completeChallenge "challenge_3" (document r) in
  success (result r) = true /\ xpOf (document r) = 15 /\ levelOf (document r) = 3 /\
  result r2 = alreadyCompleted /\ xpOf (document r2) = 15 /\
  result (completeChallenge "challenge_9" Sample.initial) = challengeNotFound.
Proof. vm_compute. repeat split. Qed.

End Challenges.

(** ** The results of the mutation operations *)

Section Results.
Import AppState.
Local Open Scope store_scope.

Ltac exec :=
  cbv [bind profile gets modifyProfile modify notify ret document result events failure];
  cbv zeta; cbn [fst snd].

Ltac run_calls :=
  repeat
    (match goal with
     | |- context [addXp ?a ?s ?x] => destruct (addXp a s x) as [[? ?] ?]
     | |- context [awardBadge ?b ?x] => destruct (awardBadge b x) as [[? ?] ?]
     | |- context [updateCheckInStreak ?h ?x] =>
         destruct (updateCheckInStreak h x) as [[? ?] ?]
     | |- context [if ?c then _ else _] => destruct c
     | |- context [match ?x with Some _ => _ | None => _ end] => destruct x
     end; cbn [fst snd]).

Ltac shape :=
  split; [reflexivity|];
  first
    [ left; split; reflexivity
    | right; left; do 2 eexists; split; reflexivity
    | right; right; eexists; split; reflexivity ].

Ltac count_errors :=
  change (0 <? Z.of_nat (@List.length Validator.Message [])) with false;
  repeat match goal with
    | |- context [0 <? Z.of_nat (List.length (?e :: ?l))] =>
        change (0 <? Z.of_nat (List.length (e :: l))) with true
    end;
  cbv iota; cbn [Validator.isValid Validator.sanitized Validator.errors].

Ltac fails_cleanly :=
  intros d; exec; count_errors; run_calls; cbn;
  first [discriminate | intros _; split; [reflexivity|split; [reflexivity|shape]]].

Lemma login_failsCleanly h userName : failsCleanly (login h userName).
Proof.
  unfold login. destruct (Validator.validateField _ _ _) as [|error rest]; fails_cleanly.
Qed.

Lemma addGoal_failsCleanly h title : failsCleanly (addGoal h title).
Proof.
  unfold addGoal, Validator.validateGoal.
  destruct (Validator.validateField _ _ _) as [|error rest]; fails_cleanly.
Qed.

Lemma toggleGoal_failsCleanly h goalId : failsCleanly (toggleGoal h goalId).
Proof. unfold toggleGoal. fails_cleanly. Qed.

Lemma deleteGoal_failsCleanly goalId : failsCleanly (deleteGoal goalId).
Proof. unfold deleteGoal. fails_cleanly. Qed.

Lemma saveJournalEntry_failsCleanly h content entryId :
  failsCleanly (saveJournalEntry h content entryId).
Proof.
  unfold saveJournalEntry, Validator.validateJournalEntry.
  destruct (Validator.validateField _ _ _) as [|error rest]; fails_cleanly.
Qed.

Lemma deleteJournalEntry_failsCleanly entryId : failsCleanly (deleteJournalEntry entryId).
Proof. unfold deleteJournalEntry. fails_cleanly. Qed.

Lemma recordFeeling_failsCleanly h emotion details :
  failsCleanly (recordFeeling h emotion details).
Proof. intros d. rewrite recordFeeling_run. cbn. discriminate. Qed.

Lemma completeChallenge_failsCleanly challengeId : failsCleanly (completeChallenge challengeId).
Proof. unfold completeChallenge. fails_cleanly. Qed.

Lemma scheduleAppointment_failsCleanly h date time reason :
  failsCleanly (scheduleAppointment h date time reason).
Proof.
  unfold scheduleAppointment.
  destruct (Validator.validateAppointment _ _ _) as [|error rest]; fails_cleanly.
Qed.

Lemma cancelAppointment_failsCleanly appointmentId :
  failsCleanly (cancelAppointment appointmentId).
Proof. unfold cancelAppointment. fails_cleanly. Qed.

Lemma findIndex_absent {A : Type} (f : A -> bool) (l : list A) :
  (forall x, In x l -> f x = false) -> findIndex f l = -1.
Proof.
  induction l as [|x r IH]; intros H; cbn [findIndex]; [reflexivity|].
  rewrite (H x (or_introl eq_refl)).
  rewrite IH by (intros y Hy; apply H; right; exact Hy). reflexivity.
Qed.

(** A failure of any operation leaves the document as it was. *)
Lemma failure_leaves_document (h : Host.t) (op : Operation) (d : Document.t) (r : Result) :
  runResult h op d = Some r -> success r = false ->
  run h op d = d /\ failureShape r.
Proof.
  destruct op; cbn [runResult run]; intros Hr Hs; try discriminate;
    injection Hr as <-.
  - destruct (login_failsCleanly _ _ _ Hs) as (H1 & _ & H3). split; assumption.
  - destruct (addGoal_failsCleanly _ _ _ Hs) as (H1 & _ & H3). split; assumption.
  - destruct (toggleGoal_failsCleanly _ _ _ Hs) as (H1 & _ & H3). split; assumption.
  - destruct (deleteGoal_failsCleanly _ _ Hs) as (H1 & _ & H3). split; assumption.
  - destruct (saveJournalEntry_failsCleanly _ _ _ _ Hs) as (H1 & _ & H3). split; assumption.
  - destruct (deleteJournalEntry_failsCleanly _ _ Hs) as (H1 & _ & H3). split; assumption.
  - destruct (recordFeeling_failsCleanly _ _ _ _ Hs) as (H1 & _ & H3). split; assumption.
  - destruct (completeChallenge_failsCleanly _ _ Hs) as (H1 & _ & H3). split; assumption.
  - destruct (scheduleAppointment_failsCleanly _ _ _ _ _ Hs) as (H1 & _ & H3).
    split; assumption.
  - destruct (cancelAppointment_failsCleanly _ _ Hs) as (H1 & _ & H3). split; assumption.
Qed.

(** C8 (amended). [deleteGoal] and [deleteJournalEntry], when no goal or
    entry has the id, return the bare object [{ success: false }], with no
    error kind, no [message] and no [errors], publish nothing and leave the
    document as it is.  Every operation that returns an object with
    [success: false] leaves the document as it is; that object has no
    entity and no kind of error, and carries either nothing, or a non-empty
    list of validation errors, or a message. *)
Theorem delete_absent_bare_failure (d : Document.t) (goalId entryId : Z) :
  (forall g, In g (Document.goals d) -> Goal.id g <> goalId) ->
  (forall e, In e (Document.journalEntries d) -> JournalEntry.id e <> entryId) ->
  deleteGoal goalId d = (mkResult false None None None, d, []) /\
  deleteJournalEntry entryId d = (mkResult false None None None, d, []) /\
  (forall h op r, runResult h op d = Some r -> success r = false ->
                  run h op d = d /\ failureShape r).
Proof.
  intros Hg He. split; [|split].
  - unfold deleteGoal. cbv [bind gets ret]. cbv zeta.
    rewrite findIndex_absent; [reflexivity|].
    intros g Hin. apply Z.eqb_neq, Hg, Hin.
  - unfold deleteJournalEntry. cbv [bind gets ret]. cbv zeta.
    rewrite findIndex_absent; [reflexivity|].
    intros e Hin. apply Z.eqb_neq, He, Hin.
  - intros h op r. apply failure_leaves_document.
Qed.

Lemma delete_absent_bare_failure_witness :
  (forall g, In g (Document.goals Sample.initial) -> Goal.id g <> 99) /\
  (forall e, In e (Document.journalEntries Sample.initial) -> JournalEntry.id e <> 99) /\
  deleteGoal 99 Sample.initial = (mkResult false None None None, Sample.initial, []) /\
  deleteJournalEntry 99 Sample.initial = (mkResult false None None None, Sample.initial, []).
Proof.
  assert (Hg : forall g, In g (Document.goals Sample.initial) -> Goal.id g <> 99).
  { cbn. intros g H. repeat (destruct H as [<-|H]; [discriminate|]). destruct H. }
  assert (He : forall e, In e (Document.journalEntries Sample.initial) ->
                         JournalEntry.id e <> 99).
  { cbn. intros e H. repeat (destruct H as [<-|H]; [discriminate|]). destruct H. }
  destruct (delete_absent_bare_failure Sample.initial 99 99 Hg He) as (H1 & H2 & _).
  repeat split; assumption.
Defined.

(** C8 as stated fails: the failure [deleteGoal] and [deleteJournalEntry]
    return for an absent id carries neither a message nor an error list. *)
Lemma delete_absent_not_structured :
  (forall g, In g (Document.goals Sample.initial) -> Goal.id g <> 99) /\
  (forall e, In e (Document.journalEntries Sample.initial) -> JournalEntry.id e <> 99) /\
  ~ Reference.structuredFailure (result (deleteGoal 99 Sample.initial)) /\
  ~ Reference.structuredFailure (result (deleteJournalEntry 99 Sample.initial)).
Proof.
  split; [|split].
  - cbn. intros g H. repeat (destruct H as [<-|H]; [discriminate|]). destruct H.
  - cbn. intros e H. repeat (destruct H as [<-|H]; [discriminate|]). destruct H.
  - split; intros [_ [[text H]|(error & rest & H)]]; vm_compute in H; discriminate.
Qed.

(** Deleting a goal that exists succeeds with [{ success: true }] and
    removes it. *)
Example deleteGoal_present :
  let r := deleteGoal 2 Sample.initial in
  result r = mkResult true None None None /\
  List.map Goal.id (Document.goals (document r)) = [1; 3; 4; 5] /\
  List.length (events r) = 1%nat.
Proof. vm_compute. repeat split. Qed.

End Results.

(** ** Login *)

Section Login.
Import AppState.
Local Open Scope store_scope.

Lemma isEmpty_true s : JsString.isEmpty s = true <-> s = EmptyString.
Proof. destruct s; cbn; split; congruence. Qed.

Lemma isEmpty_false s : JsString.isEmpty s = false <-> s <> EmptyString.
Proof. destruct s; cbn; split; congruence. Qed.

Lemma trim_empty : JsString.trim EmptyString = EmptyString.
Proof. reflexivity. Qed.


Lemma login_rejected (h : Host.t) (userName : string) (d : Document.t) :
  Validator.validateField userName [Validator.RRequired; Validator.RMinLength 2] "Nome" <> [] ->
  login h userName d =
  (mkResult false
     (Some (Validator.validateField userName
              [Validator.RRequired; Validator.RMinLength 2] "Nome")) None None,
   d, []).
Proof.
  intros H. unfold login. cbv zeta.
  destruct (Validator.validateField _ _ _) as [|e l]; [contradiction|]. reflexivity.
Qed.

Lemma login_accepted (h : Host.t) (userName : string) (d : Document.t) :
  Validator.validateField userName [Validator.RRequired; Validator.RMinLength 2] "Nome" = [] ->
  login h userName d =
  (mkResult true None None None,
   Document.set_userName (Some (Validator.sanitize userName)) (getInitialState h),
   [UserLogin (Validator.sanitize userName)]).
Proof.
  intros H. unfold login. cbv zeta. rewrite H. reflexivity.
Qed.




Example login_blank_names :
  result (login Sample.host "" Sample.initial) =
    mkResult false (Some [Validator.MsgRequired "Nome"]) None None /\
  result (login Sample.host " " Sample.initial) =
    mkResult false (Some [Validator.MsgRequired "Nome"; Validator.MsgMinLength "Nome" 2]) None None /\
  result (login Sample.host "a" Sample.initial) =
    mkResult false (Some [Validator.MsgMinLength "Nome" 2]) None None.
Proof. vm_compute. repeat split. Qed.

End Login.

(** ** Trend detection *)

Section Trend.
Import JsNumber AnalyticsEngine.
Local Open Scope Q_scope.

Lemma fold_add_Num (l : list Q) : forall a : Q,
  exists q, List.fold_left add (List.map Num l) (Num a) = Num q /\
            q == a + List.fold_right Qplus 0 l.
Proof.
  induction l as [|x r IH]; intros a; cbn [List.map List.fold_left List.fold_right add].
  - exists a. split; [reflexivity|lra].
  - destruct (IH (a + x)) as (q & Hq & Eq). exists q. split; [exact Hq|]. rewrite Eq. lra.
Qed.

Lemma fold_add_NaN (l : list number) : List.fold_left add l NaN = NaN.
Proof. induction l as [|x r IH]; [reflexivity|exact IH]. Qed.

Lemma fold_add_In_NaN (l : list number) : forall acc,
  In NaN l -> List.fold_left add l acc = NaN.
Proof.
  induction l as [|x r IH]; intros acc H; [destruct H|].
  cbn [List.fold_left]. destruct H as [->|H].
  - destruct acc; apply fold_add_NaN.
  - apply IH, H.
Qed.

(** [calculateAverage] is the mean. *)
Lemma calculateAverage_mean (l : list Q) :
  l <> [] ->
  exists q, calculateAverage (List.map Num l) = Num q /\ q == Reference.mean l.
Proof.
  intros Hl. unfold calculateAverage, ofZ. rewrite length_map.
  destruct l as [|x r]; [contradiction|]. cbn [List.length Nat.eqb].
  destruct (fold_add_Num (x :: r) (inject_Z 0)) as (q & Hq & Eq).
  rewrite Hq. cbn [divCount]. eexists. split; [reflexivity|].
  unfold Reference.mean. cbn [List.length]. rewrite Eq.
  change (inject_Z 0) with 0. 
  setoid_replace (0 + List.fold_right Qplus 0 (x :: r)) with (List.fold_right Qplus 0 (x :: r))
    by lra.
  reflexivity.
Qed.

Lemma calculateAverage_NaN (l : list number) :
  In NaN l -> calculateAverage l = NaN.
Proof.
  intros H. unfold calculateAverage.
  destruct l as [|x r]; [destruct H|]. cbn [List.length Nat.eqb].
  rewrite fold_add_In_NaN by exact H. reflexivity.
Qed.

Lemma detectTrend_short (values : list number) :
  (List.length values < 3)%nat -> detectTrend values = insufficient_data.
Proof.
  intros H. unfold detectTrend. apply Nat.ltb_lt in H. rewrite H. reflexivity.
Qed.

Lemma nonempty_length {A : Type} (l : list A) : (1 <= List.length l)%nat -> l <> [].
Proof. destruct l; cbn; [lia|discriminate]. Qed.

(** On a window of known values [detectTrend] tests the difference of the
    means of the two halves. *)
Lemma detectTrend_difference (qs : list Q) :
  (3 <= List.length qs)%nat ->
  exists q, q == Reference.halvesDifference qs /\
    detectTrend (List.map Num qs) =
    if Qltb (Qabs q) (3 # 10) then stable
    else if Qltb 0 q then improving else declining.
Proof.
  intros Hn. unfold detectTrend. rewrite length_map.
  assert (E : Nat.ltb (List.length qs) 3 = false) by (apply Nat.ltb_ge; exact Hn).
  rewrite E. cbv zeta. rewrite firstn_map, skipn_map.
  set (half := Nat.div (List.length qs) 2).
  assert (Hhalf : (1 <= half /\ half < List.length qs)%nat).
  { subst half. split.
    - apply Nat.div_le_lower_bound; lia.
    - apply Nat.Div0.div_lt_upper_bound; lia. }
  destruct (calculateAverage_mean (List.firstn half qs)) as (a & Ha & Ea).
  { apply nonempty_length. rewrite length_firstn. lia. }
  destruct (calculateAverage_mean (List.skipn half qs)) as (b & Hb & Eb).
  { apply nonempty_length. rewrite length_skipn. lia. }
  rewrite Ha, Hb. exists (b - a). split.
  - unfold Reference.halvesDifference. fold half. rewrite Ea, Eb. reflexivity.
  - reflexivity.
Qed.

Lemma Qltb_true (x y : Q) : Qltb x y = true <-> x < y.
Proof.
  unfold Qltb. rewrite negb_true_iff. split.
  - intros H. apply Qnot_le_lt. intros Hle. apply Qle_bool_iff in Hle. congruence.
  - intros H. destruct (Qle_bool y x) eqn:E; [|reflexivity].
    apply Qle_bool_iff in E. exfalso. apply (Qlt_not_le _ _ H E).
Qed.

Lemma Qltb_false (x y : Q) : Qltb x y = false <-> y <= x.
Proof.
  unfold Qltb. rewrite negb_false_iff. apply Qle_bool_iff.
Qed.

Lemma Qltb_comp (x x' y y' : Q) : x == x' -> y == y' -> Qltb x y = Qltb x' y'.
Proof.
  intros Hx Hy. destruct (Qltb x' y') eqn:E.
  - apply Qltb_true. apply Qltb_true in E. rewrite Hx, Hy. exact E.
  - apply Qltb_false. apply Qltb_false in E. rewrite Hx, Hy. exact E.
Qed.

Lemma calculateStdDev_ones : calculateStdDev (List.map Num Sample.ones) = RNum 0%R.
Proof.
  unfold calculateStdDev. cbn [Sample.ones List.map List.length Nat.eqb].
  destruct (calculateVariance _) as [|v] eqn:E; vm_compute in E; [discriminate|].
  injection E as <-. cbn [Qle_bool Qnum Qden Z.mul Z.leb Z.compare].
  f_equal. unfold Q2R. cbn [Qnum]. rewrite Rmult_0_l. apply sqrt_0.
Qed.

(** C6. Trend detection: fewer than 3 values give [insufficient_data];
    otherwise the window is split at [floor(n/2)] and, with the difference
    of the mean of the second half and the mean of the first half, the trend
    is [stable] if the absolute difference is below 0.3, [improving] if the
    difference is 0.3 or more, [declining] otherwise, that is if it is -0.3
    or less, or if the window holds a value that is not a number.  Seven
    1s are stable with standard deviation 0; three 1s then four 5s are
    improving; three 5s then four 1s are declining. *)
Theorem detectTrend_correct :
  (forall values : list number,
     (List.length values < 3)%nat -> detectTrend values = insufficient_data) /\
  (forall qs : list Q,
     (3 <= List.length qs)%nat ->
     let difference := Reference.halvesDifference qs in
     (Qabs difference < 3 # 10 -> detectTrend (List.map Num qs) = stable) /\
     (3 # 10 <= difference -> detectTrend (List.map Num qs) = improving) /\
     (difference <= - (3 # 10) -> detectTrend (List.map Num qs) = declining)) /\
  (forall values : list number,
     (3 <= List.length values)%nat -> In NaN values -> detectTrend values = declining) /\
  detectTrend (List.map Num Sample.ones) = stable /\
  calculateStdDev (List.map Num Sample.ones) = RNum 0%R /\
  detectTrend (List.map Num Sample.rising) = improving /\
  detectTrend (List.map Num Sample.falling) = declining.
Proof.
  split; [exact detectTrend_short|]. split; [|split].
  - intros qs Hn difference.
    destruct (detectTrend_difference qs Hn) as (q & Eq & Hq). fold difference in Eq.
    rewrite Hq, (Qltb_comp (Qabs q) (Qabs difference) (3 # 10) (3 # 10)),
            (Qltb_comp 0 0 q difference);
      [|reflexivity|exact Eq|apply Qabs_wd, Eq|reflexivity].
    split; [|split].
    + intros H. apply Qltb_true in H. rewrite H. reflexivity.
    + intros H.
      assert (H1 : Qltb (Qabs difference) (3 # 10) = false).
      { apply Qltb_false. rewrite Qabs_pos by lra. exact H. }
      assert (H2 : Qltb 0 difference = true) by (apply Qltb_true; lra).
      rewrite H1, H2. reflexivity.
    + intros H.
      assert (H1 : Qltb (Qabs difference) (3 # 10) = false).
      { apply Qltb_false. rewrite Qabs_neg by lra. lra. }
      assert (H2 : Qltb 0 difference = false) by (apply Qltb_false; lra).
      rewrite H1, H2. reflexivity.
  - intros values Hn Hin. unfold detectTrend.
    assert (E : Nat.ltb (List.length values) 3 = false) by (apply Nat.ltb_ge; exact Hn).
    rewrite E. cbv zeta.
    rewrite <- (firstn_skipn (Nat.div (List.length values) 2) values) in Hin.
    apply in_app_or in Hin. destruct Hin as [Hin|Hin].
    + rewrite (calculateAverage_NaN _ Hin).
      destruct (calculateAverage (List.skipn _ _)); reflexivity.
    + rewrite (calculateAverage_NaN _ Hin). reflexivity.
  - split; [vm_compute; reflexivity|]. split; [exact calculateStdDev_ones|].
    split; vm_compute; reflexivity.
Qed.

End Trend.

(** ** The average mood *)

Section AverageMood.
Import JsNumber AppState.






(** C10, at a history with the label "constructor": [moodMap] inherits a
    property of that name, a function, so the fallback to 3 is not taken,
    the sum becomes a string and the result is ["NaN"], where the
    specification counts the label as 3 and gives ["3.0"].  The same holds
    after [recordFeeling] has stored the label behind the eight moods of the
    initial document, whose average the specification puts at ["3.2"]. *)
Theorem calculateAverageMood_inherited_label :
  calculateAverageMood (Sample.withMoods ["constructor"]) = AvgString FixedNaN /\
  Reference.averageMood (Sample.withMoods ["constructor"]) = AvgString (Tenths 30) /\
  (let d := document (recordFeeling Sample.host "constructor" Details.empty Sample.initial) in
   calculateAverageMood d = AvgString FixedNaN /\
   Reference.averageMood d = AvgString (Tenths 32)).
Proof. vm_compute. repeat split. Qed.

Example calculateAverageMood_initial :
  calculateAverageMood Sample.initial = AvgString (Tenths 33) /\
  calculateAverageMood (Sample.withMoods []) = AvgNumber 0 /\
  calculateAverageMood (Sample.withMoods ["ansiedade"; "otimo"]) = AvgString (Tenths 40).
Proof. vm_compute. repeat split. Qed.

End AverageMood.

(** ** Thresholds of the insights and recommendations *)

Section Thresholds.
Import JsNumber AnalyticsEngine.
Local Open Scope Q_scope.











Lemma In_single_if {A : Type} (b : bool) (x y : A) :
  In x (if b then [y] else []) <-> b = true /\ y = x.
Proof.
  destruct b; cbn; split.
  - intros [H|[]]. split; [reflexivity|exact H].
  - intros [_ H]. left. exact H.
  - intros [].
  - intros [H _]. discriminate.
Qed.







Example rates_as_displayed :
  goalCompletionRate (analyzeProductivity (Sample.withGoals 142 203)) = RateString (Tenths 700) /\
  goalCompletionRate (analyzeProductivity (Sample.withGoals 62 207)) = RateString (Tenths 300) /\
  goalCompletionRate (analyzeProductivity Sample.initial) = RateString (Tenths 400) /\
  goalCompletionRate (analyzeProductivity (Sample.withGoals 0 0)) = RateNumber 0.
Proof. vm_compute. repeat split. Qed.

(** The initial document: a 7-day mean of 3.1 on the rise, two of five
    goals done. *)
Example initial_report :
  analyzeMoodPatterns Sample.initial = MoodData (Tenths 31) (Tenths 33) improving /\
  generateFullReport 9 Sample.initial = [encouragement] /\
  generateFullReport 8 Sample.initial = [checkInRecommendation; encouragement].
Proof. vm_compute. repeat split. Qed.

(** Seven entries "pessimo": stable, and an appointment is suggested. *)
Example all_pessimo_report :
  let d := Sample.withMoods (List.repeat "pessimo" 7) in
  analyzeMoodPatterns d = MoodData (Tenths 10) (Tenths 10) stable /\
  generateFullReport 9 d = [scheduleRecommendation].
Proof. vm_compute. repeat split. Qed.

End Thresholds.

(** ** More on leveling *)

Section LevelingMore.
Import AppState Profile.
Local Open Scope store_scope.

(** X1. From level 1 on the requirement grows with the level: every level
    costs at least 20 XP more than the one before (and level 1 costs 100). *)
Theorem xpForNextLevel_grows (level : Z) :
  1 <= level -> xpForNextLevel level + 20 <= xpForNextLevel (level + 1).
Proof.
  intros H. pose proof (xpForNextLevel_ge_100 level H) as H100.
  unfold xpForNextLevel in *.
  destruct (1 <=? level) eqn:E; [|apply Z.leb_gt in E; lia].
  destruct (1 <=? level + 1) eqn:E'; [|apply Z.leb_gt in E'; lia].
  replace (level + 1 - 1) with (Z.succ (level - 1)) by lia.
  rewrite !Z.pow_succ_r by lia.
  set (a := 6 ^ (level - 1)) in *. set (b := 5 ^ (level - 1)) in *.
  assert (Hb : 0 < b) by (apply Z.pow_pos_nonneg; lia).
  set (q := 100 * a / b) in *.
  assert (Hq : b * q <= 100 * a) by (apply Z.mul_div_le; exact Hb).
  apply Z.div_le_lower_bound; [lia|]. nia.
Qed.

Lemma xpForNextLevel_grows_witness :
  1 <= 4 /\ xpForNextLevel 4 + 20 <= xpForNextLevel (4 + 1).
Proof. split; [lia|]. apply (xpForNextLevel_grows 4). lia. Defined.

Lemma passed_next (level : Z) :
  1 <= level ->
  passed (Z.to_nat (level + 1 - 1)) = passed (Z.to_nat (level - 1)) + xpForNextLevel level.
Proof.
  intros H. replace (Z.to_nat (level + 1 - 1)) with (S (Z.to_nat (level - 1))) by lia.
  cbn [passed]. f_equal. f_equal. lia.
Qed.

(** The reference loop keeps the total, never lowers the level and never
    makes the XP negative. *)
Lemma leveling_total (a b : Z * Z) :
  Reference.leveling a b -> 1 <= fst a -> 0 <= snd a ->
  snd b + passed (Z.to_nat (fst b - 1)) = snd a + passed (Z.to_nat (fst a - 1)) /\
  fst a <= fst b /\ 0 <= snd b.
Proof.
  induction 1 as [l x Hlt|l x f Hle Hrec IH]; cbn [fst snd] in *; intros Hl Hx.
  - repeat split; lia.
  - pose proof (xpForNextLevel_nonneg l).
    destruct IH as (IH1 & IH2 & IH3); [lia|lia|].
    rewrite IH1, passed_next by exact Hl. repeat split; lia.
Qed.

(** X2. Leveling neither creates nor loses XP: for a profile of level 1 or
    more with xp >= 0, [addXp] with a positive amount raises the total of
    the XP granted (the cost of the levels passed plus the XP held) by
    exactly the amount; the level does not go down and the XP held stay
    non-negative. *)
Theorem addXp_conserves_total (d : Document.t) (amount : Z) (reason : string) :
  0 <= xpOf d -> 1 <= levelOf d -> 0 < amount ->
  let d' := document (addXp amount reason d) in
  totalXp d' = totalXp d + amount /\ levelOf d <= levelOf d' /\ 0 <= xpOf d'.
Proof.
  intros Hx Hl Ha d'. subst d'. rewrite addXp_positive by exact Ha.
  match goal with |- context [checkForLevelUp ?x] =>
    pose proof (checkForLevelUp_leveling x) as Hlev
  end.
  apply leveling_total in Hlev; cbn [fst snd] in *;
    [|exact Hl|unfold xpOf in *; cbn; lia].
  destruct Hlev as (H1 & H2 & H3). unfold totalXp. repeat split.
  - rewrite H1. unfold xpOf, levelOf. cbn. lia.
  - exact H2.
  - exact H3.
Qed.

Lemma addXp_conserves_total_witness :
  let d := Sample.initial in
  let d' := document (addXp 1000 "" d) in
  (0 <= xpOf d /\ 1 <= levelOf d /\ 0 < 1000) /\
  totalXp d' = totalXp d + 1000.
Proof.
  assert (H0 : 0 <= xpOf Sample.initial) by (vm_compute; discriminate).
  assert (H1 : 1 <= levelOf Sample.initial) by (vm_compute; discriminate).
  assert (H2 : 0 < 1000) by reflexivity.
  split; [repeat split; assumption|].
  apply (addXp_conserves_total Sample.initial 1000 "" H0 H1 H2).
Defined.

Lemma leveling_level_le (a b : Z * Z) : Reference.leveling a b -> fst a <= fst b.
Proof. induction 1; cbn [fst] in *; lia. Qed.

Lemma checkForLevelUp_fuel_level_le (fuel : nat) (d : Document.t) :
  (levelUpFuel (Document.userProfile d) <= fuel)%nat ->
  levelOf d <= levelOf (document (checkForLevelUp_fuel fuel d)).
Proof.
  intros H. apply (leveling_level_le _ _ (checkForLevelUp_fuel_leveling fuel d H)).
Qed.

Lemma levelUps_app (a b : list Event) : levelUps (a ++ b) = (levelUps a ++ levelUps b)%list.
Proof. apply flat_map_app. Qed.

Lemma awardBadge_levelUps badgeId d : levelUps (events (awardBadge badgeId d)) = [].
Proof.
  rewrite awardBadge_events. destruct (JsString.includes _ _); [reflexivity|].
  destruct (BADGES badgeId); reflexivity.
Qed.

Lemma levelUp_levelUps d : levelUps (events (levelUp d)) = [levelOf d + 1].
Proof.
  unfold levelUp.
  cbv [bind profile gets modifyProfile modify notify ret events]. cbv zeta.
  cbn [Document.userProfile Document.set_userProfile UserProfile.level
       UserProfile.set_level UserProfile.set_xp fst snd app].
  destruct (_ =? 5).
  - match goal with |- context [awardBadge ?b ?x] =>
      pose proof (awardBadge_levelUps b x) as H; destruct (awardBadge b x) as [[? ?] e]
    end.
    cbn [events snd] in H. cbn [snd levelUps List.flat_map app].
    change (List.flat_map _ e) with (levelUps e). rewrite H. reflexivity.
  - reflexivity.
Qed.

Lemma levelsAfter_S (from : Z) (n : nat) :
  levelsAfter from (S n) = (from + 1) :: levelsAfter (from + 1) n.
Proof.
  unfold levelsAfter. cbn [List.seq List.map]. f_equal.
  rewrite <- seq_shift, map_map. apply map_ext. intros k. lia.
Qed.

Lemma checkForLevelUp_fuel_levelUps (fuel : nat) : forall d,
  (levelUpFuel (Document.userProfile d) <= fuel)%nat ->
  levelUps (events (checkForLevelUp_fuel fuel d)) =
  levelsAfter (levelOf d)
    (Z.to_nat (levelOf (document (checkForLevelUp_fuel fuel d)) - levelOf d)).
Proof.
  induction fuel as [|fuel IH]; intros d Hf.
  - rewrite levelUpFuel_eq in Hf. lia.
  - rewrite checkForLevelUp_fuel_S.
    destruct (xpOf d >=? _) eqn:E1.
    + apply Z.geb_le in E1. cbv zeta.
      pose proof (levelUp_fuel_decreases d E1) as Hdec.
      destruct (xpOf (document (levelUp d)) >=? _) eqn:E2; cbn [document events fst snd].
      * assert (Hf' : (levelUpFuel (Document.userProfile (document (levelUp d))) <= fuel)%nat)
          by lia.
        pose proof (checkForLevelUp_fuel_level_le fuel _ Hf') as Hle.
        rewrite levelUp_level in Hle.
        rewrite levelUps_app, levelUp_levelUps, (IH _ Hf'), levelUp_level.
        replace (Z.to_nat (levelOf (document (checkForLevelUp_fuel fuel (document (levelUp d))))
                           - levelOf d))
          with (S (Z.to_nat (levelOf (document (checkForLevelUp_fuel fuel (document (levelUp d))))
                             - (levelOf d + 1)))) by lia.
        rewrite levelsAfter_S. reflexivity.
      * rewrite levelUp_levelUps, levelUp_level.
        replace (Z.to_nat (levelOf d + 1 - levelOf d)) with 1%nat by lia.
        unfold levelsAfter. cbn. reflexivity.
    + cbn [document events fst snd]. rewrite Z.sub_diag. reflexivity.
Qed.

Lemma addXp_events (amount : Z) (reason : string) (d : Document.t) :
  0 < amount ->
  let d0 := Document.set_userProfile
              (UserProfile.set_xp (xpOf d + amount) (Document.userProfile d)) d in
  events (addXp amount reason d) =
  (events (checkForLevelUp d0)
   ++ [XpAdded amount reason (xpOf d) (xpOf (document (checkForLevelUp d0)))])%list.
Proof.
  intros H. cbv zeta. unfold addXp, xpOf.
  destruct (amount =? 0) eqn:E0; [apply Z.eqb_eq in E0; lia|].
  destruct (amount <=? 0) eqn:E1; [apply Z.leb_le in E1; lia|].
  cbn [orb].
  cbv [bind profile gets modifyProfile modify notify ret events document]. cbv zeta.
  cbn [fst snd app].
  match goal with |- context [checkForLevelUp ?x] =>
    destruct (checkForLevelUp x) as [[u d1] e1]
  end.
  reflexivity.
Qed.

Lemma checkForLevelUp_levelUps (d : Document.t) :
  levelUps (events (checkForLevelUp d)) =
  levelsAfter (levelOf d) (Z.to_nat (levelOf (document (checkForLevelUp d)) - levelOf d)).
Proof. unfold checkForLevelUp. apply checkForLevelUp_fuel_levelUps. lia. Qed.

(** X3. [addXp] with a positive amount publishes one [user:levelup] event
    for every level gained, in order and each with the level reached, and
    then, last, the [xp:added] event with the XP held before and after. *)
Theorem addXp_announces_levels (d : Document.t) (amount : Z) (reason : string) :
  0 < amount ->
  let r := addXp amount reason d in
  levelUps (events r) =
    levelsAfter (levelOf d) (Z.to_nat (levelOf (document r) - levelOf d)) /\
  List.last (events r) (UserLevelup 0) =
    XpAdded amount reason (xpOf d) (xpOf (document r)).
Proof.
  intros Ha r. subst r.
  pose proof (addXp_events amount reason d Ha) as He.
  pose proof (addXp_positive amount reason d Ha) as Hd.
  cbv zeta in He.
  set (d0 := Document.set_userProfile
               (UserProfile.set_xp (xpOf d + amount) (Document.userProfile d)) d) in *.
  rewrite He, Hd. clear He Hd. split.
  - rewrite levelUps_app. cbn [levelUps List.flat_map app]. rewrite app_nil_r.
    change (List.flat_map _ (events (checkForLevelUp d0)))
      with (levelUps (events (checkForLevelUp d0))).
    rewrite checkForLevelUp_levelUps. reflexivity.
  - apply last_last.
Qed.

Lemma addXp_announces_levels_witness :
  let r := addXp 1000 "" Sample.initial in
  0 < 1000 /\
  levelUps (events r) = [3; 4; 5; 6; 7] /\
  List.last (events r) (UserLevelup 0) = XpAdded 1000 "" 120 229.
Proof.
  split; [reflexivity|].
  destruct (addXp_announces_levels Sample.initial 1000 "" eq_refl) as [H1 H2].
  split; [rewrite H1; vm_compute; reflexivity|rewrite H2; vm_compute; reflexivity].
Defined.

Lemma levelUp_badges (d : Document.t) :
  badgesOf (document (levelUp d)) =
  if levelOf d + 1 =? 5 then
    if JsString.includes (badgesOf d) "LEVEL_5" then badgesOf d
    else (badgesOf d ++ ["LEVEL_5"])%list
  else badgesOf d.
Proof.
  unfold levelUp. repeat (rewrite bind_run; cbn [document result events fst snd]).
  cbn [profile gets modifyProfile modify notify ret document result events fst snd].
  unfold levelOf.
  cbn [Document.userProfile Document.set_userProfile UserProfile.level
       UserProfile.set_level UserProfile.set_xp].
  destruct (_ =? 5); [rewrite awardBadge_badges|]; reflexivity.
Qed.

(** What the nested level-ups do to the badges. *)
Lemma checkForLevelUp_fuel_badges (fuel : nat) : forall d,
  (levelUpFuel (Document.userProfile d) <= fuel)%nat ->
  let d' := document (checkForLevelUp_fuel fuel d) in
  incl (badgesOf d) (badgesOf d') /\
  (levelOf d < 5 -> 5 <= levelOf d' -> In "LEVEL_5" (badgesOf d')) /\
  (5 <= levelOf d \/ levelOf d' < 5 -> badgesOf d' = badgesOf d) /\
  (badgesOf d' = badgesOf d \/ badgesOf d' = (badgesOf d ++ ["LEVEL_5"])%list).
Proof.
  induction fuel as [|fuel IH]; intros d Hf; [rewrite levelUpFuel_eq in Hf; lia|].
  cbv zeta. rewrite checkForLevelUp_fuel_S.
  destruct (xpOf d >=? _) eqn:E1.
  - apply Z.geb_le in E1. cbv zeta.
    pose proof (levelUp_fuel_decreases d E1) as Hdec.
    pose proof (levelUp_badges d) as Hb. pose proof (levelUp_level d) as Hl.
    set (d1 := document (levelUp d)) in *.
    assert (Hincl : incl (badgesOf d) (badgesOf d1)).
    { rewrite Hb. destruct (_ =? 5); [|apply incl_refl].
      destruct (JsString.includes _ _); [apply incl_refl|apply incl_appl, incl_refl]. }
    assert (Hfive : levelOf d + 1 = 5 -> In "LEVEL_5" (badgesOf d1)).
    { intros E. rewrite Hb. apply Z.eqb_eq in E. rewrite E.
      destruct (JsString.includes _ _) eqn:Ei; [apply includes_In, Ei|].
      apply in_or_app. right. left. reflexivity. }
    assert (Hsame : levelOf d + 1 <> 5 -> badgesOf d1 = badgesOf d).
    { intros E. rewrite Hb. apply Z.eqb_neq in E. rewrite E. reflexivity. }
    assert (Hone : badgesOf d1 = badgesOf d \/ badgesOf d1 = (badgesOf d ++ ["LEVEL_5"])%list).
    { rewrite Hb. destruct (_ =? 5); [|left; reflexivity].
      destruct (JsString.includes _ _); [left|right]; reflexivity. }
    destruct (xpOf d1 >=? _) eqn:E2; cbn [document fst snd].
    + assert (Hf' : (levelUpFuel (Document.userProfile d1) <= fuel)%nat) by lia.
      destruct (IH d1 Hf') as (I1 & I2 & I3 & I4).
      pose proof (checkForLevelUp_fuel_level_le fuel d1 Hf') as Hle.
      split; [|split; [|split]].
      * eapply incl_tran; eassumption.
      * intros H4 H5. destruct (Z.eq_dec (levelOf d + 1) 5) as [E|E].
        -- apply I1, Hfive, E.
        -- apply I2; lia.
      * intros H. rewrite I3 by lia. apply Hsame. lia.
      * destruct (Z.eq_dec (levelOf d + 1) 5) as [E|E].
        -- rewrite I3 by lia. exact Hone.
        -- rewrite <- (Hsame E). exact I4.
    + split; [|split; [|split]].
      * exact Hincl.
      * intros H4 H5. apply Hfive. lia.
      * intros H. apply Hsame. lia.
      * exact Hone.
  - cbn [document fst snd].
    split; [apply incl_refl|split; [lia|split; [reflexivity|left; reflexivity]]].
Qed.

Lemma addXp_badges_cases (amount : Z) (reason : string) (d : Document.t) :
  let d' := document (addXp amount reason d) in
  badgesOf d' = badgesOf d \/ badgesOf d' = (badgesOf d ++ ["LEVEL_5"])%list.
Proof.
  cbv zeta. destruct (Z_lt_le_dec 0 amount) as [Ha|Ha].
  - rewrite (addXp_positive amount reason d Ha).
    match goal with |- context [checkForLevelUp ?x] =>
      destruct (checkForLevelUp_fuel_badges _ x (le_n _)) as (_ & _ & _ & I4)
    end.
    exact I4.
  - rewrite (addXp_nonpositive amount reason d Ha). left. reflexivity.
Qed.

(** X4. The LEVEL_5 badge: a grant that takes the profile from below level 5
    to level 5 or beyond leaves the badge in [badges]; a grant to a profile
    that is already at level 5 or more, or that stays below level 5, leaves
    [badges] as they are, so a profile that sits at level 5 or more without
    the badge never receives it from [addXp].  No badge is ever removed. *)
Theorem addXp_level5_badge (d : Document.t) (amount : Z) (reason : string) :
  let d' := document (addXp amount reason d) in
  (levelOf d < 5 -> 5 <= levelOf d' -> In "LEVEL_5" (badgesOf d')) /\
  (5 <= levelOf d \/ levelOf d' < 5 -> badgesOf d' = badgesOf d) /\
  incl (badgesOf d) (badgesOf d').
Proof.
  cbv zeta. destruct (Z_lt_le_dec 0 amount) as [Ha|Ha].
  - rewrite (addXp_positive amount reason d Ha).
    set (d0 := Document.set_userProfile
                 (UserProfile.set_xp (xpOf d + amount) (Document.userProfile d)) d).
    destruct (checkForLevelUp_fuel_badges _ d0 (le_n _)) as (I1 & I2 & I3 & _).
    fold (checkForLevelUp d0) in I1, I2, I3.
    change (levelOf d0) with (levelOf d) in *. change (badgesOf d0) with (badgesOf d) in *.
    repeat split; assumption.
  - rewrite (addXp_nonpositive amount reason d Ha). cbn [document fst snd].
    repeat split; [lia|apply incl_refl].
Qed.

Example addXp_level5_cases :
  badgesOf (document (addXp 1000 "" Sample.initial)) = ["JOURNAL_START"; "STREAK_3"; "LEVEL_5"] /\
  badgesOf (document (addXp 5000 ""
     (Sample.withProfile (UserProfile.mk 0 6 0 None [] [])))) = [].
Proof. vm_compute. split; reflexivity. Qed.

End LevelingMore.

(** ** What the operations keep of the progress made *)

Section Invariants.
Import AppState Profile.
Local Open Scope store_scope.

Lemma keepsProgress_refl d : keepsProgress d d.
Proof.
  intros H. split; [exact H|].
  split; [lia|]. split; [lia|]. split; [apply incl_refl|].
  split; [apply incl_refl|]. intros Hn. exact Hn.
Qed.

Lemma keepsProgress_trans d1 d2 d3 :
  keepsProgress d1 d2 -> keepsProgress d2 d3 -> keepsProgress d1 d3.
Proof.
  intros H12 H23 H1. destruct (H12 H1) as (W2 & T2 & L2 & B2 & C2 & N2).
  destruct (H23 W2) as (W3 & T3 & L3 & B3 & C3 & N3).
  split; [exact W3|]. split; [lia|]. split; [lia|].
  split; [eapply incl_tran; eassumption|].
  split; [eapply incl_tran; eassumption|]. intros Hn. apply N3, N2, Hn.
Qed.

(** A write that keeps [xp] and [level], drops no badge and no completed
    challenge and keeps the streak non-negative keeps the progress. *)
Lemma keepsProgress_write (d d' : Document.t) :
  xpOf d' = xpOf d -> levelOf d' = levelOf d ->
  incl (badgesOf d) (badgesOf d') -> incl (completedOf d) (completedOf d') ->
  (0 <= streakOf d -> 0 <= streakOf d') ->
  keepsProgress d d'.
Proof.
  intros Hx Hl Hb Hc Hs (W1 & W2 & W3).
  unfold wellFormed, totalXp, normalized. rewrite Hx, Hl.
  repeat split; try assumption; lia.
Qed.

Lemma advances_ret {A : Type} (a : A) : advances keepsProgress (ret a).
Proof. intros d. apply keepsProgress_refl. Qed.

Lemma advances_gets {A : Type} (f : Document.t -> A) : advances keepsProgress (gets f).
Proof. intros d. apply keepsProgress_refl. Qed.

Lemma advances_notify (e : Event) : advances keepsProgress (notify e).
Proof. intros d. apply keepsProgress_refl. Qed.

Lemma advances_bind {A B : Type} (m : M A) (f : A -> M B) :
  advances keepsProgress m -> (forall a, advances keepsProgress (f a)) ->
  advances keepsProgress (bind m f).
Proof.
  intros Hm Hf d. rewrite bind_run. cbn [document fst snd].
  eapply keepsProgress_trans; [apply Hm|apply Hf].
Qed.

Lemma advances_modify (f : Document.t -> Document.t) :
  (forall d, Document.userProfile (f d) = Document.userProfile d) ->
  advances keepsProgress (modify f).
Proof.
  intros Hf d. cbn [modify document fst snd].
  apply keepsProgress_write; unfold xpOf, levelOf, badgesOf, completedOf, streakOf;
    rewrite Hf; try reflexivity; try apply incl_refl. intros H. exact H.
Qed.

Lemma advances_modifyProfile (f : UserProfile.t -> UserProfile.t) :
  (forall p, UserProfile.xp (f p) = UserProfile.xp p) ->
  (forall p, UserProfile.level (f p) = UserProfile.level p) ->
  (forall p, UserProfile.badges (f p) = UserProfile.badges p) ->
  (forall p, incl (UserProfile.completedChallenges p) (UserProfile.completedChallenges (f p))) ->
  (forall p, 0 <= UserProfile.checkInStreak p -> 0 <= UserProfile.checkInStreak (f p)) ->
  advances keepsProgress (modifyProfile f).
Proof.
  intros Hx Hl Hb Hc Hs d. cbn [modifyProfile modify document fst snd].
  apply keepsProgress_write; unfold xpOf, levelOf, badgesOf, completedOf, streakOf; cbn.
  - apply Hx.
  - apply Hl.
  - rewrite Hb. apply incl_refl.
  - apply Hc.
  - apply Hs.
Qed.

Lemma awardBadge_advances (badgeId : string) : advances keepsProgress (awardBadge badgeId).
Proof.
  intros d. apply keepsProgress_write.
  - apply awardBadge_xp.
  - apply awardBadge_level.
  - rewrite awardBadge_badges. destruct (JsString.includes _ _); [apply incl_refl|].
    apply incl_appl, incl_refl.
  - rewrite (sameButProgress_completed _ _ (awardBadge_progress badgeId d)). apply incl_refl.
  - destruct (awardBadge_streak badgeId d) as [Hs _]. rewrite Hs. intros H. exact H.
Qed.

Lemma addXp_advances (amount : Z) (reason : string) : advances keepsProgress (addXp amount reason).
Proof.
  intros d (W1 & W2 & W3).
  pose proof (sameButProgress_completed _ _ (addXp_progress amount reason d)) as Hc.
  destruct (sameButProgress_streak _ _ (addXp_progress amount reason d)) as [Hs _].
  assert (Hb : incl (badgesOf d) (badgesOf (document (addXp amount reason d)))).
  { destruct (addXp_badges_cases amount reason d) as [E|E]; rewrite E;
      [apply incl_refl|apply incl_appl, incl_refl]. }
  destruct (Z_lt_le_dec 0 amount) as [Ha|Ha].
  - rewrite (addXp_positive amount reason d Ha) in *.
    match goal with |- context [checkForLevelUp ?x] =>
      pose proof (checkForLevelUp_leveling x) as Hlev
    end.
    pose proof (leveling_normal _ _ Hlev) as Hn.
    apply leveling_total in Hlev; cbn [fst snd] in *;
      [|exact W2|unfold xpOf in *; cbn; lia].
    destruct Hlev as (H1 & H2 & H3).
    change (levelOf (Document.set_userProfile _ d)) with (levelOf d) in H2.
    unfold wellFormed, normalized, totalXp. rewrite Hs, Hc.
    repeat split; try assumption; try lia.
    + rewrite H1. unfold xpOf, levelOf. cbn. lia.
    + apply incl_refl.
  - rewrite (addXp_nonpositive amount reason d Ha) in *. cbn [document fst snd].
    apply keepsProgress_refl. repeat split; assumption.
Qed.

Ltac advance_step :=
  first
    [ apply awardBadge_advances
    | apply addXp_advances
    | apply advances_ret
    | apply advances_gets
    | apply advances_notify
    | apply advances_modify; intros; reflexivity
    | apply advances_modifyProfile; intros; cbn;
      first [reflexivity | apply incl_refl | apply incl_appl, incl_refl | lia]
    | apply advances_bind; [|intros ?]
    | match goal with
      | |- advances _ (if ?c then _ else _) => destruct c
      | |- advances _ (match ?x with _ => _ end) => destruct x
      end
    | progress cbv zeta ].

Ltac advance := unfold profile; repeat advance_step.

Lemma updateCheckInStreak_advances h : advances keepsProgress (updateCheckInStreak h).
Proof. unfold updateCheckInStreak. advance. Qed.

Lemma addGoal_advances h title : advances keepsProgress (addGoal h title).
Proof. unfold addGoal. advance. Qed.

Lemma toggleGoal_advances h goalId : advances keepsProgress (toggleGoal h goalId).
Proof. unfold toggleGoal. advance. Qed.

Lemma deleteGoal_advances goalId : advances keepsProgress (deleteGoal goalId).
Proof. unfold deleteGoal. advance. Qed.

Lemma saveJournalEntry_advances h content entryId :
  advances keepsProgress (saveJournalEntry h content entryId).
Proof. unfold saveJournalEntry. advance. Qed.

Lemma deleteJournalEntry_advances entryId : advances keepsProgress (deleteJournalEntry entryId).
Proof. unfold deleteJournalEntry. advance. Qed.

Lemma recordFeeling_advances h emotion details :
  advances keepsProgress (recordFeeling h emotion details).
Proof.
  unfold recordFeeling. cbv zeta.
  apply advances_bind; [apply advances_modify; intros; reflexivity|intros _].
  apply advances_bind; [apply advances_modify; intros; reflexivity|intros _].
  apply advances_bind; [apply updateCheckInStreak_advances|intros ?].
  advance.
Qed.

Lemma completeChallenge_advances challengeId :
  advances keepsProgress (completeChallenge challengeId).
Proof. unfold completeChallenge. advance. Qed.

Lemma scheduleAppointment_advances h date time reason :
  advances keepsProgress (scheduleAppointment h date time reason).
Proof. unfold scheduleAppointment. advance. Qed.

Lemma cancelAppointment_advances appointmentId :
  advances keepsProgress (cancelAppointment appointmentId).
Proof. unfold cancelAppointment. advance. Qed.

Lemma changeSchedulingDate_advances h next :
  advances keepsProgress (changeSchedulingDate h next).
Proof. unfold changeSchedulingDate. advance. Qed.

Lemma run_keepsProgress (h : Host.t) (op : Operation) (d : Document.t) :
  isLogin op = false -> keepsProgress d (run h op d).
Proof.
  intros Hop. destruct op; cbn [run]; try discriminate Hop.
  - apply addXp_advances.
  - apply awardBadge_advances.
  - apply updateCheckInStreak_advances.
  - apply addGoal_advances.
  - apply toggleGoal_advances.
  - apply deleteGoal_advances.
  - apply saveJournalEntry_advances.
  - apply deleteJournalEntry_advances.
  - apply recordFeeling_advances.
  - apply completeChallenge_advances.
  - apply scheduleAppointment_advances.
  - apply cancelAppointment_advances.
  - apply changeSchedulingDate_advances.
Qed.

Lemma initial_wellFormed h : wellFormed (getInitialState h).
Proof. unfold wellFormed. cbn. lia. Qed.

Lemma run_wellFormed (h : Host.t) (op : Operation) (d : Document.t) :
  wellFormed d -> wellFormed (run h op d).
Proof.
  intros H. destruct (isLogin op) eqn:E.
  - destruct op; try discriminate E. cbn [run]. unfold login. cbv zeta.
    destruct (0 <? _); [exact H|].
    cbv [bind modify gets notify ret document]. cbn. unfold wellFormed. cbn. lia.
  - apply (run_keepsProgress h op d E H).
Qed.

(** X5. The counters of the profile stay in range: from a profile with
    xp >= 0, level >= 1 and checkInStreak >= 0, every operation, [login]
    included, and so every sequence of operations, leaves such a profile. *)
Theorem runAll_wellFormed (ops : list (Host.t * Operation)) (d : Document.t) :
  wellFormed d -> wellFormed (runAll ops d).
Proof.
  unfold runAll. revert d. induction ops as [|[h op] ops IH]; intros d H; cbn [fold_left].
  - exact H.
  - apply IH, run_wellFormed, H.
Qed.

Lemma runAll_wellFormed_witness :
  wellFormed Sample.initial /\
  wellFormed (runAll [(Sample.host, RecordFeeling "bom" Details.empty);
                      (Sample.host, Login "Ana");
                      (Sample.host, ToggleGoal 2)] Sample.initial).
Proof.
  assert (H : wellFormed Sample.initial) by (unfold wellFormed; cbn; lia).
  split; [exact H|]. apply (runAll_wellFormed _ Sample.initial H).
Defined.

Lemma runAll_advances (ops : list (Host.t * Operation)) (d : Document.t) :
  Forall (fun op => isLogin (snd op) = false) ops -> keepsProgress d (runAll ops d).
Proof.
  intros Hops. unfold runAll. revert d.
  induction Hops as [|[h op] ops Hop Hops IH]; intros d.
  - apply keepsProgress_refl.
  - cbn [fold_left fst snd] in *.
    eapply keepsProgress_trans; [apply (run_keepsProgress h op d Hop)|apply IH].
Qed.

(** X6. No operation other than [login] takes progress back: from a
    well-formed profile, a sequence of operations without [login] never
    lowers the total of the XP granted or the level, removes no badge and no
    completed challenge, and leaves the XP below the requirement of the
    level if they were below it (a goal that is un-completed, a deleted
    entry or a cancelled appointment give nothing back). *)
Theorem runAll_keepsProgress (ops : list (Host.t * Operation)) (d : Document.t) :
  wellFormed d ->
  Forall (fun op => isLogin (snd op) = false) ops ->
  let d' := runAll ops d in
  totalXp d <= totalXp d' /\
  levelOf d <= levelOf d' /\
  incl (badgesOf d) (badgesOf d') /\
  incl (completedOf d) (completedOf d') /\
  (normalized d -> normalized d').
Proof.
  intros Hd Hops. cbv zeta. apply (runAll_advances ops d Hops Hd).
Qed.

Lemma runAll_keepsProgress_witness :
  let ops := [(Sample.host, ToggleGoal 2); (Sample.host, ToggleGoal 2);
              (Sample.host, CompleteChallenge "challenge_3")] in
  let d' := runAll ops Sample.initial in
  wellFormed Sample.initial /\
  Forall (fun op => isLogin (snd op) = false) ops /\
  totalXp Sample.initial <= totalXp d' /\
  levelOf Sample.initial <= levelOf d'.
Proof.
  assert (H : wellFormed Sample.initial) by (unfold wellFormed; cbn; lia).
  assert (F : Forall (fun op => isLogin (snd op) = false)
                [(Sample.host, ToggleGoal 2); (Sample.host, ToggleGoal 2);
                 (Sample.host, CompleteChallenge "challenge_3")])
    by (repeat constructor).
  split; [exact H|]. split; [exact F|].
  destruct (runAll_keepsProgress _ Sample.initial H F) as (H1 & H2 & _).
  split; [exact H1|exact H2].
Defined.

Example login_takes_progress_back :
  let d := document (addXp 1000 "" Sample.initial) in
  levelOf d = 7 /\ levelOf (run Sample.host (Login "Ana") d) = 2 /\
  ~ normalized (run Sample.host (Login "Ana") d).
Proof. vm_compute. repeat split. intros H. discriminate H. Qed.

End Invariants.

(** ** Completing challenges *)

Section ChallengesMore.
Import AppState Profile.
Local Open Scope store_scope.

(** The successful path of [completeChallenge], call by call. *)
Lemma completeChallenge_run (challengeId : string) (d : Document.t) (c : Challenge.t) :
  ~ In challengeId (completedOf d) ->
  List.find (fun c => String.eqb (Challenge.id c) challengeId) CHALLENGES = Some c ->
  let d1 := Document.set_userProfile
              (UserProfile.set_completedChallenges
                 (completedOf d ++ [challengeId])%list (Document.userProfile d)) d in
  let r1 := addXp (Challenge.xp c) ("Desafio: " ++ Challenge.title c) d1 in
  let r2 := (if Nat.eqb (List.length (completedOf (document r1))) (List.length CHALLENGES)
             then awardBadge "CHALLENGE_HERO" else ret tt) (document r1) in
  completeChallenge challengeId d =
  (mkResult true None None (Some (EChallenge c)), document r2,
   (events r1 ++ events r2 ++ [ChallengeCompleted c])%list).
Proof.
  intros Hin Hfind. cbv zeta. unfold completeChallenge.
  rewrite bind_run. cbn [profile gets document result events fst snd app].
  apply includes_false in Hin. unfold completedOf in Hin |- *. rewrite Hin, Hfind.
  cbv [bind profile gets modifyProfile modify notify ret document result events]. cbv zeta.
  cbn [fst snd].
  match goal with |- context [addXp ?a ?s ?x] => destruct (addXp a s x) as [[? d1] e1] end.
  cbn [fst snd].
  destruct (Nat.eqb _ _).
  - match goal with |- context [awardBadge ?b ?x] => destruct (awardBadge b x) as [[? d2] e2] end.
    cbn [fst snd app]. reflexivity.
  - cbn [fst snd app]. reflexivity.
Qed.

Lemma find_challenge (c : Challenge.t) :
  In c CHALLENGES ->
  List.find (fun c' => String.eqb (Challenge.id c') (Challenge.id c)) CHALLENGES = Some c.
Proof.
  intros H. cbn in H.
  repeat (destruct H as [H|H]; [subst c; reflexivity|]). destruct H.
Qed.

Lemma challengeIds_NoDup : NoDup challengeIds.
Proof.
  unfold challengeIds. cbn.
  repeat (constructor; [cbn; intuition discriminate|]). constructor.
Qed.

Lemma challenge_xp_positive (c : Challenge.t) : In c CHALLENGES -> 0 < Challenge.xp c.
Proof.
  intros H. cbn in H.
  repeat (destruct H as [H|H]; [subst c; reflexivity|]). destruct H.
Qed.

(** On a sound list, holding as many ids as the catalog has is holding
    them all. *)
Lemma sound_full (d : Document.t) :
  challengesSound d ->
  (List.length (completedOf d) = List.length CHALLENGES <-> allCompleted d).
Proof.
  intros [Hn Hi]. unfold allCompleted.
  assert (Hlen : List.length challengeIds = List.length CHALLENGES)
    by (unfold challengeIds; apply length_map).
  split.
  - intros Hl c Hc.
    assert (Hle : (List.length challengeIds <= List.length (completedOf d))%nat)
      by (rewrite Hl, <- Hlen; apply le_n).
    apply (NoDup_length_incl Hn Hle Hi).
    unfold challengeIds. apply in_map, Hc.
  - intros Hall.
    assert (Hincl : incl challengeIds (completedOf d)).
    { intros x Hx. unfold challengeIds in Hx. apply in_map_iff in Hx.
      destruct Hx as (c & Hid & Hc). subst x. apply Hall, Hc. }
    pose proof (NoDup_incl_length challengeIds_NoDup Hincl).
    pose proof (NoDup_incl_length Hn Hi). lia.
Qed.

(** X7. Completing a catalog challenge that is not yet completed succeeds
    and returns the catalog record; it appends the id to
    [completedChallenges], grants exactly the XP of the challenge, and
    publishes [challenge:completed] last.  On a list of completed
    challenges that is duplicate-free and within the catalog, the list stays
    so, and afterwards the CHALLENGE_HERO badge is held exactly if it was
    held before or every challenge of the catalog is now completed. *)
Theorem completeChallenge_completes (c : Challenge.t) (d : Document.t) :
  In c CHALLENGES ->
  ~ In (Challenge.id c) (completedOf d) ->
  wellFormed d ->
  challengesSound d ->
  let r := completeChallenge (Challenge.id c) d in
  result r = mkResult true None None (Some (EChallenge c)) /\
  completedOf (document r) = (completedOf d ++ [Challenge.id c])%list /\
  totalXp (document r) = totalXp d + Challenge.xp c /\
  List.last (events r) (UserLevelup 0) = ChallengeCompleted c /\
  challengesSound (document r) /\
  (In "CHALLENGE_HERO" (badgesOf (document r)) <->
   In "CHALLENGE_HERO" (badgesOf d) \/ allCompleted (document r)).
Proof.
  intros Hc Hin (W1 & W2 & W3) [Hn Hi]. cbv zeta.
  rewrite (completeChallenge_run _ d c Hin (find_challenge c Hc)).
  cbn [result document events fst snd].
  set (d1 := Document.set_userProfile
               (UserProfile.set_completedChallenges
                  (completedOf d ++ [Challenge.id c])%list (Document.userProfile d)) d).
  set (r1 := addXp (Challenge.xp c) ("Desafio: " ++ Challenge.title c) d1).
  pose proof (sameButProgress_completed _ _ (addXp_progress (Challenge.xp c)
                ("Desafio: " ++ Challenge.title c) d1)) as Hc1.
  fold r1 in Hc1. change (completedOf d1) with (completedOf d ++ [Challenge.id c])%list in Hc1.
  pose proof (addXp_positive (Challenge.xp c) ("Desafio: " ++ Challenge.title c) d1
                (challenge_xp_positive c Hc)) as Hd1.
  fold r1 in Hd1.
  assert (Ht1 : totalXp (document r1) = totalXp d + Challenge.xp c).
  { rewrite Hd1.
    match goal with |- context [checkForLevelUp ?x] =>
      pose proof (checkForLevelUp_leveling x) as Hlev
    end.
    pose proof (challenge_xp_positive c Hc) as Hpos.
    apply leveling_total in Hlev; cbn [fst snd] in *;
      [|exact W2|unfold xpOf, d1 in *; cbn; lia].
    destruct Hlev as (H1 & _). unfold totalXp. rewrite H1. unfold xpOf, levelOf, d1. cbn. lia. }
  assert (Hb1 : In "CHALLENGE_HERO" (badgesOf (document r1)) <-> In "CHALLENGE_HERO" (badgesOf d)).
  { destruct (addXp_badges_cases (Challenge.xp c) ("Desafio: " ++ Challenge.title c) d1) as [E|E];
      fold r1 in E; rewrite E; change (badgesOf d1) with (badgesOf d); [tauto|].
    rewrite in_app_iff. cbn. intuition discriminate. }
  assert (Hs1 : challengesSound (document r1)).
  { unfold challengesSound. rewrite Hc1. split.
    - apply NoDup_snoc; assumption.
    - apply incl_app; [exact Hi|]. intros x [Hx|[]]. subst x.
      unfold challengeIds. apply in_map, Hc. }
  pose proof (sound_full _ Hs1) as Hfull.
  split; [reflexivity|].
  destruct (Nat.eqb _ _) eqn:El.
  - pose proof (sameButProgress_completed _ _ (awardBadge_progress "CHALLENGE_HERO" (document r1)))
      as Hc2.
    assert (Hall : allCompleted (document (awardBadge "CHALLENGE_HERO" (document r1)))).
    { unfold allCompleted. rewrite Hc2. apply Hfull. apply Nat.eqb_eq, El. }
    split; [rewrite Hc2; exact Hc1|].
    split; [unfold totalXp in *; rewrite awardBadge_xp, awardBadge_level; exact Ht1|].
    split; [rewrite app_assoc; apply last_last|].
    split; [unfold challengesSound; rewrite Hc2; exact Hs1|].
    split; [intros _; right; exact Hall|intros _].
    rewrite awardBadge_badges. destruct (JsString.includes _ _) eqn:Ei.
    + apply includes_In, Ei.
    + apply in_or_app. right. left. reflexivity.
  - cbn [ret document events fst snd].
    split; [exact Hc1|]. split; [exact Ht1|].
    split; [rewrite app_assoc; apply last_last|].
    split; [exact Hs1|].
    rewrite Hb1. split; [intros H; left; exact H|intros [H|H]; [exact H|]].
    apply Hfull in H. apply Nat.eqb_neq in El. contradiction.
Qed.

Lemma completeChallenge_completes_witness :
  let c := Challenge.mk "challenge_3" "Pausa Ativa" "Levante-se e alongue-se por 5 minutos." 15 in
  let r := completeChallenge "challenge_3" Sample.initial in
  (In c CHALLENGES /\ ~ In (Challenge.id c) (completedOf Sample.initial) /\
   wellFormed Sample.initial /\ challengesSound Sample.initial) /\
  completedOf (document r) = ["challenge_1"; "challenge_2"; "challenge_3"] /\
  totalXp (document r) = totalXp Sample.initial + 15.
Proof.
  set (c := Challenge.mk "challenge_3" "Pausa Ativa" "Levante-se e alongue-se por 5 minutos." 15).
  assert (H1 : In c CHALLENGES) by (cbn; tauto).
  assert (H2 : ~ In (Challenge.id c) (completedOf Sample.initial))
    by (cbn; intuition discriminate).
  assert (H3 : wellFormed Sample.initial) by (unfold wellFormed; cbn; lia).
  assert (H4 : challengesSound Sample.initial).
  { split.
    - cbn. repeat (constructor; [cbn; intuition discriminate|]). constructor.
    - intros x Hx. cbn in Hx |- *. tauto. }
  cbv zeta. split; [exact (conj H1 (conj H2 (conj H3 H4)))|].
  destruct (completeChallenge_completes c Sample.initial H1 H2 H3 H4) as (_ & E1 & E2 & _).
  split; [exact E1|exact E2].
Defined.

Example completeChallenge_all :
  let ops := List.map (fun id => (Sample.host, CompleteChallenge id))
               ["challenge_3"; "challenge_4"; "challenge_5"] in
  let d := runAll ops Sample.initial in
  badgesOf d = ["JOURNAL_START"; "STREAK_3"; "CHALLENGE_HERO"] /\
  (levelOf d, xpOf d) = (3, 50).
Proof. vm_compute. split; reflexivity. Qed.

End ChallengesMore.

(** ** What an operation leaves alone *)

Section Frames.
Import AppState Footprint.
Local Open Scope store_scope.

Lemma preserves_same {A T : Type} (f : Document.t -> T) (m : M A) (d : Document.t) :
  preserves (fun x => f x = f d) m -> f (document (m d)) = f d.
Proof. intros H. apply (H d). reflexivity. Qed.

Ltac kept := let H := fresh in intros ? ? H; exact H.

Ltac frame_step :=
  first
    [ apply awardBadge_frame; kept
    | apply addXp_frame; kept
    | apply preserves_ret
    | apply preserves_gets
    | apply preserves_notify
    | apply preserves_modify; let H := fresh in intros ? H; exact H
    | apply preserves_bind; [|intros ?]
    | match goal with
      | |- preserves _ (if ?c then _ else _) => destruct c
      | |- preserves _ (match ?x with _ => _ end) => destruct x
      end
    | progress cbv zeta ].

Ltac frame :=
  match goal with
  | |- ?f (document (?m ?d)) = ?f ?d => apply (preserves_same f m d)
  end;
  cbv beta;
  first [ solve [repeat frame_step]
        | unfold updateCheckInStreak, addGoal, toggleGoal, deleteGoal, saveJournalEntry,
            deleteJournalEntry, recordFeeling, completeChallenge, scheduleAppointment,
            cancelAppointment, changeSchedulingDate, profile, modifyProfile;
          solve [repeat frame_step] ].

Lemma run_same (h : Host.t) (op : Operation) (d : Document.t) (part : Part) :
  isLogin op = false -> ~ In part (writes op) -> same part d (run h op d).
Proof.
  intros Hop Hpart.
  destruct op; try discriminate Hop; clear Hop;
    destruct part;
    try (exfalso; apply Hpart; cbn; tauto);
    clear Hpart; cbn [same run]; frame.
Qed.

(** X8. Every operation other than [login] leaves alone every part of the
    document outside its footprint: [userName], [guidanceTasks],
    [selfAssessments] and [messages] are written by no operation; the goal
    operations write [goals] and, for [toggleGoal], the XP, level and
    badges; the journal operations write [journalEntries] and, for
    [saveJournalEntry], the XP, level and badges; [recordFeeling] writes
    [feelings], [moodHistory], the streak with its date, the XP, level and
    badges; the appointment operations write [appointments] and
    [availableSlots] only; only [completeChallenge] writes
    [completedChallenges]; deleting and cancelling take no XP back.  The
    same holds for a sequence of operations and the parts none of them
    writes. *)
Theorem run_frame (ops : list (Host.t * Operation)) (d : Document.t) (part : Part) :
  Forall (fun op => isLogin (snd op) = false /\ ~ In part (writes (snd op))) ops ->
  same part d (runAll ops d).
Proof.
  assert (Hrefl : forall x, same part x x) by (intros x; destruct part; reflexivity).
  assert (Htrans : forall x y z, same part x y -> same part y z -> same part x z).
  { intros x y z Hxy Hyz. destruct part; cbn [same] in *; congruence. }
  intros Hops. unfold runAll. revert d.
  induction Hops as [|[h op] ops [Hop Hpart] Hops IH]; intros d; cbn [fold_left fst snd] in *.
  - apply Hrefl.
  - apply (Htrans _ (run h op d)); [apply run_same; assumption|apply IH].
Qed.

Lemma run_frame_witness :
  let ops := [(Sample.host, DeleteJournalEntry 1); (Sample.host, ScheduleAppointment "2025-10-03" "09:00" "");
              (Sample.host, AddGoal "Dormir cedo")] in
  Forall (fun op => isLogin (snd op) = false /\ ~ In Xp (writes (snd op))) ops /\
  xpOf (runAll ops Sample.initial) = 120.
Proof.
  assert (F : Forall (fun op => isLogin (snd op) = false /\ ~ In Xp (writes (snd op)))
                [(Sample.host, DeleteJournalEntry 1);
                 (Sample.host, ScheduleAppointment "2025-10-03" "09:00" "");
                 (Sample.host, AddGoal "Dormir cedo")]).
  { repeat constructor; cbn; intuition discriminate. }
  split; [exact F|]. apply (run_frame _ Sample.initial Xp F).
Defined.

(** Every part of a footprint can change. *)
Example footprints_are_written :
  let changed := fun op part =>
    ~ same part Sample.initial (run Sample.host op Sample.initial) in
  changed (ToggleGoal 2) Goals /\ changed (ToggleGoal 2) Xp /\ changed (ToggleGoal 2) Level /\
  changed (SaveJournalEntry "Um bom dia" None) Journal /\
  changed (CompleteChallenge "challenge_5") Completed /\
  changed (RecordFeeling "bom" Details.empty) Streak /\
  changed (ScheduleAppointment "2025-10-03" "09:00" "") Slots /\
  changed (CancelAppointment 1) Appointments.
Proof. cbv zeta. repeat split; intros H; vm_compute in H; discriminate H. Qed.

End Frames.

(** ** Goals *)

Section GoalsMore.
Import AppState Profile Items.
Local Open Scope store_scope.

(** [find], [findIndex], [splice] and the mutation of the found object, at
    the first element that satisfies the test. *)
Lemma find_split {A : Type} (f : A -> bool) (l : list A) (x : A) :
  List.find f l = Some x ->
  exists a b, l = (a ++ x :: b)%list /\ f x = true /\ (forall y, In y a -> f y = false).
Proof.
  induction l as [|y r IH]; cbn [List.find]; [discriminate|].
  destruct (f y) eqn:E.
  - intros H. injection H as <-. exists [], r. repeat split; [exact E|intros ? []].
  - intros H. destruct (IH H) as (a & b & -> & Hx & Ha).
    exists (y :: a), b. repeat split; [exact Hx|].
    intros z [<-|Hz]; [exact E|apply Ha, Hz].
Qed.

Lemma find_at {A : Type} (f : A -> bool) (a b : list A) (x : A) :
  f x = true -> (forall y, In y a -> f y = false) ->
  List.find f (a ++ x :: b) = Some x.
Proof.
  intros Hx Ha. induction a as [|y a IH]; cbn [List.find app].
  - rewrite Hx. reflexivity.
  - rewrite (Ha y (or_introl eq_refl)). apply IH. intros z Hz. apply Ha. right. exact Hz.
Qed.

Lemma find_absent {A : Type} (f : A -> bool) (l : list A) :
  (forall y, In y l -> f y = false) -> List.find f l = None.
Proof.
  intros H. induction l as [|y r IH]; cbn [List.find]; [reflexivity|].
  rewrite (H y (or_introl eq_refl)). apply IH. intros z Hz. apply H. right. exact Hz.
Qed.

Lemma updateFirst_at {A : Type} (f : A -> bool) (g : A -> A) (a b : list A) (x : A) :
  f x = true -> (forall y, In y a -> f y = false) ->
  updateFirst f g (a ++ x :: b) = (a ++ g x :: b)%list.
Proof.
  intros Hx Ha. induction a as [|y a IH]; cbn [updateFirst app].
  - rewrite Hx. reflexivity.
  - rewrite (Ha y (or_introl eq_refl)). f_equal. apply IH. intros z Hz. apply Ha. right. exact Hz.
Qed.

Lemma updateFirst_absent {A : Type} (f : A -> bool) (g : A -> A) (l : list A) :
  (forall y, In y l -> f y = false) -> updateFirst f g l = l.
Proof.
  intros H. induction l as [|y r IH]; cbn [updateFirst]; [reflexivity|].
  rewrite (H y (or_introl eq_refl)). f_equal. apply IH. intros z Hz. apply H. right. exact Hz.
Qed.

Lemma findIndex_at {A : Type} (f : A -> bool) (a b : list A) (x : A) :
  f x = true -> (forall y, In y a -> f y = false) ->
  findIndex f (a ++ x :: b) = Z.of_nat (List.length a).
Proof.
  intros Hx Ha. induction a as [|y a IH]; cbn [findIndex app List.length].
  - rewrite Hx. reflexivity.
  - rewrite (Ha y (or_introl eq_refl)).
    rewrite IH by (intros z Hz; apply Ha; right; exact Hz).
    destruct (Z.of_nat (List.length a) =? -1) eqn:E; [apply Z.eqb_eq in E; lia|lia].
Qed.

Lemma removeAt_at {A : Type} (a b : list A) (x : A) :
  removeAt (List.length a) (a ++ x :: b) = (a ++ b)%list.
Proof. induction a as [|y a IH]; cbn; [reflexivity|]. f_equal. exact IH. Qed.

Lemma nth_error_at {A : Type} (a b : list A) (x : A) :
  List.nth_error (a ++ x :: b) (List.length a) = Some x.
Proof. induction a as [|y a IH]; cbn; [reflexivity|exact IH]. Qed.

(** An id that occurs among the goals has a first goal that carries it. *)
Lemma first_with_id {A : Type} (id : A -> Z) (l : list A) (i : Z) :
  In i (List.map id l) ->
  exists a x b, l = (a ++ x :: b)%list /\ id x = i /\ (forall y, In y a -> id y <> i).
Proof.
  intros H. destruct (List.find (fun y => id y =? i) l) as [x|] eqn:E.
  - destruct (find_split _ _ _ E) as (a & b & Hl & Hx & Ha).
    exists a, x, b. split; [exact Hl|]. split; [apply Z.eqb_eq, Hx|].
    intros y Hy. apply Z.eqb_neq, Ha, Hy.
  - exfalso. apply in_map_iff in H. destruct H as (y & Hy & Hin).
    apply (List.find_none _ _ E) in Hin. apply Z.eqb_neq in Hin. contradiction.
Qed.

Lemma toggleGoal_run (h : Host.t) (d : Document.t) (a b : list Goal.t) (found : Goal.t) :
  Document.goals d = (a ++ found :: b)%list ->
  (forall g, In g a -> Goal.id g <> Goal.id found) ->
  let goal := toggled h found in
  let d1 := Document.set_goals (a ++ goal :: b)%list d in
  toggleGoal h (Goal.id found) d =
  if Goal.completed found then
    (mkResult true None None (Some (EGoal goal)), d1, [GoalToggled goal])
  else
    let r1 := addXp 50 "Meta concluída" d1 in
    let r2 := (if Z.of_nat (List.length (List.filter Goal.completed
                                           (Document.goals (document r1)))) >=? 5
               then awardBadge "GOAL_MASTER" else ret tt) (document r1) in
    (mkResult true None None (Some (EGoal goal)), document r2,
     (events r1 ++ events r2 ++ [GoalToggled goal])%list).
Proof.
  intros Hg Ha. cbv zeta.
  assert (Ha' : forall y, In y a -> (Goal.id y =? Goal.id found) = false)
    by (intros y Hy; apply Z.eqb_neq, Ha, Hy).
  unfold toggleGoal. rewrite bind_run. cbn [gets document result events fst snd app].
  rewrite Hg, (find_at _ a b found (Z.eqb_refl _) Ha').
  fold (toggled h found).
  cbv [bind gets modify notify ret document result events]. cbv zeta. cbn [fst snd].
  rewrite Hg, (updateFirst_at _ _ a b found (Z.eqb_refl _) Ha').
  destruct (Goal.completed found) eqn:Ec; cbn [negb].
  - reflexivity.
  - match goal with |- context [addXp ?x ?s ?y] => destruct (addXp x s y) as [[? d2] e2] end.
    cbn [fst snd]. destruct (_ >=? 5).
    + match goal with |- context [awardBadge ?x ?y] => destruct (awardBadge x y) as [[? d3] e3] end.
      cbn [fst snd app]. rewrite <- app_assoc. reflexivity.
    + cbn [fst snd app]. rewrite <- app_assoc. reflexivity.
Qed.

Lemma addXp_total (amount : Z) (reason : string) (d : Document.t) :
  wellFormed d -> 0 < amount ->
  totalXp (document (addXp amount reason d)) = totalXp d + amount /\
  wellFormed (document (addXp amount reason d)).
Proof.
  intros W Ha. split; [|apply (addXp_advances amount reason d W)].
  destruct W as (W1 & W2 & W3).
  rewrite (addXp_positive amount reason d Ha).
  match goal with |- context [checkForLevelUp ?x] =>
    pose proof (checkForLevelUp_leveling x) as Hlev
  end.
  apply leveling_total in Hlev; cbn [fst snd] in *;
    [|exact W2|unfold xpOf in *; cbn; lia].
  destruct Hlev as (H1 & _). unfold totalXp. rewrite H1. unfold xpOf, levelOf. cbn. lia.
Qed.

Lemma addXp_goals amount reason d :
  Document.goals (document (addXp amount reason d)) = Document.goals d.
Proof.
  apply (addXp_blind (fun x => Document.goals x = Document.goals d));
    [intros ? ? H; exact H|reflexivity].
Qed.

Lemma awardBadge_goals badgeId d :
  Document.goals (document (awardBadge badgeId d)) = Document.goals d.
Proof.
  apply (awardBadge_blind (fun x => Document.goals x = Document.goals d));
    [intros ? ? H; exact H|reflexivity].
Qed.

Lemma awardBadge_total badgeId d : totalXp (document (awardBadge badgeId d)) = totalXp d.
Proof. unfold totalXp. rewrite awardBadge_xp, awardBadge_level. reflexivity. Qed.

Lemma awardBadge_holds badgeId d : In badgeId (badgesOf (document (awardBadge badgeId d))).
Proof.
  rewrite awardBadge_badges. destruct (JsString.includes _ _) eqn:E.
  - apply includes_In, E.
  - apply in_or_app. right. left. reflexivity.
Qed.

(** A grant changes the badges by LEVEL_5 at most. *)
Lemma addXp_other_badge amount reason d (badgeId : string) :
  badgeId <> "LEVEL_5" ->
  (In badgeId (badgesOf (document (addXp amount reason d))) <-> In badgeId (badgesOf d)).
Proof.
  intros Hb. destruct (addXp_badges_cases amount reason d) as [E|E]; rewrite E; [tauto|].
  rewrite in_app_iff. cbn. intuition congruence.
Qed.

(** Completing a goal. *)
Lemma toggleGoal_complete (h : Host.t) (d : Document.t) (a b : list Goal.t) (found : Goal.t) :
  Document.goals d = (a ++ found :: b)%list ->
  (forall g, In g a -> Goal.id g <> Goal.id found) ->
  Goal.completed found = false ->
  wellFormed d ->
  let r := toggleGoal h (Goal.id found) d in
  let goals := (a ++ toggled h found :: b)%list in
  result r = mkResult true None None (Some (EGoal (toggled h found))) /\
  Document.goals (document r) = goals /\
  List.last (events r) (UserLevelup 0) = GoalToggled (toggled h found) /\
  totalXp (document r) = totalXp d + 50 /\
  wellFormed (document r) /\
  (In "GOAL_MASTER" (badgesOf (document r)) <->
   In "GOAL_MASTER" (badgesOf d) \/ (5 <= List.length (List.filter Goal.completed goals))%nat).
Proof.
  intros Hg Ha Hc W. cbv zeta. rewrite (toggleGoal_run h d a b found Hg Ha), Hc. cbv zeta.
  set (d1 := Document.set_goals (a ++ toggled h found :: b)%list d).
  assert (W1 : wellFormed d1) by exact W.
  destruct (addXp_total 50 "Meta concluída" d1 W1 eq_refl) as [Ht Hw].
  pose proof (addXp_other_badge 50 "Meta concluída" d1 "GOAL_MASTER" ltac:(discriminate)) as Hb.
  rewrite addXp_goals.
  set (d2 := document (addXp 50 "Meta concluída" d1)) in *.
  change (Document.goals d1) with (a ++ toggled h found :: b)%list.
  change (totalXp d1) with (totalXp d) in Ht. change (badgesOf d1) with (badgesOf d) in Hb.
  cbn [result document events fst snd].
  split; [reflexivity|].
  assert (Hgoals : Document.goals d2 = (a ++ toggled h found :: b)%list)
    by (unfold d2; rewrite addXp_goals; reflexivity).
  destruct (_ >=? 5) eqn:E.
  - apply Z.geb_le in E.
    split; [rewrite awardBadge_goals; exact Hgoals|].
    split; [rewrite app_assoc; apply last_last|].
    split; [rewrite awardBadge_total; exact Ht|].
    split; [apply (awardBadge_advances "GOAL_MASTER" d2 Hw)|].
    split; [intros _; right; lia|intros _; apply awardBadge_holds].
  - assert (E' : Z.of_nat (List.length (List.filter Goal.completed
                                          (a ++ toggled h found :: b))) < 5)
      by (destruct (Z.geb_spec (Z.of_nat (List.length (List.filter Goal.completed
                                          (a ++ toggled h found :: b)))) 5); [discriminate|lia]).
    cbn [ret document events fst snd].
    split; [exact Hgoals|].
    split; [rewrite app_assoc; apply last_last|].
    split; [exact Ht|]. split; [exact Hw|].
    rewrite Hb. split; [intros H; left; exact H|intros [H|H]; [exact H|lia]].
Qed.

(** Un-completing a goal. *)
Lemma toggleGoal_uncomplete (h : Host.t) (d : Document.t) (a b : list Goal.t) (found : Goal.t) :
  Document.goals d = (a ++ found :: b)%list ->
  (forall g, In g a -> Goal.id g <> Goal.id found) ->
  Goal.completed found = true ->
  toggleGoal h (Goal.id found) d =
  (mkResult true None None (Some (EGoal (toggled h found))),
   Document.set_goals (a ++ toggled h found :: b)%list d,
   [GoalToggled (toggled h found)]).
Proof.
  intros Hg Ha Hc. rewrite (toggleGoal_run h d a b found Hg Ha), Hc. reflexivity.
Qed.

(** X9. [toggleGoal] on an id that some goal carries flips [completed] on
    the first goal with that id and on no other, and publishes
    [goal:toggled] last.  Completing grants exactly 50 XP, and afterwards
    GOAL_MASTER is held exactly if it was held before or at least five goals
    are now completed; un-completing clears [completedAt], publishes nothing
    else and leaves the profile as it is: the 50 XP are not taken back. *)
Theorem toggleGoal_toggles (h : Host.t) (d : Document.t) (a b : list Goal.t) (found : Goal.t) :
  Document.goals d = (a ++ found :: b)%list ->
  (forall g, In g a -> Goal.id g <> Goal.id found) ->
  wellFormed d ->
  let r := toggleGoal h (Goal.id found) d in
  let goal := toggled h found in
  let goals := (a ++ goal :: b)%list in
  result r = mkResult true None None (Some (EGoal goal)) /\
  Document.goals (document r) = goals /\
  List.last (events r) (UserLevelup 0) = GoalToggled goal /\
  (Goal.completed found = false ->
     Goal.completedAt goal = Some (Host.nowISO h) /\
     totalXp (document r) = totalXp d + 50 /\
     (In "GOAL_MASTER" (badgesOf (document r)) <->
      In "GOAL_MASTER" (badgesOf d) \/
      (5 <= List.length (List.filter Goal.completed goals))%nat)) /\
  (Goal.completed found = true ->
     Goal.completedAt goal = None /\
     events r = [GoalToggled goal] /\
     Document.userProfile (document r) = Document.userProfile d).
Proof.
  intros Hg Ha W. cbv zeta. destruct (Goal.completed found) eqn:Hc.
  - rewrite (toggleGoal_uncomplete h d a b found Hg Ha Hc).
    cbn [result document events fst snd List.last].
    split; [reflexivity|]. split; [reflexivity|]. split; [reflexivity|].
    split; [discriminate|]. intros _. unfold toggled. rewrite Hc. repeat split.
  - destruct (toggleGoal_complete h d a b found Hg Ha Hc W) as (H1 & H2 & H3 & H4 & _ & H6).
    split; [exact H1|]. split; [exact H2|]. split; [exact H3|].
    split; [|discriminate]. intros _. unfold toggled at 1. rewrite Hc.
    split; [reflexivity|]. split; [exact H4|exact H6].
Qed.

Lemma toggleGoal_toggles_witness :
  let d := Sample.initial in
  let r := toggleGoal Sample.host 2 d in
  let found := Goal.mk 2 "Organizar a semana de estudos" false None None in
  let a := [Goal.mk 1 "Praticar 30 minutos de meditação" true None None] in
  (exists b, Document.goals d = (a ++ found :: b)%list /\
             (forall g, In g a -> Goal.id g <> Goal.id found) /\ wellFormed d) /\
  result r = mkResult true None None (Some (EGoal (toggled Sample.host found))) /\
  totalXp (document r) = totalXp d + 50.
Proof.
  set (found := Goal.mk 2 "Organizar a semana de estudos" false None None).
  set (a := [Goal.mk 1 "Praticar 30 minutos de meditação" true None None]).
  set (b := [Goal.mk 3 "Fazer uma caminhada ao ar livre" false None None;
             Goal.mk 4 "Escrever no diário por 5 dias seguidos" true None None;
             Goal.mk 5 "Ler um capítulo de livro sobre bem-estar" false None None]).
  assert (Hg : Document.goals Sample.initial = (a ++ found :: b)%list) by reflexivity.
  assert (Ha : forall g, In g a -> Goal.id g <> Goal.id found).
  { intros g [<-|[]]. cbn. discriminate. }
  assert (W : wellFormed Sample.initial) by (unfold wellFormed; cbn; lia).
  cbv zeta. split; [exists b; repeat split; [exact Ha|apply W..]|].
  destruct (toggleGoal_toggles Sample.host Sample.initial a b found Hg Ha W)
    as (H1 & _ & _ & H4 & _).
  split; [exact H1|]. destruct (H4 eq_refl) as (_ & E & _). exact E.
Defined.

Lemma toggled_twice (h1 h2 : Host.t) (g : Goal.t) :
  let g2 := toggled h2 (toggled h1 g) in
  Goal.id g2 = Goal.id g /\ Goal.title g2 = Goal.title g /\
  Goal.completed g2 = Goal.completed g /\ Goal.createdAt g2 = Goal.createdAt g.
Proof. cbn. rewrite negb_involutive. repeat split. Qed.

(** X10. Toggling the same goal twice brings every goal back to its id,
    title, creation date and [completed] flag, and the profile ends with
    exactly 50 XP more in total than it started with, whether the goal was
    completed at the start or not: every new completion of the same goal is
    rewarded again. *)
Theorem toggleGoal_twice (h1 h2 : Host.t) (goalId : Z) (d : Document.t) :
  In goalId (List.map Goal.id (Document.goals d)) ->
  wellFormed d ->
  let d1 := document (toggleGoal h1 goalId d) in
  let d2 := document (toggleGoal h2 goalId d1) in
  let shape := fun g => (Goal.id g, Goal.title g, Goal.completed g, Goal.createdAt g) in
  List.map shape (Document.goals d2) = List.map shape (Document.goals d) /\
  totalXp d2 = totalXp d + 50 /\
  levelOf d <= levelOf d2.
Proof.
  intros Hin W. cbv zeta.
  destruct (first_with_id Goal.id _ _ Hin) as (a & found & b & Hg & Hid & Ha). subst goalId.
  assert (Hshape : forall g1 g2 : Goal.t,
            List.map (fun g => (Goal.id g, Goal.title g, Goal.completed g, Goal.createdAt g))
              (a ++ toggled h2 (toggled h1 found) :: b) =
            List.map (fun g => (Goal.id g, Goal.title g, Goal.completed g, Goal.createdAt g))
              (a ++ found :: b)).
  { intros _ _. rewrite !map_app. cbn [List.map]. f_equal. f_equal.
    destruct (toggled_twice h1 h2 found) as (E1 & E2 & E3 & E4). cbv zeta in *.
    rewrite E1, E2, E3, E4. reflexivity. }
  specialize (Hshape found found).
  assert (Ha2 : forall g, In g a -> Goal.id g <> Goal.id (toggled h1 found)) by exact Ha.
  destruct (Goal.completed found) eqn:Hc.
  - rewrite (toggleGoal_uncomplete h1 d a b found Hg Ha Hc). cbn [document fst snd].
    set (d1 := Document.set_goals (a ++ toggled h1 found :: b)%list d).
    assert (Hc1 : Goal.completed (toggled h1 found) = false) by (cbn; rewrite Hc; reflexivity).
    destruct (toggleGoal_complete h2 d1 a b (toggled h1 found) eq_refl Ha2 Hc1 W)
      as (_ & H2 & _ & H4 & W2 & _).
    pose proof (toggleGoal_advances h2 (Goal.id found) d1 W) as (_ & _ & Hl & _).
    change (Goal.id (toggled h1 found)) with (Goal.id found) in H2, H4.
    rewrite H2, H4, Hg. split; [exact Hshape|]. split; [reflexivity|exact Hl].
  - destruct (toggleGoal_complete h1 d a b found Hg Ha Hc W) as (_ & H2 & _ & H4 & W1 & _).
    cbv zeta in H2.
    pose proof (toggleGoal_advances h1 (Goal.id found) d W) as (_ & _ & Hl & _).
    set (d1 := document (toggleGoal h1 (Goal.id found) d)) in *.
    assert (Hc1 : Goal.completed (toggled h1 found) = true) by (cbn; rewrite Hc; reflexivity).
    pose proof (toggleGoal_uncomplete h2 d1 a b (toggled h1 found) H2 Ha2 Hc1) as E.
    change (Goal.id (toggled h1 found)) with (Goal.id found) in E.
    rewrite E. cbn [document fst snd Document.goals Document.set_goals].
    rewrite Hg. split; [exact Hshape|]. split; [exact H4|exact Hl].
Qed.

Lemma toggleGoal_twice_witness :
  let d := Sample.initial in
  let d2 := document (toggleGoal Sample.host 1 (document (toggleGoal Sample.host 1 d))) in
  (In 1 (List.map Goal.id (Document.goals d)) /\ wellFormed d) /\
  totalXp d2 = totalXp d + 50 /\ levelOf d <= levelOf d2.
Proof.
  assert (Hin : In 1 (List.map Goal.id (Document.goals Sample.initial))) by (cbn; tauto).
  assert (W : wellFormed Sample.initial) by (unfold wellFormed; cbn; lia).
  cbv zeta. split; [split; [exact Hin|exact W]|].
  destruct (toggleGoal_twice Sample.host Sample.host 1 Sample.initial Hin W) as (_ & H2 & H3).
  split; [exact H2|exact H3].
Defined.

Example toggleGoal_six_times :
  let toggle := (Sample.host, ToggleGoal 2) in
  let d := runAll [toggle; toggle; toggle; toggle; toggle; toggle] Sample.initial in
  List.map Goal.completed (Document.goals d) =
    List.map Goal.completed (Document.goals Sample.initial) /\
  totalXp d = totalXp Sample.initial + 150 /\
  (levelOf Sample.initial, levelOf d) = (2, 4).
Proof. vm_compute. repeat split. Qed.

(** The three rules of a goal title and of a journal text. *)
Lemma length_rules (value fieldName : string) (lo hi : Z) :
  Validator.validateField value
    [Validator.RRequired; Validator.RMinLength lo; Validator.RMaxLength hi] fieldName = []
  <-> Forms.accepted lo hi value.
Proof.
  unfold Forms.accepted.
  cbn [Validator.validateField Validator.applyRule].
  unfold Validator.required, Validator.minLength, Validator.maxLength.
  destruct (JsString.isEmpty value) eqn:E1.
  - apply isEmpty_true in E1. subst value. cbn. split; [discriminate|].
    intros [H _]. contradiction.
  - cbn [orb negb andb].
    destruct (JsString.isEmpty (JsString.trim value)) eqn:E2.
    + apply isEmpty_true in E2. split.
      * destruct (_ <? lo), (hi <? _); discriminate.
      * intros [H _]. contradiction.
    + apply isEmpty_false in E2.
      destruct (Z.of_nat (String.length value) <? lo) eqn:E3;
        destruct (hi <? Z.of_nat (String.length value)) eqn:E4;
        try apply Z.ltb_lt in E3; try apply Z.ltb_lt in E4;
        try apply Z.ltb_ge in E3; try apply Z.ltb_ge in E4;
        (split; [first [discriminate | intros _; split; [exact E2|lia]]
                |first [reflexivity | intros [_ H]; lia]]).
Qed.

Lemma addGoal_accepted (h : Host.t) (title : string) (d : Document.t) :
  Forms.accepted 3 200 title ->
  let goal := Goal.mk (Host.nowMillis h) (Validator.text (Host.stripScripts h) title) false
                (Some (Host.nowISO h)) None in
  addGoal h title d =
  (mkResult true None None (Some (EGoal goal)),
   Document.set_goals (goal :: Document.goals d) d, [GoalAdded goal]).
Proof.
  intros H. apply length_rules with (fieldName := "Meta") in H.
  unfold addGoal, Validator.validateGoal. cbv zeta. rewrite H. reflexivity.
Qed.

Lemma addGoal_rejected (h : Host.t) (title : string) (d : Document.t) :
  ~ Forms.accepted 3 200 title ->
  exists error rest,
    addGoal h title d = (mkResult false (Some (error :: rest)) None None, d, []).
Proof.
  intros H. rewrite <- (length_rules title "Meta") in H.
  unfold addGoal, Validator.validateGoal. cbv zeta.
  destruct (Validator.validateField _ _ _) as [|e l]; [contradiction|].
  exists e, l. reflexivity.
Qed.

(** X11. [addGoal] accepts exactly the titles that are not blank and have
    3 to 200 characters, white space counted.  An accepted title is stored
    trimmed and without script elements, in a new goal that is not
    completed, takes the clock reading as id and goes in front of the
    others; the profile is not touched and [goal:added] is the one event.
    Every other title is answered with the validation errors, changes
    nothing and publishes nothing. *)
Theorem addGoal_accepts (h : Host.t) (title : string) (d : Document.t) :
  let r := addGoal h title d in
  let goal := Goal.mk (Host.nowMillis h) (Validator.text (Host.stripScripts h) title) false
                (Some (Host.nowISO h)) None in
  (Forms.accepted 3 200 title ->
     result r = mkResult true None None (Some (EGoal goal)) /\
     document r = Document.set_goals (goal :: Document.goals d) d /\
     events r = [GoalAdded goal]) /\
  (~ Forms.accepted 3 200 title ->
     success (result r) = false /\
     (exists error rest, errors (result r) = Some (error :: rest)) /\
     document r = d /\ events r = []).
Proof.
  cbv zeta. split.
  - intros H. rewrite (addGoal_accepted h title d H). repeat split.
  - intros H. destruct (addGoal_rejected h title d H) as (e & l & E). rewrite E.
    cbn [result document events fst snd success errors].
    repeat split. exists e, l. reflexivity.
Qed.

Lemma addGoal_accepts_witness :
  let r := addGoal Sample.host "  a" Sample.initial in
  Forms.accepted 3 200 "  a" /\
  List.map Goal.title (Document.goals (document r)) =
    "a" :: List.map Goal.title (Document.goals Sample.initial) /\
  ~ Forms.accepted 3 200 "ab" /\
  document (addGoal Sample.host "ab" Sample.initial) = Sample.initial.
Proof.
  assert (H1 : Forms.accepted 3 200 "  a") by (split; [discriminate|cbn; lia]).
  assert (H2 : ~ Forms.accepted 3 200 "ab") by (intros [_ H]; cbn in H; lia).
  destruct (addGoal_accepts Sample.host "  a" Sample.initial) as [Hyes _].
  destruct (addGoal_accepts Sample.host "ab" Sample.initial) as [_ Hno].
  destruct (Hyes H1) as (_ & E & _). destruct (Hno H2) as (_ & _ & E' & _).
  cbv zeta. split; [exact H1|]. split; [rewrite E; reflexivity|].
  split; [exact H2|exact E'].
Defined.

Lemma deleteGoal_run (d : Document.t) (a b : list Goal.t) (found : Goal.t) :
  Document.goals d = (a ++ found :: b)%list ->
  (forall g, In g a -> Goal.id g <> Goal.id found) ->
  deleteGoal (Goal.id found) d =
  (mkResult true None None None, Document.set_goals (a ++ b)%list d, [GoalDeleted found]).
Proof.
  intros Hg Ha.
  assert (Ha' : forall y, In y a -> (Goal.id y =? Goal.id found) = false)
    by (intros y Hy; apply Z.eqb_neq, Ha, Hy).
  unfold deleteGoal. rewrite bind_run. cbn [gets document result events fst snd app].
  rewrite Hg, (findIndex_at _ a b found (Z.eqb_refl _) Ha').
  destruct (Z.of_nat (List.length a) =? -1) eqn:E; [apply Z.eqb_eq in E; lia|].
  rewrite Nat2Z.id, removeAt_at, nth_error_at. reflexivity.
Qed.

Lemma deleteJournalEntry_run (d : Document.t) (a b : list JournalEntry.t)
    (found : JournalEntry.t) :
  Document.journalEntries d = (a ++ found :: b)%list ->
  (forall e, In e a -> JournalEntry.id e <> JournalEntry.id found) ->
  deleteJournalEntry (JournalEntry.id found) d =
  (mkResult true None None None, Document.set_journalEntries (a ++ b)%list d,
   [JournalDeleted found]).
Proof.
  intros Hg Ha.
  assert (Ha' : forall y, In y a -> (JournalEntry.id y =? JournalEntry.id found) = false)
    by (intros y Hy; apply Z.eqb_neq, Ha, Hy).
  unfold deleteJournalEntry. rewrite bind_run. cbn [gets document result events fst snd app].
  rewrite Hg, (findIndex_at _ a b found (Z.eqb_refl _) Ha').
  destruct (Z.of_nat (List.length a) =? -1) eqn:E; [apply Z.eqb_eq in E; lia|].
  rewrite Nat2Z.id, removeAt_at, nth_error_at. reflexivity.
Qed.

(** X12. [deleteGoal] and [deleteJournalEntry] on an id that is present
    succeed, remove the first item that carries the id and no other (a later
    item with the same id stays), keep the order of the rest, publish the
    removed item and leave everything else, the XP the item had earned
    included, as it is.  When no other item carries the id, a second call
    for it fails. *)
Theorem delete_removes_first (d : Document.t) :
  (forall a b found,
     Document.goals d = (a ++ found :: b)%list ->
     (forall g, In g a -> Goal.id g <> Goal.id found) ->
     let r := deleteGoal (Goal.id found) d in
     r = (mkResult true None None None, Document.set_goals (a ++ b)%list d,
          [GoalDeleted found]) /\
     (~ In (Goal.id found) (List.map Goal.id b) ->
        success (result (deleteGoal (Goal.id found) (document r))) = false)) /\
  (forall a b found,
     Document.journalEntries d = (a ++ found :: b)%list ->
     (forall e, In e a -> JournalEntry.id e <> JournalEntry.id found) ->
     let r := deleteJournalEntry (JournalEntry.id found) d in
     r = (mkResult true None None None, Document.set_journalEntries (a ++ b)%list d,
          [JournalDeleted found]) /\
     (~ In (JournalEntry.id found) (List.map JournalEntry.id b) ->
        success (result (deleteJournalEntry (JournalEntry.id found) (document r))) = false)).
Proof.
  split; intros a b found Hl Ha; cbv zeta.
  - rewrite (deleteGoal_run d a b found Hl Ha). split; [reflexivity|].
    intros Hb. cbn [document fst snd]. unfold deleteGoal.
    rewrite bind_run. cbn [gets document result events fst snd Document.goals Document.set_goals].
    rewrite findIndex_absent; [reflexivity|].
    intros g Hg. apply Z.eqb_neq. apply in_app_or in Hg. destruct Hg as [Hg|Hg].
    + apply Ha, Hg.
    + intros E. apply Hb. rewrite <- E. apply in_map, Hg.
  - rewrite (deleteJournalEntry_run d a b found Hl Ha). split; [reflexivity|].
    intros Hb. cbn [document fst snd]. unfold deleteJournalEntry.
    rewrite bind_run.
    cbn [gets document result events fst snd Document.journalEntries Document.set_journalEntries].
    rewrite findIndex_absent; [reflexivity|].
    intros g Hg. apply Z.eqb_neq. apply in_app_or in Hg. destruct Hg as [Hg|Hg].
    + apply Ha, Hg.
    + intros E. apply Hb. rewrite <- E. apply in_map, Hg.
Qed.

Lemma delete_removes_first_witness :
  let found := Goal.mk 1 "Praticar 30 minutos de meditação" true None None in
  let r := deleteGoal 1 Sample.initial in
  (exists b, Document.goals Sample.initial = ([] ++ found :: b)%list /\
             (forall g, In g [] -> Goal.id g <> Goal.id found)) /\
  List.map Goal.id (Document.goals (document r)) = [2; 3; 4; 5] /\
  xpOf (document r) = xpOf Sample.initial /\
  events r = [GoalDeleted found].
Proof.
  set (found := Goal.mk 1 "Praticar 30 minutos de meditação" true None None).
  set (b := List.tl (Document.goals Sample.initial)).
  assert (Hg : Document.goals Sample.initial = ([] ++ found :: b)%list) by reflexivity.
  assert (Ha : forall g, In g [] -> Goal.id g <> Goal.id found) by (intros g []).
  cbv zeta. split; [exists b; split; [exact Hg|exact Ha]|].
  destruct (delete_removes_first Sample.initial) as [Hgoal _].
  destruct (Hgoal [] b found Hg Ha) as [E _].
  change (Goal.id found) with 1 in E. rewrite E. repeat split.
Defined.

End GoalsMore.

(** ** The journal *)

Section JournalMore.
Import AppState Profile Items.
Local Open Scope store_scope.

(** [getCurrentMood] is the emotion of the last feeling: the [slice(-3)]
    changes nothing. *)
Lemma getCurrentMood_last (d : Document.t) :
  getCurrentMood d =
  match List.rev (Document.feelings d) with
  | [] => "neutro"
  | f :: _ => Feeling.emotion f
  end.
Proof.
  unfold getCurrentMood. cbv zeta.
  set (l := Document.feelings d).
  destruct (Nat.eq_dec (List.length l) 0) as [E|E].
  - destruct l; [reflexivity|discriminate E].
  - replace (List.rev (List.skipn (List.length l - 3) l))
      with (List.firstn (List.length l - (List.length l - 3)) (List.rev l)).
    + destruct (List.rev l) as [|f r] eqn:Er.
      * apply (f_equal (@List.length _)) in Er. rewrite length_rev in Er. cbn in Er. lia.
      * destruct (List.length l - (List.length l - 3))%nat eqn:En; [lia|]. reflexivity.
    + rewrite firstn_rev. f_equal. f_equal. lia.
Qed.

Lemma addXp_journal amount reason d :
  Document.journalEntries (document (addXp amount reason d)) = Document.journalEntries d.
Proof.
  apply (addXp_blind (fun x => Document.journalEntries x = Document.journalEntries d));
    [intros ? ? H; exact H|reflexivity].
Qed.

Lemma awardBadge_journal badgeId d :
  Document.journalEntries (document (awardBadge badgeId d)) = Document.journalEntries d.
Proof.
  apply (awardBadge_blind (fun x => Document.journalEntries x = Document.journalEntries d));
    [intros ? ? H; exact H|reflexivity].
Qed.

Lemma saveJournalEntry_new (h : Host.t) (content : string) (entryId : option Z)
    (d : Document.t) :
  Forms.accepted 3 10000 content ->
  truthyId entryId = None ->
  let entry := created h content d in
  let d1 := Document.set_journalEntries (entry :: Document.journalEntries d) d in
  let r1 := addXp 25 "Entrada no diário" d1 in
  let r2 := (if Nat.eqb (List.length (Document.journalEntries d)) 0
             then awardBadge "JOURNAL_START" else ret tt) (document r1) in
  saveJournalEntry h content entryId d =
  (mkResult true None None (Some (EEntry entry)), document r2,
   (events r1 ++ events r2 ++ [JournalCreated entry])%list).
Proof.
  intros H Hid. apply length_rules with (fieldName := "Conteúdo do diário") in H.
  cbv zeta. unfold saveJournalEntry, Validator.validateJournalEntry. cbv zeta.
  rewrite H. cbn [List.length Z.of_nat Z.ltb Z.compare Validator.isValid Validator.sanitized].
  rewrite Hid. fold (created h content d).
  cbv [bind gets modify notify ret document result events]. cbv zeta. cbn [fst snd].
  fold (created h content d).
  match goal with |- context [addXp ?x ?s ?y] => destruct (addXp x s y) as [[? d2] e2] end.
  cbn [fst snd]. destruct (Nat.eqb _ 0).
  - match goal with |- context [awardBadge ?x ?y] => destruct (awardBadge x y) as [[? d3] e3] end.
    cbn [fst snd app]. reflexivity.
  - cbn [fst snd app]. reflexivity.
Qed.

Lemma saveJournalEntry_edit (h : Host.t) (content : string) (entryId : option Z)
    (d : Document.t) (a b : list JournalEntry.t) (found : JournalEntry.t) :
  Forms.accepted 3 10000 content ->
  truthyId entryId = Some (JournalEntry.id found) ->
  Document.journalEntries d = (a ++ found :: b)%list ->
  (forall e, In e a -> JournalEntry.id e <> JournalEntry.id found) ->
  let entry := edited h content found in
  saveJournalEntry h content entryId d =
  (mkResult true None None (Some (EEntry entry)),
   Document.set_journalEntries (a ++ entry :: b)%list d, [JournalUpdated entry]).
Proof.
  intros H Hid Hl Ha. apply length_rules with (fieldName := "Conteúdo do diário") in H.
  assert (Ha' : forall y, In y a -> (JournalEntry.id y =? JournalEntry.id found) = false)
    by (intros y Hy; apply Z.eqb_neq, Ha, Hy).
  cbv zeta. unfold saveJournalEntry, Validator.validateJournalEntry. cbv zeta.
  rewrite H. cbn [List.length Z.of_nat Z.ltb Z.compare Validator.isValid Validator.sanitized].
  rewrite Hid. rewrite bind_run. cbn [gets document result events fst snd app].
  rewrite Hl, (find_at _ a b found (Z.eqb_refl _) Ha').
  rewrite (updateFirst_at _ _ a b found (Z.eqb_refl _) Ha'). reflexivity.
Qed.

Lemma saveJournalEntry_missing (h : Host.t) (content : string) (entryId : option Z)
    (d : Document.t) (i : Z) :
  Forms.accepted 3 10000 content ->
  truthyId entryId = Some i ->
  ~ In i (List.map JournalEntry.id (Document.journalEntries d)) ->
  saveJournalEntry h content entryId d = (failure, d, []).
Proof.
  intros H Hid Hn. apply length_rules with (fieldName := "Conteúdo do diário") in H.
  unfold saveJournalEntry, Validator.validateJournalEntry. cbv zeta.
  rewrite H. cbn [List.length Z.of_nat Z.ltb Z.compare Validator.isValid Validator.sanitized].
  rewrite Hid. rewrite bind_run. cbn [gets document result events fst snd app].
  rewrite find_absent; [reflexivity|].
  intros e He. apply Z.eqb_neq. intros E. apply Hn. rewrite <- E. apply in_map, He.
Qed.

(** X13. [saveJournalEntry] with an accepted text (not blank, 3 to 10000
    characters).  Without an entry id, and with the id 0, which is as falsy
    as [null], it puts a new entry in front, with the sanitized text and the
    emotion of the last recorded feeling (or "neutro") as mood, grants
    exactly 25 XP, publishes [journal:created] last, and awards
    JOURNAL_START if the journal was empty (and only then).  With the id of
    an entry, it replaces the text of the first entry that carries the id
    and of no other, grants no XP, and publishes [journal:updated] only.
    With an id no entry carries it fails without [errors] or [message] and
    changes nothing. *)
Theorem saveJournalEntry_saves (h : Host.t) (content : string) (entryId : option Z)
    (d : Document.t) :
  Forms.accepted 3 10000 content ->
  wellFormed d ->
  let r := saveJournalEntry h content entryId d in
  (entryId = None \/ entryId = Some 0 ->
     let entry := created h content d in
     result r = mkResult true None None (Some (EEntry entry)) /\
     Document.journalEntries (document r) = entry :: Document.journalEntries d /\
     JournalEntry.mood entry =
       Some (match List.rev (Document.feelings d) with
             | [] => "neutro"
             | f :: _ => Feeling.emotion f
             end) /\
     totalXp (document r) = totalXp d + 25 /\
     List.last (events r) (UserLevelup 0) = JournalCreated entry /\
     (In "JOURNAL_START" (badgesOf (document r)) <->
      In "JOURNAL_START" (badgesOf d) \/ Document.journalEntries d = [])) /\
  (forall a b found,
     entryId = Some (JournalEntry.id found) -> JournalEntry.id found <> 0 ->
     Document.journalEntries d = (a ++ found :: b)%list ->
     (forall e, In e a -> JournalEntry.id e <> JournalEntry.id found) ->
     r = (mkResult true None None (Some (EEntry (edited h content found))),
          Document.set_journalEntries (a ++ edited h content found :: b)%list d,
          [JournalUpdated (edited h content found)])) /\
  (forall i,
     entryId = Some i -> i <> 0 ->
     ~ In i (List.map JournalEntry.id (Document.journalEntries d)) ->
     r = (failure, d, [])).
Proof.
  intros H W. cbv zeta.
  assert (Htruthy : forall i, i <> 0 -> truthyId (Some i) = Some i).
  { intros i Hi. cbn. destruct (i =? 0) eqn:E; [apply Z.eqb_eq in E; contradiction|reflexivity]. }
  split; [|split].
  - intros Hid.
    assert (Hnone : truthyId entryId = None) by (destruct Hid; subst; reflexivity).
    rewrite (saveJournalEntry_new h content entryId d H Hnone).
    cbn [result document events fst snd].
    set (entry := created h content d).
    set (d1 := Document.set_journalEntries (entry :: Document.journalEntries d) d).
    assert (W1 : wellFormed d1) by exact W.
    destruct (addXp_total 25 "Entrada no diário" d1 W1 eq_refl) as [Ht Hw].
    pose proof (addXp_other_badge 25 "Entrada no diário" d1 "JOURNAL_START" ltac:(discriminate))
      as Hb.
    pose proof (addXp_journal 25 "Entrada no diário" d1) as Hj.
    set (d2 := document (addXp 25 "Entrada no diário" d1)) in *.
    change (totalXp d1) with (totalXp d) in Ht. change (badgesOf d1) with (badgesOf d) in Hb.
    change (Document.journalEntries d1) with (entry :: Document.journalEntries d) in Hj.
    split; [reflexivity|].
    assert (Hmood : JournalEntry.mood entry =
                    Some (match List.rev (Document.feelings d) with
                          | [] => "neutro"
                          | f :: _ => Feeling.emotion f
                          end))
      by (unfold entry, created; cbn [JournalEntry.mood]; rewrite getCurrentMood_last; reflexivity).
    destruct (Document.journalEntries d) as [|e0 rest] eqn:Ej; cbn [List.length Nat.eqb].
    + split; [rewrite awardBadge_journal; exact Hj|]. split; [exact Hmood|].
      split; [rewrite awardBadge_total; exact Ht|].
      split; [rewrite app_assoc; apply last_last|].
      split; [intros _; right; reflexivity|intros _; apply awardBadge_holds].
    + cbn [ret document events fst snd].
      split; [exact Hj|]. split; [exact Hmood|]. split; [exact Ht|].
      split; [rewrite app_assoc; apply last_last|].
      rewrite Hb. split; [intros Hin; left; exact Hin|intros [Hin|Hin]; [exact Hin|discriminate]].
  - intros a b found Hid Hnz Hl Ha. subst entryId.
    apply (saveJournalEntry_edit h content _ d a b found H (Htruthy _ Hnz) Hl Ha).
  - intros i Hid Hnz Hn. subst entryId.
    apply (saveJournalEntry_missing h content _ d i H (Htruthy _ Hnz) Hn).
Qed.

Lemma saveJournalEntry_saves_witness :
  let r := saveJournalEntry Sample.host "Um dia tranquilo." (Some 0) Sample.initial in
  (Forms.accepted 3 10000 "Um dia tranquilo." /\ wellFormed Sample.initial) /\
  List.map JournalEntry.id (Document.journalEntries (document r)) =
    [Host.nowMillis Sample.host; 1; 2; 3; 4; 5] /\
  JournalEntry.mood (created Sample.host "Um dia tranquilo." Sample.initial) = Some "ruim" /\
  totalXp (document r) = totalXp Sample.initial + 25.
Proof.
  assert (H : Forms.accepted 3 10000 "Um dia tranquilo.") by (split; [discriminate|cbn; lia]).
  assert (W : wellFormed Sample.initial) by (unfold wellFormed; cbn; lia).
  cbv zeta. split; [split; [exact H|exact W]|].
  destruct (saveJournalEntry_saves Sample.host "Um dia tranquilo." (Some 0) Sample.initial H W)
    as [Hnew _].
  destruct (Hnew (or_intror eq_refl)) as (_ & E1 & E2 & E3 & _).
  split; [rewrite E1; reflexivity|]. split; [rewrite E2; reflexivity|exact E3].
Defined.

Example saveJournalEntry_edits :
  let r := saveJournalEntry Sample.host "  Corrigido  " (Some 2) Sample.initial in
  List.map JournalEntry.content (List.firstn 2 (Document.journalEntries (document r))) =
    ["Primeiro dia usando o app. Parece promissor!"; "Corrigido"] /\
  Document.userProfile (document r) = Document.userProfile Sample.initial /\
  result (saveJournalEntry Sample.host "Corrigido" (Some 9) Sample.initial) = failure.
Proof. vm_compute. repeat split. Qed.

End JournalMore.

(** ** Check-ins *)

Section FeelingsMore.
Import AppState Profile Footprint Log.
Local Open Scope store_scope.

(** X14. The feelings log is append-only and paired with the mood history:
    after a sequence of operations without [login], [feelings] is what it
    was followed by the feelings the [recordFeeling] calls built, in order,
    and [moodHistory] is what it was followed by one entry per call, with
    the date of the feeling and the emotion passed; no other operation
    touches either list, so both grow by the number of [recordFeeling]
    calls. *)
Theorem feelings_log (ops : list (Host.t * Operation)) (d : Document.t) :
  Forall (fun op => isLogin (snd op) = false) ops ->
  let d' := runAll ops d in
  Document.feelings d' = (Document.feelings d ++ recordedFeelings ops)%list /\
  Document.moodHistory d' = (Document.moodHistory d ++ recordedMoods ops)%list /\
  List.map Feeling.date (recordedFeelings ops) = List.map MoodEntry.date (recordedMoods ops) /\
  List.length (recordedFeelings ops) =
    List.length (List.filter (fun op => isRecordFeeling (snd op)) ops).
Proof.
  intros Hops. cbv zeta. unfold runAll. revert d.
  induction Hops as [|[h op] ops Hop Hops IH]; intros d; cbn [fold_left fst snd] in *.
  - cbn. rewrite !app_nil_r. repeat split.
  - destruct (IH (run h op d)) as (IH1 & IH2 & IH3 & IH4). rewrite IH1, IH2.
    destruct (isRecordFeeling op) eqn:E.
    + destruct op; try discriminate E.
      cbn [run recordedFeelings recordedMoods List.flat_map fst snd List.filter isRecordFeeling
           List.length List.map app].
      rewrite recordFeeling_feelings, recordFeeling_moodHistory, <- !app_assoc.
      cbn [app]. fold (recordedFeelings ops). fold (recordedMoods ops).
      rewrite IH3, IH4. repeat split.
    + assert (H1 : ~ In Feelings (writes op))
        by (destruct op; try discriminate E; try discriminate Hop; cbn; intuition discriminate).
      assert (H2 : ~ In MoodHistory (writes op))
        by (destruct op; try discriminate E; try discriminate Hop; cbn; intuition discriminate).
      pose proof (run_same h op d Feelings Hop H1) as F1.
      pose proof (run_same h op d MoodHistory Hop H2) as F2.
      cbn [same] in F1, F2. rewrite F1, F2.
      assert (R1 : recordedFeelings ((h, op) :: ops) = recordedFeelings ops)
        by (destruct op; try discriminate E; reflexivity).
      assert (R2 : recordedMoods ((h, op) :: ops) = recordedMoods ops)
        by (destruct op; try discriminate E; reflexivity).
      rewrite R1, R2. cbn [List.filter snd]. rewrite E. repeat split; assumption.
Qed.

Lemma feelings_log_witness :
  let ops := [(Sample.host, RecordFeeling "bom" Details.empty);
              (Sample.host, ToggleGoal 2);
              (Sample.host, RecordFeeling "ansiedade" Details.empty)] in
  let d' := runAll ops Sample.initial in
  Forall (fun op => isLogin (snd op) = false) ops /\
  List.map MoodEntry.mood (List.skipn 8 (Document.moodHistory d')) = ["bom"; "ansiedade"] /\
  List.length (Document.feelings d') = 10%nat.
Proof.
  assert (F : Forall (fun op => isLogin (snd op) = false)
                [(Sample.host, RecordFeeling "bom" Details.empty);
                 (Sample.host, ToggleGoal 2);
                 (Sample.host, RecordFeeling "ansiedade" Details.empty)])
    by (repeat constructor).
  cbv zeta. split; [exact F|].
  destruct (feelings_log _ Sample.initial F) as (H1 & H2 & _).
  rewrite H1, H2. split; reflexivity.
Defined.

(** A second check-in on the same day. *)
Lemma updateCheckInStreak_today (h : Host.t) (d : Document.t) :
  lastCheckInOf d = Some (Host.today h) ->
  updateCheckInStreak h d = (mkStreak false (streakOf d), d, []).
Proof.
  intros H. unfold updateCheckInStreak. rewrite bind_run.
  cbn [profile gets document result events fst snd app].
  unfold lastCheckInOf in H. rewrite H. cbn [dateIs]. rewrite String.eqb_refl. reflexivity.
Qed.


Lemma recordFeeling_total (h : Host.t) (emotion : string) (details : Details.t)
    (d : Document.t) :
  wellFormed d ->
  let d' := document (recordFeeling h emotion details d) in
  totalXp d' = totalXp d + 10 /\ wellFormed d'.
Proof.
  intros W. cbv zeta. rewrite recordFeeling_run. cbn [document fst snd].
  match goal with |- context [updateCheckInStreak h ?x] =>
    set (d1 := x);
    destruct (updateCheckInStreak_progress h d1) as [Hx Hl];
    pose proof (updateCheckInStreak_advances h d1 W) as (W2 & _)
  end.
  destruct (addXp_total 10 "Check-in diário" _ W2 eq_refl) as [Ht Hw].
  split; [|exact Hw]. rewrite Ht. unfold totalXp. rewrite Hx, Hl. reflexivity.
Qed.


(** X15. A second [recordFeeling] on the same day counts for the XP but
    not for the streak: after two calls on the same day the streak and
    [lastCheckInDate] are as the first call left them, the second call
    succeeds all the same and its emotion is the current mood, and the
    profile has received 10 XP for each call, 20 in total. *)
Theorem recordFeeling_same_day (h1 h2 : Host.t) (emotion1 emotion2 : string)
    (details1 details2 : Details.t) (d : Document.t) :
  Host.today h2 = Host.today h1 ->
  wellFormed d ->
  let r1 := recordFeeling h1 emotion1 details1 d in
  let r2 := recordFeeling h2 emotion2 details2 (document r1) in
  success (result r2) = true /\
  streakOf (document r2) = streakOf (document r1) /\
  lastCheckInOf (document r2) = Some (Host.today h1) /\
  totalXp (document r2) = totalXp d + 20 /\
  getCurrentMood (document r2) = Feeling.emotion (makeFeeling h2 emotion2 details2).
Proof.
  intros Hday W. cbv zeta.
  destruct (recordFeeling_total h1 emotion1 details1 d W) as [Ht1 W1]. cbv zeta in Ht1, W1.
  assert (Hl1 : lastCheckInOf (document (recordFeeling h1 emotion1 details1 d)) =
                Some (Host.today h1)).
  { rewrite recordFeeling_run. cbn [document fst snd].
    match goal with |- context [addXp 10 ?s ?x] =>
      destruct (sameButProgress_streak _ _ (addXp_progress 10 s x)) as [_ H2]
    end.
    rewrite H2.
    match goal with |- context [updateCheckInStreak h1 ?x] =>
      destruct (updateCheckInStreak_spec h1 x) as (_ & Hl & _)
    end.
    cbv zeta in Hl. rewrite Hl.
    destruct (dateIs _ _) eqn:E; [apply dateIs_true, E|reflexivity]. }
  set (d1 := document (recordFeeling h1 emotion1 details1 d)) in *.
  destruct (recordFeeling_total h2 emotion2 details2 d1 W1) as [Ht2 _]. cbv zeta in Ht2.
  split; [rewrite recordFeeling_run; reflexivity|].
  assert (Hstreak : streakOf (document (recordFeeling h2 emotion2 details2 d1)) = streakOf d1 /\
                    lastCheckInOf (document (recordFeeling h2 emotion2 details2 d1)) =
                    Some (Host.today h1)).
  { rewrite recordFeeling_run. cbn [document fst snd].
    match goal with |- context [addXp 10 ?s ?x] =>
      destruct (sameButProgress_streak _ _ (addXp_progress 10 s x)) as [H1 H2]
    end.
    rewrite H1, H2.
    match goal with |- context [updateCheckInStreak h2 ?x] =>
      assert (Hx : lastCheckInOf x = Some (Host.today h2)) by (rewrite Hday; exact Hl1);
      rewrite (updateCheckInStreak_today h2 x Hx)
    end.
    cbn [document fst snd]. split; [reflexivity|exact Hl1]. }
  destruct Hstreak as [Hs Hl].
  split; [exact Hs|]. split; [exact Hl|]. split; [rewrite Ht2, Ht1; lia|].
  rewrite getCurrentMood_last, recordFeeling_feelings, rev_app_distr. reflexivity.
Qed.

Lemma recordFeeling_same_day_witness :
  let r1 := recordFeeling Sample.host "bom" Details.empty Sample.checkedInYesterday in
  let r2 := recordFeeling Sample.host "otimo" Details.empty (document r1) in
  (Host.today Sample.host = Host.today Sample.host /\ wellFormed Sample.checkedInYesterday) /\
  streakOf (document r1) = 4 /\
  streakOf (document r2) = streakOf (document r1) /\
  totalXp (document r2) = totalXp Sample.checkedInYesterday + 20.
Proof.
  assert (W : wellFormed Sample.checkedInYesterday) by (unfold wellFormed; cbn; lia).
  cbv zeta. split; [split; [reflexivity|exact W]|].
  split; [vm_compute; reflexivity|].
  destruct (recordFeeling_same_day Sample.host Sample.host "bom" "otimo" Details.empty
              Details.empty Sample.checkedInYesterday eq_refl W) as (_ & H2 & _ & H4 & _).
  split; [exact H2|exact H4].
Defined.








End FeelingsMore.

(** ** Appointments *)

Section AppointmentsMore.
Import AppState Profile Items.
Local Open Scope store_scope.

Lemma required_passes (value fieldName : string) :
  Validator.validateField value [Validator.RRequired] fieldName = []
  <-> JsString.trim value <> EmptyString.
Proof.
  cbn [Validator.validateField Validator.applyRule]. unfold Validator.required.
  destruct (JsString.isEmpty value) eqn:E1.
  - apply isEmpty_true in E1. subst value. cbn. split; [discriminate|intros H; contradiction].
  - cbn [orb]. destruct (JsString.isEmpty (JsString.trim value)) eqn:E2.
    + apply isEmpty_true in E2. split; [discriminate|intros H; contradiction].
    + apply isEmpty_false in E2. split; [intros _; exact E2|reflexivity].
Qed.

(** What [validateAppointment] accepts: a date and a time that are not
    blank and do not lie before now. *)
Lemma appointment_rules (isBeforeNow : string -> bool) (date time : string) :
  Validator.validateAppointment isBeforeNow date time = []
  <-> JsString.trim date <> EmptyString /\ JsString.trim time <> EmptyString /\
      isBeforeNow (date ++ "T" ++ time) = false.
Proof.
  unfold Validator.validateAppointment. cbv zeta.
  rewrite <- (required_passes date "Data"), <- (required_passes time "Horário").
  destruct (Validator.validateField date _ _) as [|e1 l1] eqn:Ed.
  - apply required_passes in Ed.
    assert (Hd : JsString.isEmpty date = false)
      by (apply isEmpty_false; intros E; subst date; apply Ed; reflexivity).
    rewrite Hd. cbn [negb andb].
    destruct (Validator.validateField time _ _) as [|e2 l2] eqn:Et.
    + apply required_passes in Et.
      assert (Ht : JsString.isEmpty time = false)
        by (apply isEmpty_false; intros E; subst time; apply Et; reflexivity).
      rewrite Ht. destruct (isBeforeNow _); cbn; split; try discriminate; try tauto.
      intros (_ & _ & H). discriminate H.
    + split; [|intros (_ & H & _); discriminate H].
      destruct (isBeforeNow _); cbn; discriminate.
  - split; [|intros (H & _); discriminate H].
    destruct (_ && _); cbn; discriminate.
Qed.

Lemma splitSpaces_word (text : string) : noSpace text = true -> splitSpaces text = [text].
Proof.
  induction text as [|c r IH]; cbn [noSpace splitSpaces]; [reflexivity|].
  destruct (Ascii.eqb c " "); [discriminate|]. cbn [negb andb]. intros H.
  rewrite (IH H). reflexivity.
Qed.

Lemma splitSpaces_two (first second : string) :
  noSpace first = true -> noSpace second = true ->
  splitSpaces (first ++ " " ++ second) = [first; second].
Proof.
  intros H1 H2. induction first as [|c r IH]; cbn [noSpace splitSpaces String.append] in *.
  - rewrite (splitSpaces_word second H2). reflexivity.
  - destruct (Ascii.eqb c " "); [discriminate|]. cbn [negb andb] in H1.
    rewrite (IH H1). reflexivity.
Qed.

Lemma updateFirst_twice {A : Type} (f : A -> bool) (g1 g2 : A -> A) (l : list A) :
  (forall x, f (g1 x) = f x) ->
  updateFirst f g2 (updateFirst f g1 l) = updateFirst f (fun x => g2 (g1 x)) l.
Proof.
  intros Hf. induction l as [|x r IH]; cbn [updateFirst]; [reflexivity|].
  destruct (f x) eqn:E; cbn [updateFirst].
  - rewrite Hf, E. reflexivity.
  - rewrite E, IH. reflexivity.
Qed.

Lemma scheduleAppointment_accepted (h : Host.t) (date time reason : string) (d : Document.t) :
  Validator.validateAppointment (Host.isBeforeNow h) date time = [] ->
  let appointment := requested h date time reason in
  scheduleAppointment h date time reason d =
  (mkResult true None None (Some (EAppointment appointment)),
   Document.set_availableSlots
     (updateFirst (isSlot date (Some time)) (marked false) (Document.availableSlots d))
     (Document.set_appointments (appointment :: Document.appointments d) d),
   [AppointmentScheduled appointment]).
Proof.
  intros H. unfold scheduleAppointment. cbv zeta. rewrite H. reflexivity.
Qed.

(** X17. [scheduleAppointment] books whenever the date and the time are
    given and not in the past: it does not look at [available], so a slot
    that is already taken, or that does not exist, is booked all the same.
    The pending request goes in front of the appointments and the first slot
    of that date and time, if there is one, becomes unavailable.  Cancelling
    the request (dates and times hold no space) restores the list of
    appointments and leaves that slot available, whether or not it was
    available before the booking.  Neither call touches the profile. *)
Theorem schedule_then_cancel (h : Host.t) (date time reason : string) (d : Document.t) :
  JsString.trim date <> EmptyString ->
  JsString.trim time <> EmptyString ->
  Host.isBeforeNow h (date ++ "T" ++ time) = false ->
  noSpace date = true -> noSpace time = true ->
  let r1 := scheduleAppointment h date time reason d in
  let r2 := cancelAppointment (Host.nowMillis h) (document r1) in
  let this := isSlot date (Some time) in
  result r1 = mkResult true None None (Some (EAppointment (requested h date time reason))) /\
  Document.appointments (document r1) = requested h date time reason :: Document.appointments d /\
  Document.availableSlots (document r1) =
    updateFirst this (marked false) (Document.availableSlots d) /\
  result r2 = mkResult true None None None /\
  events r2 = [AppointmentCancelled (requested h date time reason)] /\
  Document.appointments (document r2) = Document.appointments d /\
  Document.availableSlots (document r2) =
    updateFirst this (marked true) (Document.availableSlots d) /\
  Document.userProfile (document r2) = Document.userProfile d.
Proof.
  intros Hd Ht Hnow Hsd Hst. cbv zeta.
  assert (Hv : Validator.validateAppointment (Host.isBeforeNow h) date time = [])
    by (apply appointment_rules; repeat split; assumption).
  rewrite (scheduleAppointment_accepted h date time reason d Hv).
  cbn [result document events fst snd Document.appointments Document.availableSlots
       Document.set_appointments Document.set_availableSlots].
  split; [reflexivity|]. split; [reflexivity|]. split; [reflexivity|].
  unfold cancelAppointment. rewrite bind_run.
  cbn [gets document result events fst snd app Document.appointments Document.availableSlots
       Document.set_appointments Document.set_availableSlots findIndex requested
       Appointment.id Appointment.date].
  rewrite Z.eqb_refl. cbn [Z.eqb Z.to_nat List.nth_error].
  change (Appointment.date (requested h date time reason)) with (date ++ " " ++ time).
  rewrite (splitSpaces_two date time Hsd Hst). cbn [List.nth List.nth_error].
  cbv [bind modify notify ret document result events]. cbn [fst snd app removeAt
       Document.appointments Document.availableSlots Document.set_appointments
       Document.set_availableSlots Document.userProfile].
  split; [reflexivity|]. split; [reflexivity|]. split; [reflexivity|].
  split; [|reflexivity].
  rewrite updateFirst_twice; [reflexivity|].
  intros s. reflexivity.
Qed.

Lemma schedule_then_cancel_witness :
  let r1 := scheduleAppointment Sample.host "2025-10-03" "10:00" "" Sample.initial in
  let r2 := cancelAppointment (Host.nowMillis Sample.host) (document r1) in
  (JsString.trim "2025-10-03" <> EmptyString /\ JsString.trim "10:00" <> EmptyString /\
   Host.isBeforeNow Sample.host ("2025-10-03" ++ "T" ++ "10:00") = false /\
   noSpace "2025-10-03" = true /\ noSpace "10:00" = true) /\
  List.map Slot.available (Document.availableSlots Sample.initial) =
    [true; false; true; true; true; false; true] /\
  success (result r1) = true /\
  List.map Slot.available (Document.availableSlots (document r2)) =
    [true; true; true; true; true; false; true] /\
  Document.appointments (document r2) = Document.appointments Sample.initial.
Proof.
  assert (H1 : JsString.trim "2025-10-03" <> EmptyString) by discriminate.
  assert (H2 : JsString.trim "10:00" <> EmptyString) by discriminate.
  assert (H3 : Host.isBeforeNow Sample.host ("2025-10-03" ++ "T" ++ "10:00") = false)
    by reflexivity.
  assert (H4 : noSpace "2025-10-03" = true) by reflexivity.
  assert (H5 : noSpace "10:00" = true) by reflexivity.
  cbv zeta. split; [exact (conj H1 (conj H2 (conj H3 (conj H4 H5))))|].
  destruct (schedule_then_cancel Sample.host "2025-10-03" "10:00" "" Sample.initial
              H1 H2 H3 H4 H5) as (E1 & _ & _ & _ & _ & E6 & E7 & _).
  split; [reflexivity|]. split; [rewrite E1; reflexivity|].
  split; [rewrite E7; reflexivity|exact E6].
Defined.

End AppointmentsMore.

(** ** The login form *)

Section LoginFormMore.
Import AppState LoginForm.
Local Open Scope store_scope.








End LoginFormMore.

(** ** Mood averages *)

Section MoodMore.
Import JsNumber AppState AnalyticsEngine Statistics.
Local Open Scope Q_scope.



















End MoodMore.

(** ** The other thresholds of the report *)

Section ReportMore.
Import JsNumber AppState AnalyticsEngine.
Local Open Scope Q_scope.





End ReportMore.

(** ** What an operation publishes *)

Section Published.
Import AppState Profile Footprint.
Local Open Scope store_scope.










Ltac named := intros; cbn; tauto.



















Example events_of_a_completion :
  List.map name (publish Sample.host (CompleteChallenge "challenge_5")
                   (Sample.withProfile (UserProfile.mk 560 4 0 None []
                                          ["challenge_1"; "challenge_2"; "challenge_3"; "challenge_4"]))) =
  [user_levelup; badge_awarded; user_levelup; xp_added; badge_awarded; challenge_completed].
Proof. vm_compute. reflexivity. Qed.

End Published.

(** ** The observer *)

Section ObserverMore.
Import StateObserver.

Lemma assoc_store_same (event : string) (callbacks : list Callback) (o : t) :
  assoc event (store event callbacks o) = Some callbacks.
Proof.
  induction o as [|[k v] r IH]; cbn [store assoc].
  - rewrite String.eqb_refl. reflexivity.
  - destruct (String.eqb k event) eqn:E; cbn [assoc]; rewrite E; [reflexivity|exact IH].
Qed.

Lemma assoc_store_other (event other : string) (callbacks : list Callback) (o : t) :
  other <> event -> assoc other (store event callbacks o) = assoc other o.
Proof.
  intros Hne. induction o as [|[k v] r IH]; cbn [store assoc].
  - destruct (String.eqb event other) eqn:E; [apply String.eqb_eq in E; congruence|reflexivity].
  - destruct (String.eqb k event) eqn:E; cbn [assoc].
    + apply String.eqb_eq in E. subst k.
      destruct (String.eqb event other) eqn:E'; [apply String.eqb_eq in E'; congruence|].
      reflexivity.
    + destruct (String.eqb k other); [reflexivity|exact IH].
Qed.

Lemma notify_store_same (event : string) (callbacks : list Callback) (o : t) :
  notify event (store event callbacks o) = Some callbacks.
Proof. unfold notify, lookup, getProperty. rewrite assoc_store_same. reflexivity. Qed.

Lemma notify_store_other (event other : string) (callbacks : list Callback) (o : t) :
  other <> event -> notify other (store event callbacks o) = notify other o.
Proof.
  intros H. unfold notify, lookup, getProperty. rewrite (assoc_store_other _ _ _ _ H).
  reflexivity.
Qed.

(** X23. The observer.  Under a name that is not a member of
    [Object.prototype], [subscribe] adds the callback behind those already
    registered for the event, so [notify] calls them in the order of
    subscription, a callback once per registration, and leaves the other
    events alone; under an inherited name [subscribe] and [notify] throw.
    The function [subscribe] returns removes every registration of its
    callback for the event, those made by other calls of [subscribe]
    included, keeps the other callbacks in order and leaves the other events
    alone: a callback subscribed twice is silenced by either of the two
    functions returned. *)
Theorem observer_contract (event : string) (callback : Callback) (o : t) :
  (In event objectPrototypeKeys -> assoc event o = None ->
     subscribe event callback o = None /\ notify event o = None) /\
  (~ In event objectPrototypeKeys ->
     exists called o1,
       notify event o = Some called /\
       subscribe event callback o = Some o1 /\
       notify event o1 = Some (called ++ [callback])%list /\
       (forall other, other <> event -> notify other o1 = notify other o) /\
       (forall o2 called2,
          notify event o2 = Some called2 -> assoc event o2 <> None ->
          exists o3,
            unsubscribe event callback o2 = Some o3 /\
            notify event o3 =
              Some (List.filter (fun cb => negb (Nat.eqb cb callback)) called2) /\
            ~ (exists calls, notify event o3 = Some calls /\ In callback calls) /\
            (forall other, other <> event -> notify other o3 = notify other o2))).
Proof.
  split.
  - intros Hin Hnone. unfold subscribe, notify, lookup, getProperty. rewrite Hnone.
    apply includes_In in Hin. rewrite Hin. split; reflexivity.
  - intros Hnot. apply includes_false in Hnot.
    assert (Hsub : forall o', exists called o1,
               notify event o' = Some called /\
               subscribe event callback o' = Some o1 /\
               notify event o1 = Some (called ++ [callback])%list /\
               (forall other, other <> event -> notify other o1 = notify other o')).
    { intros o'. unfold subscribe, notify at 1, lookup, getProperty.
      destruct (assoc event o') as [l|] eqn:E.
      - exists l, (store event (l ++ [callback])%list o').
        split; [reflexivity|]. split; [reflexivity|].
        split; [apply notify_store_same|]. intros other Ho. apply notify_store_other, Ho.
      - rewrite Hnot. exists [], (store event [callback] o').
        split; [reflexivity|]. split; [reflexivity|].
        split; [apply notify_store_same|]. intros other Ho. apply notify_store_other, Ho. }
    destruct (Hsub o) as (called & o1 & H1 & H2 & H3 & H4).
    exists called, o1. split; [exact H1|]. split; [exact H2|]. split; [exact H3|].
    split; [exact H4|].
    intros o2 called2 Hn Hown.
    unfold unsubscribe, lookup, getProperty. unfold notify, lookup, getProperty in Hn.
    destruct (assoc event o2) as [l|] eqn:E; [|contradiction].
    injection Hn as <-.
    eexists. split; [reflexivity|]. split; [apply notify_store_same|].
    split.
    + intros (calls & Hc & Hin). rewrite notify_store_same in Hc. injection Hc as <-.
      apply filter_In in Hin. destruct Hin as [_ Hin].
      rewrite Nat.eqb_refl in Hin. discriminate Hin.
    + intros other Ho. apply notify_store_other, Ho.
Qed.

Lemma observer_contract_witness :
  let badge := "badge:awarded" in
  ~ In badge objectPrototypeKeys /\
  (exists o1 o2 o3,
     subscribe badge 7%nat create = Some o1 /\ subscribe badge 9%nat o1 = Some o2 /\
     subscribe badge 7%nat o2 = Some o3 /\ notify badge o3 = Some [7; 9; 7]%nat /\
     exists o4, unsubscribe badge 7%nat o3 = Some o4 /\ notify badge o4 = Some [9]%nat) /\
  subscribe "constructor" 7%nat create = None.
Proof.
  assert (H : ~ In "badge:awarded" objectPrototypeKeys) by (cbn; intuition discriminate).
  destruct (observer_contract "badge:awarded" 7%nat create) as [_ Hok].
  destruct (Hok H) as (called & o1 & H1 & H2 & H3 & _).
  cbv zeta. split; [exact H|]. split.
  - exists o1. injection H1 as <-. cbn in H2. injection H2 as <-.
    do 2 eexists. repeat split. eexists. split; reflexivity.
  - reflexivity.
Defined.

End ObserverMore.

(** ** What is stored escaped *)

Section Escaping.
Import AppState Items.
Local Open Scope store_scope.

Lemma hasAngle_app (a b : string) : hasAngle (a ++ b) = hasAngle a || hasAngle b.
Proof.
  induction a as [|c r IH]; cbn [hasAngle String.append]; [reflexivity|].
  rewrite IH, !orb_assoc. reflexivity.
Qed.

Lemma escapeChar_plain (c : ascii) : hasAngle (Validator.escapeChar c) = false.
Proof.
  unfold Validator.escapeChar.
  destruct (Ascii.eqb c "&"); [reflexivity|].
  destruct (Ascii.eqb c "<") eqn:E1; [reflexivity|].
  destruct (Ascii.eqb c ">") eqn:E2; [reflexivity|].
  destruct (Nat.eqb _ 160); [reflexivity|].
  cbn [hasAngle]. rewrite E1, E2. reflexivity.
Qed.

Lemma html_plain (text : string) : hasAngle (Validator.html text) = false.
Proof.
  induction text as [|c r IH]; cbn [Validator.html]; [reflexivity|].
  rewrite hasAngle_app, escapeChar_plain, IH. reflexivity.
Qed.

Lemma html_length (text : string) :
  (String.length text <= String.length (Validator.html text))%nat.
Proof.
  induction text as [|c r IH]; cbn [Validator.html String.length]; [lia|].
  assert (H : (1 <= String.length (Validator.escapeChar c))%nat).
  { unfold Validator.escapeChar.
    repeat match goal with |- context [if ?b then _ else _] => destruct b end; cbn; lia. }
  assert (Hl : forall a b, String.length (a ++ b) = (String.length a + String.length b)%nat).
  { intros a b. induction a as [|x a IHa]; cbn; [reflexivity|]. rewrite IHa. reflexivity. }
  rewrite Hl. lia.
Qed.

(** X24. What [login] and [scheduleAppointment] store is escaped, what
    [addGoal] stores is not.  The user name a successful [login] stores
    holds no angle bracket, whatever was typed, and is never shorter than
    the input; the reason a successful [scheduleAppointment] stores holds
    no angle bracket either.  A goal title goes through the text sanitizer,
    which trims, removes script elements and cuts at 10000 characters: an
    accepted title without white space around it, in which the host's
    expression finds no script element, is stored as typed, angle brackets
    included. *)
Theorem stored_markup (h : Host.t) (d : Document.t) :
  (forall userName,
     success (result (login h userName d)) = true ->
     exists stored,
       Document.userName (document (login h userName d)) = Some stored /\
       hasAngle stored = false /\ (String.length userName <= String.length stored)%nat) /\
  (forall date time reason,
     success (result (scheduleAppointment h date time reason d)) = true ->
     exists appointment stored rest,
       Document.appointments (document (scheduleAppointment h date time reason d)) =
         appointment :: rest /\
       Appointment.reason appointment = Some stored /\
       hasAngle stored = false) /\
  (forall title,
     Forms.accepted 3 200 title ->
     Host.stripScripts h (JsString.trim title) = JsString.trim title ->
     JsString.trim title = title ->
     exists goal rest,
       Document.goals (document (addGoal h title d)) = goal :: rest /\
       Goal.title goal = title).
Proof.
  split; [|split].
  - intros userName Hs.
    destruct (Validator.validateField userName
                [Validator.RRequired; Validator.RMinLength 2] "Nome") as [|e l] eqn:E.
    + rewrite (login_accepted h userName d E). cbn [document fst snd Document.userName
        Document.set_userName].
      eexists. split; [reflexivity|]. split; [apply html_plain|apply html_length].
    + assert (Hne : Validator.validateField userName
                      [Validator.RRequired; Validator.RMinLength 2] "Nome" <> [])
        by (rewrite E; discriminate).
      rewrite (login_rejected h userName d Hne) in Hs. discriminate Hs.
  - intros date time reason Hs.
    destruct (Validator.validateAppointment (Host.isBeforeNow h) date time) as [|e l] eqn:E.
    + rewrite (scheduleAppointment_accepted h date time reason d E).
      cbn [document fst snd Document.appointments Document.set_appointments
           Document.set_availableSlots].
      do 3 eexists. split; [reflexivity|]. split; [reflexivity|]. apply html_plain.
    + unfold scheduleAppointment in Hs. cbv zeta in Hs. rewrite E in Hs.
      cbn in Hs. discriminate Hs.
  - intros title Hok Hstrip Htrim.
    rewrite (addGoal_accepted h title d Hok).
    cbn [document fst snd Document.goals Document.set_goals].
    do 2 eexists. split; [reflexivity|].
    assert (Hne : JsString.isEmpty title = false).
    { apply isEmpty_false. intros E. destruct Hok as [Hb _]. subst title. apply Hb. reflexivity. }
    assert (Ht : Validator.text (Host.stripScripts h) title =
                 String.substring 0 (Z.to_nat 10000) title).
    { unfold Validator.text. rewrite Hne, Hstrip, Htrim. reflexivity. }
    cbn [Goal.title]. rewrite Ht.
    assert (Hlen : Z.of_nat (String.length title) <= 200) by apply Hok.
    assert (Hsub : forall (s : string) (n : nat),
               (String.length s <= n)%nat -> String.substring 0 n s = s).
    { induction s as [|c r IH]; intros n Hn; destruct n; cbn in *; try reflexivity; try lia.
      rewrite IH by lia. reflexivity. }
    apply Hsub. lia.
Qed.

Lemma stored_markup_witness :
  let title := "<img src=x onerror=alert(1)>" in
  let d := Sample.initial in
  (Forms.accepted 3 200 title /\
   Host.stripScripts Sample.host (JsString.trim title) = JsString.trim title /\
   JsString.trim title = title) /\
  (exists goal rest,
     Document.goals (document (addGoal Sample.host title d)) = goal :: rest /\
     Goal.title goal = title) /\
  Document.userName (document (login Sample.host "<b>Ana</b>" d)) = Some "&lt;b&gt;Ana&lt;/b&gt;".
Proof.
  set (title := "<img src=x onerror=alert(1)>").
  assert (H1 : Forms.accepted 3 200 title) by (split; [discriminate|cbn; lia]).
  assert (H2 : Host.stripScripts Sample.host (JsString.trim title) = JsString.trim title)
    by reflexivity.
  assert (H3 : JsString.trim title = title) by reflexivity.
  cbv zeta. split; [exact (conj H1 (conj H2 H3))|].
  destruct (stored_markup Sample.host Sample.initial) as (_ & _ & Hgoal).
  destruct (Hgoal title H1 H2 H3) as (goal & rest & E & Et).
  split; [|vm_compute; reflexivity].
  exists goal, rest. split; [exact E|exact Et].
Defined.

End Escaping.

(** ** The feeling form *)

Section FeelingFormMore.
Import AppState FeelingForm.
Local Open Scope store_scope.

Lemma missing_false (data : FormData) (field : string) :
  missing data field = false <->
  exists value, assoc field data = Some value /\ value <> EmptyString.
Proof.
  unfold missing. destruct (assoc field data) as [v|].
  - rewrite isEmpty_false. split.
    + intros H. exists v. split; [reflexivity|exact H].
    + intros (w & E & H). injection E as <-. exact H.
  - split; [discriminate|]. intros (w & E & _). discriminate E.
Qed.

Lemma required_errors (data : FormData) :
  List.flat_map (fun field => if missing data field then [MsgFieldRequired field] else [])
    required = [] <->
  (forall field, In field required ->
     exists value, assoc field data = Some value /\ value <> EmptyString).
Proof.
  unfold required. cbn [List.flat_map]. split.
  - intros H field Hin. apply missing_false.
    cbn in Hin.
    repeat (destruct Hin as [<-|Hin];
            [repeat match goal with
               | H : context [missing data ?f] |- missing data _ = false =>
                   destruct (missing data f) eqn:?; cbn in H; try discriminate H
               end; try reflexivity; assumption|]).
    destruct Hin.
  - intros H.
    repeat match goal with
      | |- context [missing data ?f] =>
          let E := fresh "E" in
          assert (E : missing data f = false) by (apply missing_false, H; cbn; tauto);
          rewrite E; clear E
      end.
    reflexivity.
Qed.

(** [validateFeelingForm] accepts exactly the complete forms. *)
Lemma validateFeelingForm_valid (stripScripts : string -> string) (data : FormData) :
  (complete data ->
   validateFeelingForm stripScripts data =
   mkValidation true []
     (Some (setProperty "descricao"
              (Validator.text stripScripts
                 match assoc "descricao" data with Some v => v | None => EmptyString end)
              data))) /\
  (~ complete data ->
   isValid (validateFeelingForm stripScripts data) = false /\
   sanitized (validateFeelingForm stripScripts data) = None).
Proof.
  unfold validateFeelingForm, complete. cbv zeta.
  set (errors := List.flat_map _ required).
  pose proof (required_errors data) as Hreq. fold errors in Hreq.
  set (hasOther := List.existsb _ _).
  assert (Hund : (match assoc "descricao" data with
                  | Some descricao =>
                      JsString.isEmpty descricao
                      || (Z.of_nat (String.length (JsString.trim descricao)) <? 5)
                  | None => true
                  end) = false <->
                 exists descricao, assoc "descricao" data = Some descricao /\
                                   5 <= Z.of_nat (String.length (JsString.trim descricao))).
  { destruct (assoc "descricao" data) as [v|].
    - split.
      + intros H. apply orb_false_iff in H. destruct H as [_ H]. apply Z.ltb_ge in H.
        exists v. split; [reflexivity|exact H].
      + intros (w & E & H). injection E as <-. apply orb_false_iff. split.
        * apply isEmpty_false. intros ->. cbn in H. lia.
        * apply Z.ltb_ge, H.
    - split; [discriminate|]. intros (w & E & _). discriminate E. }
  set (undescribed := match assoc "descricao" data with Some _ => _ | None => true end) in *.
  split.
  - intros [H1 H2]. apply Hreq in H1. rewrite H1.
    assert (E : hasOther && undescribed = false).
    { destruct hasOther; [|reflexivity]. cbn. apply Hund, H2. reflexivity. }
    rewrite E. reflexivity.
  - intros Hn.
    assert (E : exists e l, (if hasOther && undescribed
                             then (errors ++ [MsgDescribeOther])%list else errors) = e :: l).
    { destruct (hasOther && undescribed) eqn:Eo.
      - destruct errors as [|e l]; [exists MsgDescribeOther, []|eexists; eexists]; reflexivity.
      - destruct errors as [|e l]; [|eexists; eexists; reflexivity].
        exfalso. apply Hn. split; [apply Hreq; reflexivity|].
        intros Ho. rewrite Ho in Eo. cbn in Eo. apply Hund, Eo. }
    destruct E as (e & l & E). rewrite E. split; reflexivity.
Qed.

Lemma assoc_setProperty_other (key other value : string) (data : FormData) :
  other <> key -> assoc other (setProperty key value data) = assoc other data.
Proof.
  intros Hne. induction data as [|[k v] r IH]; cbn [setProperty assoc].
  - destruct (String.eqb key other) eqn:E; [apply String.eqb_eq in E; congruence|reflexivity].
  - destruct (String.eqb k key) eqn:E; cbn [assoc].
    + apply String.eqb_eq in E. subst k.
      destruct (String.eqb key other) eqn:E'; [apply String.eqb_eq in E'; congruence|].
      reflexivity.
    + destruct (String.eqb k other); [reflexivity|exact IH].
Qed.

Lemma In_setProperty (key value : string) (data : FormData) :
  In (key, value) (setProperty key value data).
Proof.
  induction data as [|[k v] r IH]; cbn [setProperty]; [left; reflexivity|].
  destruct (String.eqb k key) eqn:E.
  - apply String.eqb_eq in E. subst k. left. reflexivity.
  - right. exact IH.
Qed.

(** X25. The feeling form.  [validateFeelingForm] accepts exactly the
    forms that hold the five required fields and, whenever some value
    contains "outro", a description of five characters or more.  For an
    accepted form without fields named emotion, date or timestamp,
    [handleFeelingFormSubmit] records one feeling: its emotion, and the
    mood of the one entry added to the history, is the emotion the form was
    opened with or, without one, the field [sentimento], whether or not it
    is a label of the mood scale; its date is today; and it carries the
    sanitized description.  For any other form nothing is recorded and
    nothing is published. *)
Theorem feeling_form (h : Host.t) (initialEmotion : option string) (data : FormData)
    (d : Document.t) :
  let r := handleFeelingFormSubmit h initialEmotion data d in
  let emotion := chosenEmotion initialEmotion data in
  (complete data ->
   assoc "emotion" data = None -> assoc "date" data = None ->
   assoc "timestamp" data = None ->
   exists feeling,
     Document.feelings (document r) = (Document.feelings d ++ [feeling])%list /\
     Feeling.emotion feeling = emotion /\
     Feeling.date feeling = Host.today h /\
     Document.moodHistory (document r) =
       (Document.moodHistory d ++ [MoodEntry.mk (Host.today h) emotion])%list /\
     In ("descricao",
         VStr (Validator.text (Host.stripScripts h)
                 match assoc "descricao" data with Some v => v | None => EmptyString end))
        (Feeling.extra feeling)) /\
  (~ complete data -> document r = d /\ events r = []).
Proof.
  cbv zeta. unfold handleFeelingFormSubmit. cbv zeta.
  destruct (validateFeelingForm_valid (Host.stripScripts h) data) as [Hyes Hno].
  split.
  - intros Hc He Hd Ht. rewrite (Hyes Hc). cbn [isValid sanitized].
    rewrite bind_run. cbn [ret document events fst snd].
    set (text := Validator.text _ _).
    set (details := detailsOf (setProperty "descricao" text data)).
    assert (Hde : Details.emotion details = None).
    { unfold details, detailsOf. cbn [Details.emotion].
      rewrite assoc_setProperty_other by discriminate. exact He. }
    assert (Hdd : Details.date details = None).
    { unfold details, detailsOf. cbn [Details.date].
      rewrite assoc_setProperty_other by discriminate. exact Hd. }
    assert (Hdt : Details.timestamp details = None).
    { unfold details, detailsOf. cbn [Details.timestamp].
      rewrite assoc_setProperty_other by discriminate. exact Ht. }
    exists (makeFeeling h (chosenEmotion initialEmotion data) details).
    split; [apply recordFeeling_feelings|].
    split; [unfold makeFeeling; cbv zeta; cbn [Feeling.emotion]; rewrite Hde; reflexivity|].
    assert (Hdate : Feeling.date (makeFeeling h (chosenEmotion initialEmotion data) details) =
                    Host.today h)
      by (unfold makeFeeling; cbv zeta; cbn [Feeling.date]; rewrite Hdd; reflexivity).
    split; [exact Hdate|].
    split; [rewrite recordFeeling_moodHistory, Hdate; reflexivity|].
    unfold makeFeeling. cbv zeta. cbn [Feeling.extra]. unfold details, detailsOf.
    cbn [Details.others].
    apply in_map_iff. exists ("descricao", text). split; [reflexivity|].
    apply filter_In. split; [apply In_setProperty|reflexivity].
  - intros Hn. destruct (Hno Hn) as [E1 E2].
    destruct (validateFeelingForm _ data) as [v e s]. cbn in E1, E2. subst v s.
    split; reflexivity.
Qed.

Lemma feeling_form_witness :
  let data := [("sentimento", "ansiedade"); ("causa", "provas"); ("lidar", "outro");
               ("precisa", "descanso"); ("laudo", "nao"); ("descricao", "  caminhar  ")] in
  let r := handleFeelingFormSubmit Sample.host None data Sample.initial in
  (complete data /\ assoc "emotion" data = None /\ assoc "date" data = None /\
   assoc "timestamp" data = None) /\
  List.map MoodEntry.mood (List.skipn 8 (Document.moodHistory (document r))) = ["ansiedade"] /\
  ~ complete (setProperty "descricao" "ok" data).
Proof.
  set (data := [("sentimento", "ansiedade"); ("causa", "provas"); ("lidar", "outro");
                ("precisa", "descanso"); ("laudo", "nao"); ("descricao", "  caminhar  ")]).
  assert (Hc : complete data).
  { split.
    - intros field Hin. cbn in Hin.
      repeat (destruct Hin as [<-|Hin]; [eexists; split; [reflexivity|discriminate]|]).
      destruct Hin.
    - intros _. eexists. split; [reflexivity|]. vm_compute. discriminate. }
  cbv zeta. split; [repeat split; [apply Hc..]|].
  destruct (feeling_form Sample.host None data Sample.initial) as [Hyes _].
  destruct (Hyes Hc eq_refl eq_refl eq_refl) as (feeling & _ & _ & _ & Hm & _).
  split; [rewrite Hm; reflexivity|].
  intros [_ H]. destruct (H eq_refl) as (v & E & Hv).
  cbn in E. injection E as <-. vm_compute in Hv. apply Hv. reflexivity.
Defined.

End FeelingFormMore.
